(** * rbac-gatekeeper: the authorization core, embedded and verified

    A shallow embedding of the RBAC core of the repository:
    - the entities and rows of [src/types] and of the migrations;
    - the two junction repositories ([UserRoleRepository],
      [RolePermissionRepository]) and [UserRepository.findByUsername],
      as queries over an explicit database state;
    - [RBACService] (permission resolution, credential check, tokens);
    - the two families of gate middleware: [AuthMiddleware] (live queries
      against the service) and [RBACMiddleware] (token snapshot).

    Asynchronous functions are embedded as their sequential meaning; a
    database write threads the [Database] value; a JavaScript exception is a
    value of the [Exc] monad, and [try ... catch] is [try_catch]. *)

From Stdlib Require Import String Ascii HexString List ZArith Bool Lia.
Import ListNotations.

Local Open Scope string_scope.
Local Open Scope list_scope.
Local Open Scope Z_scope.

(** ** Exceptions *)

(** What the code can [throw]: the database driver's errors and the errors
    of the [jsonwebtoken] library. *)
Inductive exn : Type :=
| SqlError (message : string)
| JsonWebTokenError (message : string)
| TokenExpiredError
| OtherError (message : string).

Inductive Exc (A : Type) : Type :=
| Return (a : A)
| Throw (e : exn).

Arguments Return {A} a.
Arguments Throw {A} e.

Definition bind {A B : Type} (m : Exc A) (k : A -> Exc B) : Exc B :=
  match m with
  | Return a => k a
  | Throw e => Throw e
  end.

(** [try { body } catch (error) { handler }] *)
Definition try_catch {A : Type} (body : Exc A) (handler : exn -> Exc A) : Exc A :=
  match body with
  | Return a => Return a
  | Throw e => handler e
  end.

Notation "x <- m ;; k" := (bind m (fun x => k))
  (at level 61, m at next level, right associativity).

(** [Promise.all]: every result in order, or the first rejection. *)
Fixpoint promise_all {A : Type} (ps : list (Exc A)) : Exc (list A) :=
  match ps with
  | [] => Return []
  | p :: ps' => a <- p ;; rest <- promise_all ps' ;; Return (a :: rest)
  end.

(** ** Array helpers of the JavaScript runtime *)

(** [Array.prototype.findIndex]: the index of the first element that
    satisfies the predicate, [-1] when there is none. *)
Fixpoint findIndex_from {A : Type} (f : A -> bool) (l : list A) (i : Z) : Z :=
  match l with
  | [] => -1
  | x :: l' => if f x then i else findIndex_from f l' (i + 1)
  end.

Definition findIndex {A : Type} (f : A -> bool) (l : list A) : Z :=
  findIndex_from f l 0.

(** [Array.prototype.filter] with the three-argument callback
    [(element, index, self)]. *)
Fixpoint filter_from {A : Type} (f : A -> Z -> bool) (l : list A) (i : Z) : list A :=
  match l with
  | [] => []
  | x :: l' =>
      if f x i then x :: filter_from f l' (i + 1) else filter_from f l' (i + 1)
  end.

Definition filter_indexed {A : Type} (f : A -> Z -> list A -> bool) (self : list A) : list A :=
  filter_from (fun x i => f x i self) self 0.

(** [Array.prototype.some] and [Array.prototype.includes] on strings. *)
Definition some {A : Type} (f : A -> bool) (l : list A) : bool := existsb f l.

Definition includes (l : list string) (x : string) : bool :=
  existsb (fun y => String.eqb y x) l.

(** [Array.prototype.join]. *)
Definition join_strings (sep : string) (l : list string) : string :=
  String.concat sep l.

(** ** Entities ([src/types]) *)

Module User.
Record t : Type := mk {
    id : string;
    username : string;
    email : string;
    password : string;
    isActive : bool;
    createdAt : Z;
    updatedAt : Z
  }.
End User.

Module Role.
Record t : Type := mk {
    id : string;
    name : string;
    description : option string;
    isActive : bool;
    createdAt : Z;
    updatedAt : Z
  }.
End Role.

Module Permission.
Record t : Type := mk {
    id : string;
    name : string;
    resource : string;
    action : string;
    description : option string;
    createdAt : Z;
    updatedAt : Z
  }.
End Permission.

Module UserRole.
Record t : Type := mk {
    id : string;
    userId : string;
    roleId : string;
    assignedAt : Z;
    assignedBy : string
  }.
End UserRole.

Module RolePermission.
Record t : Type := mk {
    id : string;
    roleId : string;
    permissionId : string;
    assignedAt : Z;
    assignedBy : string
  }.
End RolePermission.

Module PermissionCheck.
Record t : Type := mk {
    resource : string;
    action : string
  }.
End PermissionCheck.

Module JWTPayload.
Record t : Type := mk {
    userId : string;
    username : string;
    email : string;
    roles : list string;
    permissions : list string;
    iat : option Z;
    exp : option Z
  }.
End JWTPayload.

(** [Omit<User, 'password'>] *)
Module PublicUser.
Record t : Type := mk {
    id : string;
    username : string;
    email : string;
    isActive : bool;
    createdAt : Z;
    updatedAt : Z
  }.
End PublicUser.

Module AuthResult.
Record t : Type := mk {
    user : PublicUser.t;
    token : string;
    roles : list Role.t;
    permissions : list Permission.t
  }.
End AuthResult.

(** The [jwt] part of [RBACConfig]. *)
Module JwtConfig.
Record t : Type := mk {
    secret : string;
    expiresIn : string
  }.
End JwtConfig.

(** ** Tables (the migrations) *)

Module users_row.
Record t : Type := mk {
    id : string;
    username : string;
    email : string;
    password : string;
    is_active : bool;
    created_at : Z;
    updated_at : Z
  }.
End users_row.

Module roles_row.
Record t : Type := mk {
    id : string;
    name : string;
    description : option string;
    is_active : bool;
    created_at : Z;
    updated_at : Z
  }.
End roles_row.

(** The [permissions] table has no [is_active] column. *)
Module permissions_row.
Record t : Type := mk {
    id : string;
    name : string;
    resource : string;
    action : string;
    description : option string;
    created_at : Z;
    updated_at : Z
  }.
End permissions_row.

Module user_roles_row.
Record t : Type := mk {
    id : string;
    user_id : string;
    role_id : string;
    assigned_by : string;
    assigned_at : Z
  }.
End user_roles_row.

Module role_permissions_row.
Record t : Type := mk {
    id : string;
    role_id : string;
    permission_id : string;
    assigned_by : string;
    assigned_at : Z
  }.
End role_permissions_row.

(** The database state: each table is the list of its rows, in the order
    in which a scan returns them. *)
Record Database : Type := mkDatabase {
  users : list users_row.t;
  roles : list roles_row.t;
  permissions : list permissions_row.t;
  user_roles : list user_roles_row.t;
  role_permissions : list role_permissions_row.t
}.

(** ** The query builder *)

(** [knex(left).join(right, leftColumn, rightColumn)]: the inner join, a
    nested scan. *)
Definition join {A B : Type} (left : list A) (right : list B)
    (on : A -> B -> bool) : list (A * B) :=
  flat_map (fun a => map (fun b => (a, b)) (filter (on a) right)) left.

(** [.where(...)] keeps the rows that satisfy the condition. *)
Definition where_ {A : Type} (cond : A -> bool) (rows : list A) : list A :=
  filter cond rows.

(** [.first()]: the first row, [undefined] when there is none. *)
Definition first {A : Type} (rows : list A) : option A :=
  match rows with
  | [] => None
  | row :: _ => Some row
  end.

(** [!!result] for a row or [undefined]. *)
Definition truthy {A : Type} (result : option A) : bool :=
  match result with
  | Some _ => true
  | None => false
  end.

(** [.where(...).del()]: the remaining rows and the number deleted. *)
Definition del {A : Type} (cond : A -> bool) (rows : list A) : list A * Z :=
  (filter (fun row => negb (cond row)) rows,
   Z.of_nat (length (filter cond rows))).

(** [knex('role_permissions').insert(row)]: the primary key and the
    [unique(['role_id', 'permission_id'])] constraint of the migration
    reject the row with an exception; otherwise the row is appended. *)
Definition insert_role_permissions (db : Database) (row : role_permissions_row.t)
    : Exc Database :=
  if existsb (fun e => String.eqb (role_permissions_row.id e) (role_permissions_row.id row))
       (role_permissions db)
  then Throw (SqlError "UNIQUE constraint failed: role_permissions.id")
  else if existsb (fun e =>
        String.eqb (role_permissions_row.role_id e) (role_permissions_row.role_id row)
        && String.eqb (role_permissions_row.permission_id e)
                      (role_permissions_row.permission_id row))
       (role_permissions db)
  then Throw (SqlError
    "UNIQUE constraint failed: role_permissions.role_id, role_permissions.permission_id")
  else Return (mkDatabase (users db) (roles db) (permissions db) (user_roles db)
                 (role_permissions db ++ [row])).

(** [knex('user_roles').insert(row)], with [unique(['user_id', 'role_id'])]. *)
Definition insert_user_roles (db : Database) (row : user_roles_row.t) : Exc Database :=
  if existsb (fun e => String.eqb (user_roles_row.id e) (user_roles_row.id row))
       (user_roles db)
  then Throw (SqlError "UNIQUE constraint failed: user_roles.id")
  else if existsb (fun e =>
        String.eqb (user_roles_row.user_id e) (user_roles_row.user_id row)
        && String.eqb (user_roles_row.role_id e) (user_roles_row.role_id row))
       (user_roles db)
  then Throw (SqlError "UNIQUE constraint failed: user_roles.user_id, user_roles.role_id")
  else Return (mkDatabase (users db) (roles db) (permissions db)
                 (user_roles db ++ [row]) (role_permissions db)).

(** ** UserRepository *)

Module UserRepository.

Definition mapUser (user : users_row.t) : User.t :=
    User.mk (users_row.id user) (users_row.username user) (users_row.email user)
      (users_row.password user) (users_row.is_active user)
      (users_row.created_at user) (users_row.updated_at user).

Definition findByUsername (db : Database) (username : string) : option User.t :=
    match first (where_ (fun u => String.eqb (users_row.username u) username) (users db)) with
    | Some user => Some (mapUser user)
    | None => None
    end.

End UserRepository.

(** ** UserRoleRepository *)

Module UserRoleRepository.

Definition mapRole (role : roles_row.t) : Role.t :=
    Role.mk (roles_row.id role) (roles_row.name role) (roles_row.description role)
      (roles_row.is_active role) (roles_row.created_at role) (roles_row.updated_at role).

Definition mapUserRole (userRole : user_roles_row.t) : UserRole.t :=
    UserRole.mk (user_roles_row.id userRole) (user_roles_row.user_id userRole)
      (user_roles_row.role_id userRole) (user_roles_row.assigned_at userRole)
      (user_roles_row.assigned_by userRole).

  (** ['user_roles as ur' join 'roles as r' on ur.role_id = r.id] *)
Definition ur_join_r (db : Database) : list (user_roles_row.t * roles_row.t) :=
    join (user_roles db) (roles db)
      (fun ur r => String.eqb (user_roles_row.role_id ur) (roles_row.id r)).

  (** [newId] is the key the table's default generates and [now] is
      [new Date()]. *)
Definition assignRole (db : Database) (newId : string) (now : Z)
      (userId roleId assignedBy : string) : Exc (bool * Database) :=
    try_catch
      (db' <- insert_user_roles db (user_roles_row.mk newId userId roleId assignedBy now) ;;
       Return (true, db'))
      (fun _ => Return (false, db)).

Definition removeRole (db : Database) (userId roleId : string) : bool * Database :=
    let '(rest, deleted) :=
      del (fun ur => String.eqb (user_roles_row.user_id ur) userId
                     && String.eqb (user_roles_row.role_id ur) roleId) (user_roles db) in
    (0 <? deleted,
     mkDatabase (users db) (roles db) (permissions db) rest (role_permissions db)).

Definition getUserRoles (db : Database) (userId : string) : list Role.t :=
    let roles :=
      map snd
        (where_ (fun row => Bool.eqb (roles_row.is_active (snd row)) true)
           (where_ (fun row => String.eqb (user_roles_row.user_id (fst row)) userId)
              (ur_join_r db))) in
    map mapRole roles.

Definition hasRole (db : Database) (userId roleName : string) : bool :=
    let result :=
      first
        (where_ (fun row => Bool.eqb (roles_row.is_active (snd row)) true)
           (where_ (fun row => String.eqb (roles_row.name (snd row)) roleName)
              (where_ (fun row => String.eqb (user_roles_row.user_id (fst row)) userId)
                 (ur_join_r db)))) in
    truthy result.

Definition getUserRoleAssignments (db : Database) (userId : string) : list UserRole.t :=
    map mapUserRole
      (where_ (fun ur => String.eqb (user_roles_row.user_id ur) userId) (user_roles db)).

End UserRoleRepository.

(** ** RolePermissionRepository *)

Module RolePermissionRepository.

Definition mapPermission (permission : permissions_row.t) : Permission.t :=
    Permission.mk (permissions_row.id permission) (permissions_row.name permission)
      (permissions_row.resource permission) (permissions_row.action permission)
      (permissions_row.description permission) (permissions_row.created_at permission)
      (permissions_row.updated_at permission).

Definition mapRolePermission (rolePermission : role_permissions_row.t) : RolePermission.t :=
    RolePermission.mk (role_permissions_row.id rolePermission)
      (role_permissions_row.role_id rolePermission)
      (role_permissions_row.permission_id rolePermission)
      (role_permissions_row.assigned_at rolePermission)
      (role_permissions_row.assigned_by rolePermission).

  (** ['role_permissions as rp' join 'permissions as p' on rp.permission_id = p.id] *)
Definition rp_join_p (db : Database) : list (role_permissions_row.t * permissions_row.t) :=
    join (role_permissions db) (permissions db)
      (fun rp p => String.eqb (role_permissions_row.permission_id rp) (permissions_row.id p)).

Definition assignPermission (db : Database) (newId : string) (now : Z)
      (roleId permissionId assignedBy : string) : Exc (bool * Database) :=
    try_catch
      (db' <- insert_role_permissions db
                (role_permissions_row.mk newId roleId permissionId assignedBy now) ;;
       Return (true, db'))
      (fun _ => Return (false, db)).

Definition removePermission (db : Database) (roleId permissionId : string)
      : bool * Database :=
    let '(rest, deleted) :=
      del (fun rp => String.eqb (role_permissions_row.role_id rp) roleId
                     && String.eqb (role_permissions_row.permission_id rp) permissionId)
          (role_permissions db) in
    (0 <? deleted,
     mkDatabase (users db) (roles db) (permissions db) (user_roles db) rest).

Definition getRolePermissions (db : Database) (roleId : string) : list Permission.t :=
    let permissions :=
      map snd
        (where_ (fun row => String.eqb (role_permissions_row.role_id (fst row)) roleId)
           (rp_join_p db)) in
    map mapPermission permissions.

Definition hasPermission (db : Database) (roleId permissionName : string) : bool :=
    let result :=
      first
        (where_ (fun row => String.eqb (permissions_row.name (snd row)) permissionName)
           (where_ (fun row => String.eqb (role_permissions_row.role_id (fst row)) roleId)
              (rp_join_p db))) in
    truthy result.

Definition getRolePermissionAssignments (db : Database) (roleId : string)
      : list RolePermission.t :=
    map mapRolePermission
      (where_ (fun rp => String.eqb (role_permissions_row.role_id rp) roleId)
         (role_permissions db)).

End RolePermissionRepository.

(** ** The runtime outside the repository *)

(** [Omit<JWTPayload, 'iat' | 'exp'>], the argument of [generateToken]. *)
Module TokenClaims.
Record t : Type := mk {
    userId : string;
    username : string;
    email : string;
    roles : list string;
    permissions : list string
  }.
End TokenClaims.

(** The primitives the code takes from [bcryptjs] and from the platform
    under [jsonwebtoken]. They are parameters of the development.
    - [bcrypt_compare plain hash] is [bcrypt.compare];
    - [hmac key data] is the base64url HMAC of [data] under [key];
    - [encode_claims] and [decode_claims] are base64url of the JSON text of
      a payload and its inverse, [None] when the segment is not such a text;
    - [timespan] reads an [expiresIn] string such as ['24h'] as seconds. *)
Class Runtime : Type := {
  bcrypt_compare : string -> string -> bool;
  hmac : string -> string -> string;
  encode_claims : JWTPayload.t -> string;
  decode_claims : string -> option JWTPayload.t;
  timespan : string -> option Z
}.

(** [String.prototype.split] on a one-character separator. *)
Fixpoint split (sep : Ascii.ascii) (s : string) : list string :=
  match s with
  | EmptyString => [EmptyString]
  | String c s' =>
      if Ascii.eqb c sep then EmptyString :: split sep s'
      else match split sep s' with
           | [] => [String c EmptyString]
           | segment :: segments => String c segment :: segments
           end
  end.

Module jwt.
Section WithRuntime.
Context {RT : Runtime}.

Definition dot : Ascii.ascii := "."%char.

  (** base64url of the JSON text of the HS256 header. *)
Definition header_segment : string := "eyJhbGciOiJIUzI1NiIsInR5cCI6IkpXVCJ9".

Definition stamp (payload : TokenClaims.t) (iat exp : Z) : JWTPayload.t :=
    JWTPayload.mk (TokenClaims.userId payload) (TokenClaims.username payload)
      (TokenClaims.email payload) (TokenClaims.roles payload)
      (TokenClaims.permissions payload) (Some iat) (Some exp).

  (** Modelled from the spec: [jwt.sign] of the [jsonwebtoken] package, which
      is not part of the repository. The spec asks for a signed,
      tamper-evident token that embeds the claims plus issued-at and a
      fixed-TTL expires-at; the model is the compact form of such a token,
      [header.payload.signature], the signature being the keyed hash of
      [header.payload]. [now] is the clock, in seconds. *)
Definition sign (payload : TokenClaims.t) (secret expiresIn : string) (now : Z)
      : Exc string :=
    match timespan expiresIn with
    | None => Throw (OtherError "invalid expiresIn option")
    | Some ttl =>
        let signing_input :=
          (header_segment ++ "." ++ encode_claims (stamp payload now (now + ttl)))%string in
        Return (signing_input ++ "." ++ hmac secret signing_input)%string
    end.

  (** Modelled from the spec: [jwt.verify] of the [jsonwebtoken] package. It
      throws on a malformed structure, on a signature mismatch and on
      expiry, and returns the embedded claims of a valid token. *)
Definition verify (token secret : string) (now : Z) : Exc JWTPayload.t :=
    match split dot token with
    | [header; body; signature] =>
        if negb (String.eqb header header_segment)
        then Throw (JsonWebTokenError "invalid token")
        else
          match decode_claims body with
          | None => Throw (JsonWebTokenError "invalid token")
          | Some payload =>
              if negb (String.eqb signature (hmac secret (header ++ "." ++ body)%string))
              then Throw (JsonWebTokenError "invalid signature")
              else
                match JWTPayload.exp payload with
                | Some exp =>
                    if exp <=? now then Throw TokenExpiredError else Return payload
                | None => Return payload
                end
          end
    | _ => Throw (JsonWebTokenError "jwt malformed")
    end.

End WithRuntime.
End jwt.

(** ** RBACService *)

Module RBACService.
Section WithRuntime.
Context {RT : Runtime}.
Variable config : JwtConfig.t.

Definition getUserRoles (db : Database) (userId : string) : list Role.t :=
    UserRoleRepository.getUserRoles db userId.

Definition getRolePermissions (db : Database) (roleId : string) : list Permission.t :=
    RolePermissionRepository.getRolePermissions db roleId.

  (** The service discards the boolean of the repository call and answers
      [true] unless that call throws. *)
Definition assignPermissionToRole (db : Database) (newId : string) (now : Z)
      (roleId permissionId assignedBy : string) : Exc (bool * Database) :=
    try_catch
      (r <- RolePermissionRepository.assignPermission db newId now roleId permissionId
              assignedBy ;;
       Return (true, snd r))
      (fun _ => Return (false, db)).

Definition assignRoleToUser (db : Database) (newId : string) (now : Z)
      (userId roleId assignedBy : string) : Exc (bool * Database) :=
    try_catch
      (r <- UserRoleRepository.assignRole db newId now userId roleId assignedBy ;;
       Return (true, snd r))
      (fun _ => Return (false, db)).

Definition getUserPermissions (db : Database) (userId : string) : list Permission.t :=
    let userRoles := UserRoleRepository.getUserRoles db userId in
    let allPermissions :=
      fold_left
        (fun allPermissions role =>
           allPermissions ++ RolePermissionRepository.getRolePermissions db (Role.id role))
        userRoles [] in
    let uniquePermissions :=
      filter_indexed
        (fun permission index self =>
           index =? findIndex
                      (fun p => String.eqb (Permission.id p) (Permission.id permission))
                      self)
        allPermissions in
    uniquePermissions.

Definition hasPermission (db : Database) (userId : string)
      (permissionCheck : PermissionCheck.t) : bool :=
    let userPermissions := getUserPermissions db userId in
    some (fun permission =>
            String.eqb (Permission.resource permission)
                       (PermissionCheck.resource permissionCheck)
            && String.eqb (Permission.action permission)
                          (PermissionCheck.action permissionCheck))
         userPermissions.

Definition hasRole (db : Database) (userId roleName : string) : bool :=
    UserRoleRepository.hasRole db userId roleName.

  (** [now] is the clock the token library reads. [generateToken] has no
      handler: what [jwt.sign] throws, it throws. *)
Definition generateToken (now : Z) (payload : TokenClaims.t) : Exc string :=
    jwt.sign payload (JwtConfig.secret config) (JwtConfig.expiresIn config) now.

Definition verifyToken (now : Z) (token : string) : Exc (option JWTPayload.t) :=
    try_catch
      (payload <- jwt.verify token (JwtConfig.secret config) now ;; Return (Some payload))
      (fun _ => Return None).

Definition authenticateUser (db : Database) (now : Z) (username password : string)
      : Exc (option AuthResult.t) :=
    let user := UserRepository.findByUsername db username in
    match user with
    | None => Return None
    | Some user =>
        if negb (User.isActive user) then Return None
        else
          let isValidPassword := bcrypt_compare password (User.password user) in
          if negb isValidPassword then Return None
          else
            let roles := UserRoleRepository.getUserRoles db (User.id user) in
            let permissions := getUserPermissions db (User.id user) in
            token <- generateToken now
                       (TokenClaims.mk (User.id user) (User.username user) (User.email user)
                          (map Role.name roles) (map Permission.name permissions)) ;;
            Return (Some (AuthResult.mk
                            (PublicUser.mk (User.id user) (User.username user)
                               (User.email user) (User.isActive user)
                               (User.createdAt user) (User.updatedAt user))
                            token roles permissions))
    end.

End WithRuntime.
End RBACService.

(** ** The gates *)

(** What a middleware does with a request: it calls [next()] or it answers
    [res.status(status).json({ error })]. *)
Inductive Outcome : Type :=
| Next
| Respond (status : Z) (error : string).

(** The template [`${resource}:${action}`] and its legacy form with a dot. *)
Definition colon_name (permissionCheck : PermissionCheck.t) : string :=
  (PermissionCheck.resource permissionCheck ++ ":"
   ++ PermissionCheck.action permissionCheck)%string.

Definition dot_name (permissionCheck : PermissionCheck.t) : string :=
  (PermissionCheck.resource permissionCheck ++ "."
   ++ PermissionCheck.action permissionCheck)%string.

(** *** AuthMiddleware: live queries *)

Module AuthMiddleware.

  (** The two asynchronous methods of [RBACService] the gates await; each
      may reject. *)
Record Service : Type := mkService {
    hasRole : string -> string -> Exc bool;
    hasPermission : string -> PermissionCheck.t -> Exc bool
  }.

  (** The service over a database state. *)
Definition live (db : Database) : Service :=
    mkService (fun userId roleName => Return (RBACService.hasRole db userId roleName))
              (fun userId permissionCheck =>
                 Return (RBACService.hasPermission db userId permissionCheck)).

Section Gates.
Variable rbacService : Service.

Definition requireRole (roleName : string) (user : option JWTPayload.t) : Exc Outcome :=
    try_catch
      (match user with
       | None => Return (Respond 401 "Usuário não autenticado")
       | Some user =>
           hasRole <- hasRole rbacService (JWTPayload.userId user) roleName ;;
           if negb hasRole
           then Return (Respond 403
                  ("Acesso negado. Role '" ++ roleName ++ "' é necessária")%string)
           else Return Next
       end)
      (fun _ => Return (Respond 500 "Erro na verificação de role")).

Definition requirePermission (permissionCheck : PermissionCheck.t)
      (user : option JWTPayload.t) : Exc Outcome :=
    try_catch
      (match user with
       | None => Return (Respond 401 "Usuário não autenticado")
       | Some user =>
           hasPermission <-
             hasPermission rbacService (JWTPayload.userId user) permissionCheck ;;
           if negb hasPermission
           then Return (Respond 403
                  ("Acesso negado. Permissão '" ++ PermissionCheck.action permissionCheck
                   ++ "' em '" ++ PermissionCheck.resource permissionCheck
                   ++ "' é necessária")%string)
           else Return Next
       end)
      (fun _ => Return (Respond 500 "Erro na verificação de permissão")).

Definition requireAnyRole (roleNames : list string) (user : option JWTPayload.t)
      : Exc Outcome :=
    try_catch
      (match user with
       | None => Return (Respond 401 "Usuário não autenticado")
       | Some user =>
           hasAnyRole <-
             promise_all
               (map (fun roleName => hasRole rbacService (JWTPayload.userId user) roleName)
                    roleNames) ;;
           if negb (some (fun hasRole => hasRole) hasAnyRole)
           then Return (Respond 403
                  ("Acesso negado. Uma das roles é necessária: "
                   ++ join_strings ", " roleNames)%string)
           else Return Next
       end)
      (fun _ => Return (Respond 500 "Erro na verificação de roles")).

Definition requireAnyPermission (permissionChecks : list PermissionCheck.t)
      (user : option JWTPayload.t) : Exc Outcome :=
    try_catch
      (match user with
       | None => Return (Respond 401 "Usuário não autenticado")
       | Some user =>
           hasAnyPermission <-
             promise_all
               (map (fun permissionCheck =>
                       hasPermission rbacService (JWTPayload.userId user) permissionCheck)
                    permissionChecks) ;;
           if negb (some (fun hasPermission => hasPermission) hasAnyPermission)
           then Return (Respond 403
                  "Acesso negado. Pelo menos uma das permissões é necessária")
           else Return Next
       end)
      (fun _ => Return (Respond 500 "Erro na verificação de permissões")).

End Gates.
End AuthMiddleware.

(** *** RBACMiddleware: the token snapshot *)

Module RBACMiddleware.

Definition requireRole (roleName : string) (user : option JWTPayload.t) : Exc Outcome :=
    try_catch
      (match user with
       | None => Return (Respond 401 "Usuário não autenticado")
       | Some user =>
           let hasRole := includes (JWTPayload.roles user) roleName in
           if negb hasRole
           then Return (Respond 403
                  ("Acesso negado. Role '" ++ roleName ++ "' é necessária")%string)
           else Return Next
       end)
      (fun _ => Return (Respond 500 "Erro na verificação de role")).

Definition requirePermission (permissionCheck : PermissionCheck.t)
      (user : option JWTPayload.t) : Exc Outcome :=
    try_catch
      (match user with
       | None => Return (Respond 401 "Usuário não autenticado")
       | Some user =>
           let hasPermission :=
             some (fun permission =>
                     String.eqb permission (colon_name permissionCheck)
                     || String.eqb permission (dot_name permissionCheck))
                  (JWTPayload.permissions user) in
           if negb hasPermission
           then Return (Respond 403
                  ("Acesso negado. Permissão '" ++ PermissionCheck.action permissionCheck
                   ++ "' em '" ++ PermissionCheck.resource permissionCheck
                   ++ "' é necessária")%string)
           else Return Next
       end)
      (fun _ => Return (Respond 500 "Erro na verificação de permissão")).

Definition requireAnyRole (roleNames : list string) (user : option JWTPayload.t)
      : Exc Outcome :=
    try_catch
      (match user with
       | None => Return (Respond 401 "Usuário não autenticado")
       | Some user =>
           let hasAnyRole :=
             some (fun roleName => includes (JWTPayload.roles user) roleName) roleNames in
           if negb hasAnyRole
           then Return (Respond 403
                  ("Acesso negado. Uma das roles é necessária: "
                   ++ join_strings ", " roleNames)%string)
           else Return Next
       end)
      (fun _ => Return (Respond 500 "Erro na verificação de roles")).

Definition requireAnyPermission (permissionChecks : list PermissionCheck.t)
      (user : option JWTPayload.t) : Exc Outcome :=
    try_catch
      (match user with
       | None => Return (Respond 401 "Usuário não autenticado")
       | Some user =>
           let hasAnyPermission :=
             some (fun permissionCheck =>
                     some (fun permission =>
                             String.eqb permission (colon_name permissionCheck)
                             || String.eqb permission (dot_name permissionCheck))
                          (JWTPayload.permissions user))
                  permissionChecks in
           if negb hasAnyPermission
           then Return (Respond 403
                  "Acesso negado. Pelo menos uma das permissões é necessária")
           else Return Next
       end)
      (fun _ => Return (Respond 500 "Erro na verificação de permissões")).

Definition requireAdminOrPermission (permissionCheck : PermissionCheck.t)
      (user : option JWTPayload.t) : Exc Outcome :=
    try_catch
      (match user with
       | None => Return (Respond 401 "Usuário não autenticado")
       | Some user =>
           let isAdmin := includes (JWTPayload.roles user) "admin" in
           let hasPermission :=
             some (fun permission =>
                     String.eqb permission (colon_name permissionCheck)
                     || String.eqb permission (dot_name permissionCheck))
                  (JWTPayload.permissions user) in
           if negb isAdmin && negb hasPermission
           then Return (Respond 403
                  ("Acesso negado. Role 'admin' ou permissão '"
                   ++ PermissionCheck.action permissionCheck
                   ++ "' em '" ++ PermissionCheck.resource permissionCheck
                   ++ "' é necessária")%string)
           else Return Next
       end)
      (fun _ => Return (Respond 500 "Erro na verificação de acesso")).

End RBACMiddleware.

(** ** Reading an outcome *)

Definition passes (o : Exc Outcome) : Prop := o = Return Next.

(** The kind of a failure is its status code. *)
Definition unauthenticated (o : Exc Outcome) : Prop :=
  exists error, o = Return (Respond 401 error).

Definition forbidden (o : Exc Outcome) : Prop :=
  exists error, o = Return (Respond 403 error).

Definition internal_error (o : Exc Outcome) : Prop :=
  exists error, o = Return (Respond 500 error).

(** ** The gate decision functions, as one family *)

Inductive Gate : Type :=
| LiveRequireRole (rbacService : AuthMiddleware.Service) (roleName : string)
| LiveRequirePermission (rbacService : AuthMiddleware.Service)
    (permissionCheck : PermissionCheck.t)
| LiveRequireAnyRole (rbacService : AuthMiddleware.Service) (roleNames : list string)
| LiveRequireAnyPermission (rbacService : AuthMiddleware.Service)
    (permissionChecks : list PermissionCheck.t)
| SnapshotRequireRole (roleName : string)
| SnapshotRequirePermission (permissionCheck : PermissionCheck.t)
| SnapshotRequireAnyRole (roleNames : list string)
| SnapshotRequireAnyPermission (permissionChecks : list PermissionCheck.t)
| SnapshotRequireAdminOrPermission (permissionCheck : PermissionCheck.t).

Definition run_gate (g : Gate) (user : option JWTPayload.t) : Exc Outcome :=
  match g with
  | LiveRequireRole svc roleName => AuthMiddleware.requireRole svc roleName user
  | LiveRequirePermission svc check => AuthMiddleware.requirePermission svc check user
  | LiveRequireAnyRole svc roleNames => AuthMiddleware.requireAnyRole svc roleNames user
  | LiveRequireAnyPermission svc checks =>
      AuthMiddleware.requireAnyPermission svc checks user
  | SnapshotRequireRole roleName => RBACMiddleware.requireRole roleName user
  | SnapshotRequirePermission check => RBACMiddleware.requirePermission check user
  | SnapshotRequireAnyRole roleNames => RBACMiddleware.requireAnyRole roleNames user
  | SnapshotRequireAnyPermission checks =>
      RBACMiddleware.requireAnyPermission checks user
  | SnapshotRequireAdminOrPermission check =>
      RBACMiddleware.requireAdminOrPermission check user
  end.

(** The service resolves every query (no call rejects). *)
Definition answers (svc : AuthMiddleware.Service) : Prop :=
  (forall userId roleName, exists b, AuthMiddleware.hasRole svc userId roleName = Return b)
  /\ (forall userId check, exists b,
        AuthMiddleware.hasPermission svc userId check = Return b).

Definition gate_service_answers (g : Gate) : Prop :=
  match g with
  | LiveRequireRole svc _ | LiveRequirePermission svc _
  | LiveRequireAnyRole svc _ | LiveRequireAnyPermission svc _ => answers svc
  | _ => True
  end.

(** The identity holds the permission of a check in its snapshot, in one
    of the two spellings the snapshot gates accept. *)
Definition holds_permission (identity : JWTPayload.t) (check : PermissionCheck.t) : Prop :=
  In (colon_name check) (JWTPayload.permissions identity)
  \/ In (dot_name check) (JWTPayload.permissions identity).

(** The grant a gate requires of an identity: for a live gate the
    service's answer [true] to the gate's query (to one of them for an
    any-of gate), for a snapshot gate the name in the token's arrays. *)
Definition grant_held (g : Gate) (identity : JWTPayload.t) : Prop :=
  let userId := JWTPayload.userId identity in
  match g with
  | LiveRequireRole svc roleName =>
      AuthMiddleware.hasRole svc userId roleName = Return true
  | LiveRequirePermission svc check =>
      AuthMiddleware.hasPermission svc userId check = Return true
  | LiveRequireAnyRole svc roleNames =>
      exists roleName, In roleName roleNames
                       /\ AuthMiddleware.hasRole svc userId roleName = Return true
  | LiveRequireAnyPermission svc checks =>
      exists check, In check checks
                    /\ AuthMiddleware.hasPermission svc userId check = Return true
  | SnapshotRequireRole roleName => In roleName (JWTPayload.roles identity)
  | SnapshotRequirePermission check => holds_permission identity check
  | SnapshotRequireAnyRole roleNames =>
      exists roleName, In roleName roleNames /\ In roleName (JWTPayload.roles identity)
  | SnapshotRequireAnyPermission checks =>
      exists check, In check checks /\ holds_permission identity check
  | SnapshotRequireAdminOrPermission check =>
      In "admin" (JWTPayload.roles identity) \/ holds_permission identity check
  end.

(** The queries the gate makes for the identity all resolve. A snapshot
    gate makes none. *)
Definition lookups_resolve (g : Gate) (identity : JWTPayload.t) : Prop :=
  let userId := JWTPayload.userId identity in
  match g with
  | LiveRequireRole svc roleName =>
      exists b, AuthMiddleware.hasRole svc userId roleName = Return b
  | LiveRequirePermission svc check =>
      exists b, AuthMiddleware.hasPermission svc userId check = Return b
  | LiveRequireAnyRole svc roleNames =>
      forall roleName, In roleName roleNames ->
        exists b, AuthMiddleware.hasRole svc userId roleName = Return b
  | LiveRequireAnyPermission svc checks =>
      forall check, In check checks ->
        exists b, AuthMiddleware.hasPermission svc userId check = Return b
  | _ => True
  end.

(** ** The resolver, in the words of the specification *)

(** The union "deduplicated by permission identity, preserving first-seen
    order": the head is kept, and every later entry with its [id] is
    dropped. *)
Fixpoint dedupe_first_seen (l : list Permission.t) : list Permission.t :=
  match l with
  | [] => []
  | p :: l' =>
      p :: filter (fun q => negb (String.eqb (Permission.id q) (Permission.id p)))
             (dedupe_first_seen l')
  end.

(** The same scan with the list of entries already passed. *)
Fixpoint dedupe_seen (seen l : list Permission.t) : list Permission.t :=
  match l with
  | [] => []
  | p :: l' =>
      if existsb (fun s => String.eqb (Permission.id s) (Permission.id p)) seen
      then dedupe_seen (seen ++ [p]) l'
      else p :: dedupe_seen (seen ++ [p]) l'
  end.

(** [grants db userId active p]: the user holds an assignment to a role
    whose flag is [active], and that role holds an assignment to the
    permission row behind [p]. *)
Definition grants (db : Database) (userId : string) (active : bool) (p : Permission.t)
    : Prop :=
  exists ur r rp row,
    In ur (user_roles db) /\ user_roles_row.user_id ur = userId
    /\ In r (roles db) /\ roles_row.id r = user_roles_row.role_id ur
    /\ roles_row.is_active r = active
    /\ In rp (role_permissions db) /\ role_permissions_row.role_id rp = roles_row.id r
    /\ In row (permissions db)
    /\ permissions_row.id row = role_permissions_row.permission_id rp
    /\ RolePermissionRepository.mapPermission row = p.

(** The assignment edge (roleId, permissionId) is in the graph. *)
Definition has_edge (db : Database) (roleId permissionId : string) : bool :=
  existsb (fun e => String.eqb (role_permissions_row.role_id e) roleId
                    && String.eqb (role_permissions_row.permission_id e) permissionId)
          (role_permissions db).

(** The active-flag rule read on the role-permission side: an edge whose
    role is inactive shows in neither [getRolePermissions] nor
    [hasPermission]. *)
Definition edges_of_inactive_role_hidden (db : Database) : Prop :=
  forall rp r row,
    In rp (role_permissions db) ->
    In r (roles db) -> roles_row.id r = role_permissions_row.role_id rp ->
    roles_row.is_active r = false ->
    In row (permissions db) ->
    permissions_row.id row = role_permissions_row.permission_id rp ->
    ~ In (RolePermissionRepository.mapPermission row)
         (RolePermissionRepository.getRolePermissions db (role_permissions_row.role_id rp))
    /\ RolePermissionRepository.hasPermission db (role_permissions_row.role_id rp)
         (permissions_row.name row) = false.

(** The three ways a login fails. *)
Definition login_fails {RT : Runtime} (db : Database) (username password : string) : Prop :=
  UserRepository.findByUsername db username = None
  \/ (exists user,
        UserRepository.findByUsername db username = Some user
        /\ User.isActive user = false)
  \/ (exists user,
        UserRepository.findByUsername db username = Some user
        /\ bcrypt_compare password (User.password user) = false).

(** The claims of a decoded payload, the two timestamps aside. *)
Definition claims_of (payload : JWTPayload.t) : TokenClaims.t :=
  TokenClaims.mk (JWTPayload.userId payload) (JWTPayload.username payload)
    (JWTPayload.email payload) (JWTPayload.roles payload)
    (JWTPayload.permissions payload).

(** No character of the string is a dot, as in a base64url segment. *)
Fixpoint no_dot (s : string) : bool :=
  match s with
  | EmptyString => true
  | String c s' => negb (Ascii.eqb c jwt.dot) && no_dot s'
  end.

(** ** The rest of the junction repositories *)

(** [RolePermissionRepository.getPermissionRoles]: the roles that hold a
    permission, joined on the role and filtered on its active flag. *)
Definition RolePermissionRepository_getPermissionRoles (db : Database)
    (permissionId : string) : list Role.t :=
  let roles :=
    map snd
      (where_ (fun row => Bool.eqb (roles_row.is_active (snd row)) true)
         (where_ (fun row =>
                    String.eqb (role_permissions_row.permission_id (fst row)) permissionId)
            (join (role_permissions db) (roles db)
               (fun rp r => String.eqb (role_permissions_row.role_id rp) (roles_row.id r))))) in
  map UserRoleRepository.mapRole roles.

(** [UserRoleRepository.getRoleUsers]: the users that hold a role, joined
    on the user and filtered on its active flag. The mapped user carries the
    stored password hash. *)
Definition UserRoleRepository_getRoleUsers (db : Database) (roleId : string)
    : list User.t :=
  let users :=
    map snd
      (where_ (fun row => Bool.eqb (users_row.is_active (snd row)) true)
         (where_ (fun row => String.eqb (user_roles_row.role_id (fst row)) roleId)
            (join (user_roles db) (users db)
               (fun ur u => String.eqb (user_roles_row.user_id ur) (users_row.id u))))) in
  map UserRepository.mapUser users.

(** The two removals of [RBACService] pass the call through. *)
Definition RBACService_removeRoleFromUser (db : Database) (userId roleId : string)
    : bool * Database :=
  UserRoleRepository.removeRole db userId roleId.

Definition RBACService_removePermissionFromRole (db : Database)
    (roleId permissionId : string) : bool * Database :=
  RolePermissionRepository.removePermission db roleId permissionId.

(** The assignment edge (userId, roleId) is in the graph. *)
Definition has_user_role (db : Database) (userId roleId : string) : bool :=
  existsb (fun e => String.eqb (user_roles_row.user_id e) userId
                    && String.eqb (user_roles_row.role_id e) roleId)
          (user_roles db).

(** ** RoleRepository *)

(** [Omit<Role, 'id' | 'createdAt' | 'updatedAt'>] *)
Module RoleData.
Record t : Type := mk {
  name : string;
  description : option string;
  isActive : bool
}.
End RoleData.

(** The fields of [Partial<Omit<Role, 'id' | 'createdAt'>>] that
    [RoleRepository.update] reads; [None] is [undefined]. *)
Module RoleUpdate.
Record t : Type := mk {
  name : option string;
  description : option string;
  isActive : option bool
}.
End RoleUpdate.

(** A string in a condition: the empty string is falsy. *)
Definition truthy_string (s : option string) : bool :=
  match s with
  | Some s => negb (String.eqb s EmptyString)
  | None => false
  end.

Module RoleRepository.

Definition mapRole (role : roles_row.t) : Role.t :=
  Role.mk (roles_row.id role) (roles_row.name role) (roles_row.description role)
    (roles_row.is_active role) (roles_row.created_at role) (roles_row.updated_at role).

(** [knex('roles').insert(row)]: the primary key and [unique()] on [name]
    reject the row with an exception. *)
Definition insert_roles (db : Database) (row : roles_row.t) : Exc Database :=
  if existsb (fun r => String.eqb (roles_row.id r) (roles_row.id row)) (roles db)
  then Throw (SqlError "UNIQUE constraint failed: roles.id")
  else if existsb (fun r => String.eqb (roles_row.name r) (roles_row.name row)) (roles db)
  then Throw (SqlError "UNIQUE constraint failed: roles.name")
  else Return (mkDatabase (users db) (roles db ++ [row]) (permissions db)
                 (user_roles db) (role_permissions db)).

(** [newId] is the key the table's default generates and [now] is
    [new Date()]; the row comes back through [.returning('*')]. *)
Definition create (db : Database) (newId : string) (now : Z) (roleData : RoleData.t)
    : Exc (Role.t * Database) :=
  let row :=
    roles_row.mk newId (RoleData.name roleData) (RoleData.description roleData)
      (RoleData.isActive roleData) now now in
  db' <- insert_roles db row ;;
  Return (mapRole row, db').

Definition findById (db : Database) (id : string) : option Role.t :=
  match first (where_ (fun r => String.eqb (roles_row.id r) id) (roles db)) with
  | Some role => Some (mapRole role)
  | None => None
  end.

Definition findByName (db : Database) (name : string) : option Role.t :=
  match first (where_ (fun r => String.eqb (roles_row.name r) name) (roles db)) with
  | Some role => Some (mapRole role)
  | None => None
  end.

(** The row after [.update(updateData)]: [updated_at] always, [name] when
    it is a non-empty string, [description] and [is_active] when they are
    not [undefined]. *)
Definition apply_update (now : Z) (roleData : RoleUpdate.t) (role : roles_row.t)
    : roles_row.t :=
  roles_row.mk (roles_row.id role)
    (if truthy_string (RoleUpdate.name roleData)
     then match RoleUpdate.name roleData with
          | Some name => name
          | None => roles_row.name role
          end
     else roles_row.name role)
    (match RoleUpdate.description roleData with
     | Some description => Some description
     | None => roles_row.description role
     end)
    (match RoleUpdate.isActive roleData with
     | Some isActive => isActive
     | None => roles_row.is_active role
     end)
    (roles_row.created_at role)
    now.

(** [knex('roles').where({ id }).update(updateData).returning('*')]: every
    row with the [id] is rewritten; a new name that another row holds
    breaks [unique()] on [name] and throws. The first rewritten row is
    returned, [null] when there is none. *)
Definition update (db : Database) (now : Z) (id : string) (roleData : RoleUpdate.t)
    : Exc (option Role.t * Database) :=
  let hit := fun r => String.eqb (roles_row.id r) id in
  let clash :=
    match RoleUpdate.name roleData with
    | Some name =>
        truthy_string (RoleUpdate.name roleData)
        && existsb hit (roles db)
        && existsb (fun r => negb (hit r) && String.eqb (roles_row.name r) name) (roles db)
    | None => false
    end in
  if clash then Throw (SqlError "UNIQUE constraint failed: roles.name")
  else
    let rows := map (fun r => if hit r then apply_update now roleData r else r) (roles db) in
    let db' := mkDatabase (users db) rows (permissions db) (user_roles db)
                 (role_permissions db) in
    Return (match first (where_ hit rows) with
            | Some role => Some (mapRole role)
            | None => None
            end, db').

End RoleRepository.

(** [RBACService.createRole] and [updateRole] pass the call through. *)
Definition RBACService_createRole (db : Database) (newId : string) (now : Z)
    (roleData : RoleData.t) : Exc (Role.t * Database) :=
  RoleRepository.create db newId now roleData.

Definition RBACService_updateRole (db : Database) (now : Z) (id : string)
    (roleData : RoleUpdate.t) : Exc (option Role.t * Database) :=
  RoleRepository.update db now id roleData.

(** ** User management *)

(** [Omit<User, 'id' | 'createdAt' | 'updatedAt'>] *)
Module UserData.
Record t : Type := mk {
  username : string;
  email : string;
  password : string;
  isActive : bool
}.
End UserData.

(** The fields of [Partial<Omit<User, 'id' | 'createdAt'>>] that
    [UserRepository.update] reads. *)
Module UserUpdate.
Record t : Type := mk {
  username : option string;
  email : option string;
  password : option string;
  isActive : option bool
}.
End UserUpdate.

(** [knex('users').insert(row)]: the primary key and [unique()] on
    [username] and on [email]. *)
Definition insert_users (db : Database) (row : users_row.t) : Exc Database :=
  if existsb (fun u => String.eqb (users_row.id u) (users_row.id row)) (users db)
  then Throw (SqlError "UNIQUE constraint failed: users.id")
  else if existsb (fun u => String.eqb (users_row.username u) (users_row.username row))
            (users db)
  then Throw (SqlError "UNIQUE constraint failed: users.username")
  else if existsb (fun u => String.eqb (users_row.email u) (users_row.email row)) (users db)
  then Throw (SqlError "UNIQUE constraint failed: users.email")
  else Return (mkDatabase (users db ++ [row]) (roles db) (permissions db)
                 (user_roles db) (role_permissions db)).

Definition UserRepository_create (db : Database) (newId : string) (now : Z)
    (userData : UserData.t) : Exc (User.t * Database) :=
  let row :=
    users_row.mk newId (UserData.username userData) (UserData.email userData)
      (UserData.password userData) (UserData.isActive userData) now now in
  db' <- insert_users db row ;;
  Return (UserRepository.mapUser row, db').

Definition UserRepository_findById (db : Database) (id : string) : option User.t :=
  match first (where_ (fun u => String.eqb (users_row.id u) id) (users db)) with
  | Some user => Some (UserRepository.mapUser user)
  | None => None
  end.




Section UserManagement.
(** [bcrypt_hash plain rounds] is [bcrypt.hash]. *)
Variable bcrypt_hash : string -> Z -> string.

Definition RBACService_createUser (db : Database) (newId : string) (now : Z)
    (userData : UserData.t) : Exc (User.t * Database) :=
  let hashedPassword := bcrypt_hash (UserData.password userData) 10 in
  UserRepository_create db newId now
    (UserData.mk (UserData.username userData) (UserData.email userData)
       hashedPassword (UserData.isActive userData)).


End UserManagement.

Definition RBACService_getUserById (db : Database) (id : string) : option User.t :=
  UserRepository_findById db id.

(** ** The token middleware, the controllers and a route *)

(** The parts of an Express request the middleware reads and writes. *)
Module Request.
Record t : Type := mk {
  authorization : option string;
  user : option JWTPayload.t
}.
End Request.

(** The response of a controller: a status and a JSON body that is either
    [{ error }] or [{ message }]. *)
Inductive Body : Type :=
| ErrorBody (error : string)
| MessageBody (message : string).

Inductive Response : Type :=
| Json (status : Z) (body : Body).

(** [AuthMiddleware.verifyToken]. [verify] is [rbacService.verifyToken].
    The result is what the middleware did and the request it leaves. *)
Definition AuthMiddleware_verifyToken (verify : string -> Exc (option JWTPayload.t))
    (req : Request.t) : Exc (Outcome * Request.t) :=
  try_catch
    (match Request.authorization req with
     | None => Return (Respond 401 "Token de acesso não fornecido", req)
     | Some authHeader =>
         if String.eqb authHeader EmptyString || negb (String.prefix "Bearer " authHeader)
         then Return (Respond 401 "Token de acesso não fornecido", req)
         else
           let token :=
             String.substring 7 (String.length authHeader - 7) authHeader in
           payload <- verify token ;;
           match payload with
           | None => Return (Respond 401 "Token inválido ou expirado", req)
           | Some payload =>
               Return (Next, Request.mk (Request.authorization req) (Some payload))
           end
     end)
    (fun _ => Return (Respond 401 "Erro na verificação do token", req)).

(** The fixed gates of [AuthMiddleware]. *)
Definition AuthMiddleware_requireAdmin (rbacService : AuthMiddleware.Service)
    : option JWTPayload.t -> Exc Outcome :=
  AuthMiddleware.requireRole rbacService "admin".

Definition AuthMiddleware_requireRoleManagement (rbacService : AuthMiddleware.Service)
    : option JWTPayload.t -> Exc Outcome :=
  AuthMiddleware.requirePermission rbacService (PermissionCheck.mk "roles" "manage").

Definition AuthMiddleware_requirePermissionManagement
    (rbacService : AuthMiddleware.Service) : option JWTPayload.t -> Exc Outcome :=
  AuthMiddleware.requirePermission rbacService (PermissionCheck.mk "permissions" "manage").

(** [req.user?.userId] followed by [!assignedBy]: absent when there is no
    user and when the id is the empty string. *)
Definition assignedBy_of (user : option JWTPayload.t) : option string :=
  match user with
  | Some user =>
      if String.eqb (JWTPayload.userId user) EmptyString then None
      else Some (JWTPayload.userId user)
  | None => None
  end.

Module RoleController.

Definition assignPermission (db : Database) (newId : string) (now : Z)
    (roleId permissionId : string) (user : option JWTPayload.t)
    : Exc (Response * Database) :=
  try_catch
    (match assignedBy_of user with
     | None => Return (Json 401 (ErrorBody "Usuário não autenticado"), db)
     | Some assignedBy =>
         r <- RBACService.assignPermissionToRole db newId now roleId permissionId
                assignedBy ;;
         let success := fst r in
         if negb success
         then Return (Json 400 (ErrorBody "Erro ao atribuir permissão à role"), snd r)
         else Return (Json 200 (MessageBody "Permissão atribuída com sucesso"), snd r)
     end)
    (fun _ => Return (Json 500 (ErrorBody "Erro interno do servidor"), db)).

Definition removePermission (db : Database) (roleId permissionId : string)
    : Exc (Response * Database) :=
  try_catch
    (let r := RBACService_removePermissionFromRole db roleId permissionId in
     let success := fst r in
     if negb success
     then Return (Json 400 (ErrorBody "Erro ao remover permissão da role"), snd r)
     else Return (Json 200 (MessageBody "Permissão removida com sucesso"), snd r))
    (fun _ => Return (Json 500 (ErrorBody "Erro interno do servidor"), db)).

End RoleController.

(** A middleware that answered ends the request with its answer. *)
Definition answer_of (status : Z) (error : string) : Response :=
  Json status (ErrorBody error).

(** The route [POST /api/roles/:roleId/permissions/:permissionId] of
    [createRoleRoutes]: [router.use(verifyToken)], then
    [requirePermissionManagement], then [roleController.assignPermission].
    Each step runs when the one before called [next()]. *)
Definition route_assign_permission {RT : Runtime} (config : JwtConfig.t) (db : Database)
    (newId : string) (now : Z) (roleId permissionId : string) (req : Request.t)
    : Exc (Response * Database) :=
  r <- AuthMiddleware_verifyToken (RBACService.verifyToken config now) req ;;
  match fst r with
  | Respond status error => Return (answer_of status error, db)
  | Next =>
      g <- AuthMiddleware_requirePermissionManagement (AuthMiddleware.live db)
             (Request.user (snd r)) ;;
      match g with
      | Respond status error => Return (answer_of status error, db)
      | Next =>
          RoleController.assignPermission db newId now roleId permissionId
            (Request.user (snd r))
      end
  end.

(** The identity a token issued at login embeds: the names of the roles
    and of the permissions [authenticateUser] reads for the user. *)
Definition login_identity (db : Database) (user : User.t) (iat exp : option Z)
    : JWTPayload.t :=
  JWTPayload.mk (User.id user) (User.username user) (User.email user)
    (map Role.name (UserRoleRepository.getUserRoles db (User.id user)))
    (map Permission.name (RBACService.getUserPermissions db (User.id user)))
    iat exp.

(** Every permission row is named [resource:action]. *)
Definition canonical_names (db : Database) : Prop :=
  forall row, In row (permissions db) ->
    permissions_row.name row
    = (permissions_row.resource row ++ ":" ++ permissions_row.action row)%string.

(** The key of an assignment edge. *)
Definition edge_key (e : role_permissions_row.t) : string * string :=
  (role_permissions_row.role_id e, role_permissions_row.permission_id e).

(** The primary key of the [permissions] table. *)
Definition permission_ids_unique (db : Database) : Prop :=
  forall r1 r2, In r1 (permissions db) -> In r2 (permissions db) ->
    permissions_row.id r1 = permissions_row.id r2 -> r1 = r2.

(** The key of a user-role edge. *)
Definition user_role_key (e : user_roles_row.t) : string * string :=
  (user_roles_row.user_id e, user_roles_row.role_id e).

(** The row [assignPermission] inserts, and the database with it. *)
Definition with_edge (db : Database) (row : role_permissions_row.t) : Database :=
  mkDatabase (users db) (roles db) (permissions db) (user_roles db)
    (role_permissions db ++ [row]).

(** ** A runtime to run the model on *)

Module Reference.

Definition hex_digit (n : N) : ascii :=
    match String.get (N.to_nat n) "0123456789abcdef" with
    | Some c => c
    | None => "0"%char
    end.

Fixpoint hex_of_string (s : string) : string :=
    match s with
    | EmptyString => EmptyString
    | String c s' =>
        String (hex_digit (N_of_ascii c / 16)%N)
          (String (hex_digit (N_of_ascii c mod 16)%N) (hex_of_string s'))
    end.

Fixpoint string_of_hex (s : string) : option string :=
    match s with
    | EmptyString => Some EmptyString
    | String a (String b s') =>
        match HexString.ascii_to_digit a, HexString.ascii_to_digit b, string_of_hex s' with
        | Some x, Some y, Some r => Some (String (ascii_of_N (16 * x + y)%N) r)
        | _, _, _ => None
        end
    | String _ EmptyString => None
    end.

Definition render_number (n : option Z) : string :=
    match n with
    | Some z => HexString.of_Z z
    | None => EmptyString
    end.

Definition parse_number (s : string) : option Z :=
    if String.eqb s EmptyString then None else Some (HexString.to_Z s).

Definition parse_list (s : string) : list string :=
    if String.eqb s EmptyString then [] else split ","%char s.

Definition render (p : JWTPayload.t) : string :=
    String.concat "|"
      [JWTPayload.userId p; JWTPayload.username p; JWTPayload.email p;
       String.concat "," (JWTPayload.roles p);
       String.concat "," (JWTPayload.permissions p);
       render_number (JWTPayload.iat p); render_number (JWTPayload.exp p)].

Definition parse (s : string) : option JWTPayload.t :=
    match split "|"%char s with
    | [userId; username; email; roles; permissions; iat; exp] =>
        Some (JWTPayload.mk userId username email (parse_list roles)
                (parse_list permissions) (parse_number iat) (parse_number exp))
    | _ => None
    end.

  (** A keyed checksum, printed in hexadecimal. *)
Fixpoint checksum (acc : N) (s : string) : N :=
    match s with
    | EmptyString => acc
    | String c s' => checksum ((acc * 31 + N_of_ascii c) mod 4294967296)%N s'
    end.

#[local] Instance runtime : Runtime := {
    bcrypt_compare plain hash := String.eqb hash ("$2a$" ++ hex_of_string plain)%string;
    hmac key data := HexString.of_N (checksum (checksum 7%N key) data);
    encode_claims p := hex_of_string (render p);
    decode_claims s :=
      match string_of_hex s with
      | Some text => parse text
      | None => None
      end;
    timespan s :=
      if String.eqb s "1h" then Some 3600
      else if String.eqb s "24h" then Some 86400
      else if String.eqb s "7d" then Some 604800
      else None
  }.

Definition config : JwtConfig.t := JwtConfig.mk "test-secret-key" "1h".

End Reference.

(** ** Sample data *)

Module Sample.

Definition alice : users_row.t :=
    users_row.mk "u1" "alice" "alice@example.com" "$2a$70617373776f7264" true 0 0.

Definition bob : users_row.t :=
    users_row.mk "u2" "bob" "bob@example.com" "$2a$70617373776f7264" false 0 0.

Definition admin : roles_row.t := roles_row.mk "r1" "admin" None true 0 0.
Definition auditor : roles_row.t := roles_row.mk "r2" "auditor" None false 0 0.
Definition member : roles_row.t := roles_row.mk "r3" "user" None true 0 0.

Definition content_read : permissions_row.t :=
    permissions_row.mk "p1" "content:read" "content" "read" None 0 0.
Definition content_delete : permissions_row.t :=
    permissions_row.mk "p2" "content:delete" "content" "delete" None 0 0.
Definition audit_read : permissions_row.t :=
    permissions_row.mk "p3" "audit:read" "audit" "read" None 0 0.

  (** alice holds the roles admin, auditor (inactive) and user; content:read
      is granted by both admin and user, audit:read by auditor alone. *)
Definition db : Database :=
    mkDatabase
      [alice; bob]
      [admin; auditor; member]
      [content_read; content_delete; audit_read]
      [user_roles_row.mk "ur1" "u1" "r1" "u1" 0;
       user_roles_row.mk "ur2" "u1" "r2" "u1" 0;
       user_roles_row.mk "ur3" "u1" "r3" "u1" 0]
      [role_permissions_row.mk "rp1" "r1" "p1" "u1" 0;
       role_permissions_row.mk "rp2" "r1" "p2" "u1" 0;
       role_permissions_row.mk "rp3" "r2" "p3" "u1" 0;
       role_permissions_row.mk "rp4" "r3" "p1" "u1" 0].

(** A token for [claims] issued at 1000 under the reference runtime, and
    the same token with one more character in its signature. *)
Definition token_body : string :=
  encode_claims (Runtime := Reference.runtime)
    (JWTPayload.mk "u1" "alice" "alice@example.com" ["admin"; "user"]
       ["content:read"; "content:delete"] (Some 1000) (Some 4600)).

Definition token_signature : string :=
  hmac (Runtime := Reference.runtime) "test-secret-key"
    (jwt.header_segment ++ "." ++ token_body)%string.

Definition token : string :=
  ((jwt.header_segment ++ "." ++ token_body) ++ "." ++ token_signature)%string.

Definition tampered : string := (token ++ "0")%string.

Definition claims : TokenClaims.t :=
    TokenClaims.mk "u1" "alice" "alice@example.com" ["admin"; "user"]
      ["content:read"; "content:delete"].

Definition identity (roles permissions : list string) : JWTPayload.t :=
    JWTPayload.mk "u1" "alice" "alice@example.com" roles permissions None None.

Definition sensitive_read : PermissionCheck.t := PermissionCheck.mk "sensitive" "read".

End Sample.

(** More sample data: a service whose lookup of the role audit rejects. *)
Module Sample2.

Definition flaky : AuthMiddleware.Service :=
  AuthMiddleware.mkService
    (fun userId roleName =>
       if String.eqb roleName "audit" then Throw (SqlError "connection lost")
       else Return (String.eqb roleName "admin"))
    (fun userId check =>
       if String.eqb (PermissionCheck.resource check) "audit"
       then Throw (SqlError "connection lost")
       else Return (String.eqb (PermissionCheck.resource check) "content")).

(** A database whose one permission is not named [resource:action]. *)
Definition legacy : Database :=
  mkDatabase [Sample.alice] [Sample.admin]
    [permissions_row.mk "p9" "read-content" "content" "read" None 0 0]
    [user_roles_row.mk "ur1" "u1" "r1" "u1" 0]
    [role_permissions_row.mk "rp1" "r1" "p9" "u1" 0].

(** The sample database with one more permission, permissions:manage,
    held by the role admin. *)
Definition managed : Database :=
  mkDatabase (users Sample.db) (roles Sample.db)
    (permissions Sample.db
     ++ [permissions_row.mk "p4" "permissions:manage" "permissions" "manage" None 0 0])
    (user_roles Sample.db)
    (role_permissions Sample.db ++ [role_permissions_row.mk "rp9" "r1" "p4" "u1" 0]).

End Sample2.

Example sample_getUserPermissions :
  map Permission.name (RBACService.getUserPermissions Sample.db "u1")
  = ["content:read"; "content:delete"].
Proof. reflexivity. Qed.

Example sample_getRolePermissions_inactive_role :
  roles_row.is_active Sample.auditor = false
  /\ map Permission.name (RolePermissionRepository.getRolePermissions Sample.db "r2")
     = ["audit:read"]
  /\ map Role.name (UserRoleRepository.getUserRoles Sample.db "u1") = ["admin"; "user"].
Proof. repeat split. Qed.

Example sample_token_roundtrip :
  (token <- RBACService.generateToken (RT := Reference.runtime) Reference.config 1000
              Sample.claims ;;
   RBACService.verifyToken (RT := Reference.runtime) Reference.config 2000 token)
  = Return (Some (jwt.stamp Sample.claims 1000 4600)).
Proof. vm_compute. reflexivity. Qed.

Example sample_token_expired :
  (token <- RBACService.generateToken (RT := Reference.runtime) Reference.config 1000
              Sample.claims ;;
   RBACService.verifyToken (RT := Reference.runtime) Reference.config 4600 token)
  = Return None.
Proof. vm_compute. reflexivity. Qed.

Example sample_authenticate :
  (r <- RBACService.authenticateUser (RT := Reference.runtime) Reference.config
          Sample.db 1000 "alice" "password" ;;
   Return (option_map (fun a => map Role.name (AuthResult.roles a)) r))
  = Return (Some ["admin"; "user"]).
Proof. vm_compute. reflexivity. Qed.

(** * Properties *)

(** ** Lists, joins and the array helpers *)

Lemma in_join {A B : Type} (left : list A) (right : list B) (on : A -> B -> bool) a b :
  In (a, b) (join left right on) <-> In a left /\ In b right /\ on a b = true.
Proof.
  unfold join. rewrite in_flat_map. split.
  - intros [a' [Ha Hin]]. apply in_map_iff in Hin.
    destruct Hin as [b' [Heq Hb]]. inversion Heq; subst.
    apply filter_In in Hb. tauto.
  - intros [Ha [Hb Hon]]. exists a. split; [assumption|].
    apply in_map_iff. exists b. split; [reflexivity|].
    apply filter_In. tauto.
Qed.

Lemma first_truthy_existsb {A : Type} (cond : A -> bool) (rows : list A) :
  truthy (first (where_ cond rows)) = existsb cond rows.
Proof.
  induction rows as [|row rows IH]; simpl; [reflexivity|].
  destruct (cond row); simpl; [reflexivity|assumption].
Qed.

Lemma truthy_first_In {A : Type} (rows : list A) :
  truthy (first rows) = true <-> exists row, In row rows.
Proof.
  destruct rows as [|row rows]; simpl.
  - split; [discriminate|intros [row []]].
  - split; [intros _; exists row; now left|reflexivity].
Qed.

Lemma fold_left_push {A B : Type} (f : A -> list B) (l : list A) (acc : list B) :
  fold_left (fun all a => all ++ f a) l acc = acc ++ flat_map f l.
Proof.
  revert acc. induction l as [|a l IH]; intros acc; simpl.
  - now rewrite app_nil_r.
  - rewrite IH. now rewrite app_assoc.
Qed.

Lemma findIndex_from_lower {A : Type} (f : A -> bool) (l : list A) (i : Z) :
  existsb f l = true -> i <= findIndex_from f l i < i + Z.of_nat (length l).
Proof.
  revert i. induction l as [|x l IH]; intros i H; simpl in *; [discriminate|].
  destruct (f x).
  - lia.
  - specialize (IH (i + 1) H). lia.
Qed.

Lemma findIndex_from_app {A : Type} (f : A -> bool) (pre rest : list A) (i : Z) :
  existsb f pre = false ->
  findIndex_from f (pre ++ rest) i = findIndex_from f rest (i + Z.of_nat (length pre)).
Proof.
  revert i. induction pre as [|x pre IH]; intros i H; simpl in *.
  - f_equal. lia.
  - apply orb_false_iff in H. destruct H as [Hx Hpre]. rewrite Hx.
    rewrite IH by assumption. f_equal. lia.
Qed.

Lemma findIndex_from_app_found {A : Type} (f : A -> bool) (pre rest : list A) (i : Z) :
  existsb f pre = true ->
  findIndex_from f (pre ++ rest) i = findIndex_from f pre i.
Proof.
  revert i. induction pre as [|x pre IH]; intros i H; simpl in *; [discriminate|].
  destruct (f x); [reflexivity|]. now apply IH.
Qed.

(** An element sits at the index [findIndex] returns for its own key
    exactly when no earlier element has that key. *)
Lemma first_occurrence_test (pre l : list Permission.t) (p : Permission.t) :
  (Z.of_nat (length pre)
   =? findIndex (fun q => String.eqb (Permission.id q) (Permission.id p)) (pre ++ p :: l))
  = negb (existsb (fun q => String.eqb (Permission.id q) (Permission.id p)) pre).
Proof.
  unfold findIndex.
  destruct (existsb _ pre) eqn:Hpre; simpl.
  - rewrite findIndex_from_app_found by assumption.
    pose proof (findIndex_from_lower _ pre 0 Hpre). apply Z.eqb_neq. lia.
  - rewrite findIndex_from_app by assumption. simpl.
    rewrite String.eqb_refl. apply Z.eqb_eq. lia.
Qed.

Lemma filter_from_dedupe_seen (pre l : list Permission.t) :
  filter_from
    (fun permission index =>
       index =? findIndex
                  (fun p => String.eqb (Permission.id p) (Permission.id permission))
                  (pre ++ l))
    l (Z.of_nat (length pre))
  = dedupe_seen pre l.
Proof.
  revert pre. induction l as [|p l IH]; intros pre; simpl; [reflexivity|].
  rewrite first_occurrence_test.
  specialize (IH (pre ++ [p])).
  rewrite <- app_assoc in IH. simpl in IH.
  rewrite length_app in IH. simpl in IH.
  replace (Z.of_nat (length pre + 1)) with (Z.of_nat (length pre) + 1) in IH by lia.
  rewrite IH.
  destruct (existsb _ pre); reflexivity.
Qed.

Lemma filter_twice {A : Type} (f g : A -> bool) (l : list A) :
  filter f (filter g l) = filter (fun x => g x && f x) l.
Proof.
  induction l as [|x l IH]; simpl; [reflexivity|].
  destruct (g x); simpl; [destruct (f x)|]; now rewrite IH.
Qed.

Lemma dedupe_seen_filter (seen l : list Permission.t) :
  dedupe_seen seen l
  = filter (fun q => negb (existsb (fun s => String.eqb (Permission.id s) (Permission.id q))
                             seen))
           (dedupe_first_seen l).
Proof.
  revert seen. induction l as [|p l IH]; intros seen; simpl; [reflexivity|].
  rewrite IH, filter_twice.
  assert (Hext :
    filter (fun q => negb (existsb (fun s => String.eqb (Permission.id s) (Permission.id q))
                             (seen ++ [p]))) (dedupe_first_seen l)
    = filter (fun q => negb (String.eqb (Permission.id q) (Permission.id p))
                       && negb (existsb (fun s => String.eqb (Permission.id s)
                                                    (Permission.id q)) seen))
             (dedupe_first_seen l)).
  { apply filter_ext. intros q. rewrite existsb_app. simpl.
    rewrite orb_false_r, negb_orb, (String.eqb_sym (Permission.id p)).
    apply andb_comm. }
  rewrite Hext.
  destruct (existsb _ seen); reflexivity.
Qed.

Lemma filter_indexed_dedupe (l : list Permission.t) :
  filter_indexed
    (fun permission index self =>
       index =? findIndex
                  (fun p => String.eqb (Permission.id p) (Permission.id permission)) self)
    l
  = dedupe_first_seen l.
Proof.
  unfold filter_indexed.
  pose proof (filter_from_dedupe_seen [] l) as H. simpl in H. rewrite H.
  rewrite dedupe_seen_filter. simpl.
  induction (dedupe_first_seen l) as [|x d IH]; simpl; [reflexivity|now rewrite IH].
Qed.

Lemma dedupe_first_seen_In (l : list Permission.t) (p : Permission.t) :
  In p (dedupe_first_seen l) -> In p l.
Proof.
  induction l as [|x l IH]; simpl; [tauto|].
  intros [H|H]; [now left|]. apply filter_In in H. right. now apply IH.
Qed.

Lemma dedupe_first_seen_covers (l : list Permission.t) (p : Permission.t) :
  In p l -> exists q, In q (dedupe_first_seen l) /\ Permission.id q = Permission.id p.
Proof.
  induction l as [|x l IH]; simpl; [tauto|].
  intros [H|H].
  - subst. exists p. split; [now left|reflexivity].
  - destruct (IH H) as [q [Hq Hid]].
    destruct (String.eqb (Permission.id q) (Permission.id x)) eqn:E.
    + apply String.eqb_eq in E. exists x. split; [now left|congruence].
    + exists q. split; [|assumption]. right. apply filter_In. now rewrite E.
Qed.

Lemma NoDup_map_filter {A B : Type} (g : A -> B) (f : A -> bool) (l : list A) :
  NoDup (map g l) -> NoDup (map g (filter f l)).
Proof.
  induction l as [|x l IH]; simpl; intros H; [constructor|].
  inversion H as [|? ? Hnotin Hnodup]; subst.
  destruct (f x); simpl; [|now apply IH].
  constructor; [|now apply IH].
  intros Hin. apply Hnotin. apply in_map_iff in Hin.
  destruct Hin as [y [Hy Hin]]. apply filter_In in Hin.
  apply in_map_iff. exists y. tauto.
Qed.

Lemma dedupe_first_seen_NoDup (l : list Permission.t) :
  NoDup (map Permission.id (dedupe_first_seen l)).
Proof.
  induction l as [|x l IH]; simpl; [constructor|].
  constructor.
  - intros Hin. apply in_map_iff in Hin. destruct Hin as [y [Hy Hin]].
    apply filter_In in Hin. destruct Hin as [_ Hne].
    rewrite Hy, String.eqb_refl in Hne. discriminate.
  - now apply NoDup_map_filter.
Qed.

(** ** What the junction queries return *)

Lemma getUserRoles_In (db : Database) (userId : string) (role : Role.t) :
  In role (UserRoleRepository.getUserRoles db userId) <->
  exists ur r,
    In ur (user_roles db) /\ user_roles_row.user_id ur = userId
    /\ In r (roles db) /\ roles_row.id r = user_roles_row.role_id ur
    /\ roles_row.is_active r = true
    /\ role = UserRoleRepository.mapRole r.
Proof.
  unfold UserRoleRepository.getUserRoles, UserRoleRepository.ur_join_r, where_.
  rewrite in_map_iff. split.
  - intros [r [Hrole Hin]]. apply in_map_iff in Hin.
    destruct Hin as [[ur r'] [Hsnd Hin]]. simpl in Hsnd. subst r'.
    apply filter_In in Hin. destruct Hin as [Hin Hactive].
    apply filter_In in Hin. destruct Hin as [Hin Huser].
    apply in_join in Hin. destruct Hin as [Hur [Hr Hon]]. simpl in *.
    apply String.eqb_eq in Huser, Hon. apply Bool.eqb_prop in Hactive.
    exists ur, r. repeat split; auto.
  - intros [ur [r [Hur [Huser [Hr [Hid [Hactive Hrole]]]]]]].
    exists r. split; [now symmetry|].
    apply in_map_iff. exists (ur, r). split; [reflexivity|].
    apply filter_In. split.
    + apply filter_In. split.
      * apply in_join. repeat split; auto. apply String.eqb_eq. now symmetry.
      * simpl. now apply String.eqb_eq.
    + simpl. rewrite Hactive. reflexivity.
Qed.

Lemma getRolePermissions_In (db : Database) (roleId : string) (p : Permission.t) :
  In p (RolePermissionRepository.getRolePermissions db roleId) <->
  exists rp row,
    In rp (role_permissions db) /\ role_permissions_row.role_id rp = roleId
    /\ In row (permissions db)
    /\ permissions_row.id row = role_permissions_row.permission_id rp
    /\ p = RolePermissionRepository.mapPermission row.
Proof.
  unfold RolePermissionRepository.getRolePermissions,
    RolePermissionRepository.rp_join_p, where_.
  rewrite in_map_iff. split.
  - intros [row [Hp Hin]]. apply in_map_iff in Hin.
    destruct Hin as [[rp row'] [Hsnd Hin]]. simpl in Hsnd. subst row'.
    apply filter_In in Hin. destruct Hin as [Hin Hrole].
    apply in_join in Hin. destruct Hin as [Hrp [Hrow Hon]]. simpl in *.
    apply String.eqb_eq in Hrole, Hon.
    exists rp, row. repeat split; auto.
  - intros [rp [row [Hrp [Hrole [Hrow [Hid Hp]]]]]].
    exists row. split; [now symmetry|].
    apply in_map_iff. exists (rp, row). split; [reflexivity|].
    apply filter_In. split.
    + apply in_join. repeat split; auto. apply String.eqb_eq. now symmetry.
    + simpl. now apply String.eqb_eq.
Qed.

Lemma hasRole_true (db : Database) (userId roleName : string) :
  UserRoleRepository.hasRole db userId roleName = true <->
  exists ur r,
    In ur (user_roles db) /\ user_roles_row.user_id ur = userId
    /\ In r (roles db) /\ roles_row.id r = user_roles_row.role_id ur
    /\ roles_row.name r = roleName
    /\ roles_row.is_active r = true.
Proof.
  unfold UserRoleRepository.hasRole, UserRoleRepository.ur_join_r, where_.
  rewrite truthy_first_In. split.
  - intros [[ur r] Hin].
    apply filter_In in Hin. destruct Hin as [Hin Hactive].
    apply filter_In in Hin. destruct Hin as [Hin Hname].
    apply filter_In in Hin. destruct Hin as [Hin Huser].
    apply in_join in Hin. destruct Hin as [Hur [Hr Hon]]. simpl in *.
    apply String.eqb_eq in Huser, Hon, Hname. apply Bool.eqb_prop in Hactive.
    exists ur, r. repeat split; auto.
  - intros [ur [r [Hur [Huser [Hr [Hid [Hname Hactive]]]]]]].
    exists (ur, r).
    apply filter_In. split; [|simpl; now rewrite Hactive].
    apply filter_In. split; [|simpl; now apply String.eqb_eq].
    apply filter_In. split; [|simpl; now apply String.eqb_eq].
    apply in_join. repeat split; auto. apply String.eqb_eq. now symmetry.
Qed.

Lemma hasPermission_true (db : Database) (roleId permissionName : string) :
  RolePermissionRepository.hasPermission db roleId permissionName = true <->
  exists rp row,
    In rp (role_permissions db) /\ role_permissions_row.role_id rp = roleId
    /\ In row (permissions db)
    /\ permissions_row.id row = role_permissions_row.permission_id rp
    /\ permissions_row.name row = permissionName.
Proof.
  unfold RolePermissionRepository.hasPermission,
    RolePermissionRepository.rp_join_p, where_.
  rewrite truthy_first_In. split.
  - intros [[rp row] Hin].
    apply filter_In in Hin. destruct Hin as [Hin Hname].
    apply filter_In in Hin. destruct Hin as [Hin Hrole].
    apply in_join in Hin. destruct Hin as [Hrp [Hrow Hon]]. simpl in *.
    apply String.eqb_eq in Hrole, Hon, Hname.
    exists rp, row. repeat split; auto.
  - intros [rp [row [Hrp [Hrole [Hrow [Hid Hname]]]]]].
    exists (rp, row).
    apply filter_In. split; [|simpl; now apply String.eqb_eq].
    apply filter_In. split; [|simpl; now apply String.eqb_eq].
    apply in_join. repeat split; auto. apply String.eqb_eq. now symmetry.
Qed.

Lemma getUserPermissions_spec (db : Database) (userId : string) :
  RBACService.getUserPermissions db userId
  = dedupe_first_seen
      (flat_map (fun role => RolePermissionRepository.getRolePermissions db (Role.id role))
                (UserRoleRepository.getUserRoles db userId)).
Proof.
  unfold RBACService.getUserPermissions.
  rewrite fold_left_push. simpl. apply filter_indexed_dedupe.
Qed.

Lemma union_grants (db : Database) (userId : string) (p : Permission.t) :
  In p (flat_map (fun role => RolePermissionRepository.getRolePermissions db (Role.id role))
                 (UserRoleRepository.getUserRoles db userId))
  <-> grants db userId true p.
Proof.
  rewrite in_flat_map. unfold grants. split.
  - intros [role [Hrole Hp]].
    apply getUserRoles_In in Hrole.
    destruct Hrole as [ur [r [Hur [Huser [Hr [Hid [Hactive Heq]]]]]]].
    apply getRolePermissions_In in Hp.
    destruct Hp as [rp [row [Hrp [Hrid [Hrow [Hpid Hmap]]]]]].
    subst role. simpl in Hrid.
    exists ur, r, rp, row. repeat split; auto.
  - intros [ur [r [rp [row [Hur [Huser [Hr [Hid [Hactive [Hrp [Hrid [Hrow [Hpid Hmap]]]]]]]]]]]]].
    exists (UserRoleRepository.mapRole r). split.
    + apply getUserRoles_In. exists ur, r. repeat split; auto.
    + apply getRolePermissions_In. exists rp, row. repeat split; auto.
Qed.

(** ** C1: the permission resolver *)

(** C1. The active roles of a user are read from the tables: [getUserRoles]
    returns exactly the role rows that an assignment row of the user points
    to and whose flag is set. [getUserPermissions] returns the union of
    [getRolePermissions] over those roles, deduplicated by permission [id]
    with the first occurrence kept in place: it is the specification's
    [dedupe_first_seen] of the concatenation, it has no two entries with one
    [id], it has the entries of the union and every [id] of the union. So
    every permission an active role of the user grants is in the result
    under its [id], each returned permission is granted through an active
    role of the user, and one that no active role grants is absent. *)
Theorem getUserPermissions_deduplicated_union (db : Database) (userId : string) :
  let activeRoles := UserRoleRepository.getUserRoles db userId in
  let union :=
    flat_map (fun role => RolePermissionRepository.getRolePermissions db (Role.id role))
             activeRoles in
  let result := RBACService.getUserPermissions db userId in
  result = dedupe_first_seen union
  /\ NoDup (map Permission.id result)
  /\ (forall p, In p result -> In p union)
  /\ (forall p, In p union ->
        exists q, In q result /\ Permission.id q = Permission.id p)
  /\ (forall role, In role activeRoles -> Role.isActive role = true)
  /\ (forall p, In p result -> grants db userId true p)
  /\ (forall p, ~ grants db userId true p -> ~ In p result)
  /\ (forall role,
        In role activeRoles <->
        exists ur r,
          In ur (user_roles db) /\ user_roles_row.user_id ur = userId
          /\ In r (roles db) /\ roles_row.id r = user_roles_row.role_id ur
          /\ roles_row.is_active r = true
          /\ role = UserRoleRepository.mapRole r)
  /\ (forall p, In p union <-> grants db userId true p)
  /\ (forall p, grants db userId true p ->
        exists q, In q result /\ Permission.id q = Permission.id p).
Proof.
  intros activeRoles union result.
  assert (Hspec : result = dedupe_first_seen union) by apply getUserPermissions_spec.
  assert (Hgrants : forall p, In p result -> grants db userId true p).
  { intros p Hp. rewrite Hspec in Hp. apply dedupe_first_seen_In in Hp.
    now apply union_grants. }
  split; [exact Hspec|].
  split; [rewrite Hspec; apply dedupe_first_seen_NoDup|].
  split; [intros p Hp; rewrite Hspec in Hp; now apply dedupe_first_seen_In|].
  split; [intros p Hp; rewrite Hspec; now apply dedupe_first_seen_covers|].
  split.
  { intros role Hrole. apply getUserRoles_In in Hrole.
    destruct Hrole as [ur [r [_ [_ [_ [_ [Hactive Heq]]]]]]]. now subst role. }
  split; [exact Hgrants|].
  split; [intros p Hno Hp; apply Hno; now apply Hgrants|].
  split; [intros role; apply getUserRoles_In|].
  split; [intros p; apply union_grants|].
  intros p Hp. rewrite Hspec. apply dedupe_first_seen_covers. now apply union_grants.
Qed.

(** On the sample data alice holds content:delete, which her active role
    admin grants, and content:read once although two of her active roles
    grant it; audit:read, which she reaches through the inactive role
    auditor alone, is absent. *)
Lemma getUserPermissions_deduplicated_union_witness :
  (exists q, In q (RBACService.getUserPermissions Sample.db "u1")
             /\ Permission.id q = "p2")
  /\ (exists q, In q (RBACService.getUserPermissions Sample.db "u1")
                /\ Permission.id q = "p1")
  /\ NoDup (map Permission.id (RBACService.getUserPermissions Sample.db "u1"))
  /\ ~ In (RolePermissionRepository.mapPermission Sample.audit_read)
          (RBACService.getUserPermissions Sample.db "u1").
Proof.
  destruct (getUserPermissions_deduplicated_union Sample.db "u1")
    as [_ [Hnodup [_ [_ [_ [_ [Habsent [_ [_ Hpresent]]]]]]]]].
  split; [|split; [|split]].
  - apply (Hpresent (RolePermissionRepository.mapPermission Sample.content_delete)).
    exists (user_roles_row.mk "ur1" "u1" "r1" "u1" 0), Sample.admin,
      (role_permissions_row.mk "rp2" "r1" "p2" "u1" 0), Sample.content_delete.
    simpl. intuition.
  - apply (Hpresent (RolePermissionRepository.mapPermission Sample.content_read)).
    exists (user_roles_row.mk "ur3" "u1" "r3" "u1" 0), Sample.member,
      (role_permissions_row.mk "rp4" "r3" "p1" "u1" 0), Sample.content_read.
    simpl. intuition.
  - exact Hnodup.
  - apply Habsent.
    intros [ur [r [rp [row [Hur [_ [Hr [Hid [Hactive [Hrp [Hrid [Hrow [Hpid Hmap]]]]]]]]]]]]].
    simpl in Hrow.
    destruct Hrow as [Hrow|[Hrow|[Hrow|[]]]]; subst row; try discriminate Hmap.
    simpl in Hrp.
    destruct Hrp as [Hrp|[Hrp|[Hrp|[Hrp|[]]]]]; subst rp; try discriminate Hpid.
    simpl in Hr.
    destruct Hr as [Hr|[Hr|[Hr|[]]]]; subst r; try discriminate Hrid.
    discriminate Hactive.
Defined.

(** ** C2: assigning an edge twice *)

Lemma insert_role_permissions_duplicate (db : Database) (row : role_permissions_row.t) :
  has_edge db (role_permissions_row.role_id row) (role_permissions_row.permission_id row)
  = true ->
  exists e, insert_role_permissions db row = Throw e.
Proof.
  unfold has_edge, insert_role_permissions. intros H.
  destruct (existsb
              (fun e => String.eqb (role_permissions_row.id e) (role_permissions_row.id row))
              (role_permissions db)).
  - eexists. reflexivity.
  - rewrite H. eexists. reflexivity.
Qed.

(** On an edge that is already in the graph the repository answers [false],
    the service answers [true], and neither changes the database. *)
Lemma assign_existing_edge (db : Database) (newId : string) (now : Z)
    (roleId permissionId assignedBy : string) :
  has_edge db roleId permissionId = true ->
  RolePermissionRepository.assignPermission db newId now roleId permissionId assignedBy
  = Return (false, db)
  /\ RBACService.assignPermissionToRole db newId now roleId permissionId assignedBy
     = Return (true, db).
Proof.
  intros H.
  assert (Hrepo :
    RolePermissionRepository.assignPermission db newId now roleId permissionId assignedBy
    = Return (false, db)).
  { unfold RolePermissionRepository.assignPermission.
    destruct (insert_role_permissions_duplicate db
                (role_permissions_row.mk newId roleId permissionId assignedBy now) H)
      as [e He].
    rewrite He. reflexivity. }
  split; [exact Hrepo|].
  unfold RBACService.assignPermissionToRole. rewrite Hrepo. reflexivity.
Qed.

(** A first assignment appends the edge, and both layers answer [true]. *)
Lemma assign_new_edge (db : Database) (newId : string) (now : Z)
    (roleId permissionId assignedBy : string) :
  has_edge db roleId permissionId = false ->
  existsb (fun e => String.eqb (role_permissions_row.id e) newId) (role_permissions db)
  = false ->
  let db' :=
    mkDatabase (users db) (roles db) (permissions db) (user_roles db)
      (role_permissions db
       ++ [role_permissions_row.mk newId roleId permissionId assignedBy now]) in
  RolePermissionRepository.assignPermission db newId now roleId permissionId assignedBy
  = Return (true, db')
  /\ RBACService.assignPermissionToRole db newId now roleId permissionId assignedBy
     = Return (true, db')
  /\ has_edge db' roleId permissionId = true.
Proof.
  intros Hedge Hpk db'.
  assert (Hrepo :
    RolePermissionRepository.assignPermission db newId now roleId permissionId assignedBy
    = Return (true, db')).
  { unfold RolePermissionRepository.assignPermission, insert_role_permissions.
    simpl. rewrite Hpk. unfold has_edge in Hedge. rewrite Hedge. reflexivity. }
  repeat split; [exact Hrepo| |].
  - unfold RBACService.assignPermissionToRole. rewrite Hrepo. reflexivity.
  - unfold has_edge, db'. simpl. rewrite existsb_app. simpl.
    rewrite !String.eqb_refl. simpl. apply orb_true_r.
Qed.

(** The user-role junction has the same two layers, with the same result
    on an edge that exists. *)
Lemma assignRole_existing_edge (db : Database) (newId : string) (now : Z)
    (userId roleId assignedBy : string) :
  existsb (fun e => String.eqb (user_roles_row.user_id e) userId
                    && String.eqb (user_roles_row.role_id e) roleId) (user_roles db)
  = true ->
  UserRoleRepository.assignRole db newId now userId roleId assignedBy = Return (false, db)
  /\ RBACService.assignRoleToUser db newId now userId roleId assignedBy
     = Return (true, db).
Proof.
  intros H.
  assert (Hrepo :
    UserRoleRepository.assignRole db newId now userId roleId assignedBy
    = Return (false, db)).
  { unfold UserRoleRepository.assignRole, insert_user_roles. simpl.
    destruct (existsb (fun e => String.eqb (user_roles_row.id e) newId) (user_roles db));
      [reflexivity|].
    rewrite H. reflexivity. }
  split; [exact Hrepo|].
  unfold RBACService.assignRoleToUser. rewrite Hrepo. reflexivity.
Qed.

(** C2. On the sample graph the edge (r1, p1) exists. Assigning it again
    leaves the graph as it was; the repository reports the failure as
    [false], and the service, which discards that answer, reports [true]. *)
Theorem assignPermissionToRole_duplicate_reports_success :
  has_edge Sample.db "r1" "p1" = true
  /\ RolePermissionRepository.assignPermission Sample.db "rp5" 1 "r1" "p1" "u1"
     = Return (false, Sample.db)
  /\ RBACService.assignPermissionToRole Sample.db "rp5" 1 "r1" "p1" "u1"
     = Return (true, Sample.db).
Proof.
  split; [reflexivity|]. now apply assign_existing_edge.
Qed.

(** ** C3: the active flag in the junction queries *)

(** The role auditor is inactive, and its edge to audit:read is returned by
    both queries. *)
Lemma inactive_role_edge_visible : ~ edges_of_inactive_role_hidden Sample.db.
Proof.
  intros H.
  destruct (H (role_permissions_row.mk "rp3" "r2" "p3" "u1" 0) Sample.auditor
              Sample.audit_read) as [_ Hhas]; simpl; auto.
  discriminate Hhas.
Qed.

(** C3, amended. [getUserRoles] and [hasRole] filter on the active flag of
    the joined role: every role returned is active, an edge to an inactive
    role does not show that role, [hasRole] holds exactly for an edge to an
    active role of that name, and the raw edge stays in
    [getUserRoleAssignments]. [getRolePermissions] and [hasPermission] join
    to the permissions, which have no active flag, and filter on none: they
    return what the role's edges join to and read no other table. *)
Theorem junction_queries_active_filter (db : Database) :
  (forall userId role,
     In role (UserRoleRepository.getUserRoles db userId) -> Role.isActive role = true)
  /\ (forall userId r,
        roles_row.is_active r = false ->
        ~ In (UserRoleRepository.mapRole r) (UserRoleRepository.getUserRoles db userId))
  /\ (forall userId roleName,
        UserRoleRepository.hasRole db userId roleName = true <->
        exists ur r,
          In ur (user_roles db) /\ user_roles_row.user_id ur = userId
          /\ In r (roles db) /\ roles_row.id r = user_roles_row.role_id ur
          /\ roles_row.name r = roleName /\ roles_row.is_active r = true)
  /\ (forall ur,
        In ur (user_roles db) ->
        In (UserRoleRepository.mapUserRole ur)
           (UserRoleRepository.getUserRoleAssignments db (user_roles_row.user_id ur)))
  /\ (forall roleId p,
        In p (RolePermissionRepository.getRolePermissions db roleId) <->
        exists rp row,
          In rp (role_permissions db) /\ role_permissions_row.role_id rp = roleId
          /\ In row (permissions db)
          /\ permissions_row.id row = role_permissions_row.permission_id rp
          /\ p = RolePermissionRepository.mapPermission row)
  /\ (forall roleId permissionName,
        RolePermissionRepository.hasPermission db roleId permissionName = true <->
        exists rp row,
          In rp (role_permissions db) /\ role_permissions_row.role_id rp = roleId
          /\ In row (permissions db)
          /\ permissions_row.id row = role_permissions_row.permission_id rp
          /\ permissions_row.name row = permissionName)
  /\ (forall db' roleId permissionName,
        permissions db' = permissions db ->
        role_permissions db' = role_permissions db ->
        RolePermissionRepository.getRolePermissions db' roleId
        = RolePermissionRepository.getRolePermissions db roleId
        /\ RolePermissionRepository.hasPermission db' roleId permissionName
           = RolePermissionRepository.hasPermission db roleId permissionName).
Proof.
  assert (Hactive : forall userId role,
            In role (UserRoleRepository.getUserRoles db userId) ->
            Role.isActive role = true).
  { intros userId role Hrole. apply getUserRoles_In in Hrole.
    destruct Hrole as [ur [r [_ [_ [_ [_ [Hactive Heq]]]]]]]. now subst role. }
  split; [exact Hactive|].
  split.
  { intros userId r Hflag Hin. apply Hactive in Hin. simpl in Hin. congruence. }
  split; [intros; apply hasRole_true|].
  split.
  { intros ur Hur. unfold UserRoleRepository.getUserRoleAssignments, where_.
    apply in_map. apply filter_In. split; [assumption|apply String.eqb_refl]. }
  split; [intros; apply getRolePermissions_In|].
  split; [intros; apply hasPermission_true|].
  intros db' roleId permissionName Hp Hrp.
  unfold RolePermissionRepository.getRolePermissions,
    RolePermissionRepository.hasPermission, RolePermissionRepository.rp_join_p.
  rewrite Hp, Hrp. split; reflexivity.
Qed.

(** On the sample data alice does not hold the inactive role auditor by
    [hasRole], although the edge is there. *)
Lemma junction_queries_active_filter_witness :
  UserRoleRepository.hasRole Sample.db "u1" "auditor" = false
  /\ ~ In (UserRoleRepository.mapRole Sample.auditor)
          (UserRoleRepository.getUserRoles Sample.db "u1")
  /\ In (UserRoleRepository.mapUserRole (user_roles_row.mk "ur2" "u1" "r2" "u1" 0))
        (UserRoleRepository.getUserRoleAssignments Sample.db "u1").
Proof.
  destruct (junction_queries_active_filter Sample.db)
    as [_ [Hhidden [_ [Hraw _]]]].
  split; [reflexivity|]. split.
  - apply Hhidden. reflexivity.
  - apply (Hraw (user_roles_row.mk "ur2" "u1" "r2" "u1" 0)). simpl. auto.
Defined.

(** ** C4: credential verification *)

Section Credentials.
Context {RT : Runtime}.
Variable config : JwtConfig.t.

(** C4. [authenticateUser] returns [null], and throws nothing, when the
    username is unknown, when the account is inactive and when the password
    does not match the stored hash; the three results are one value. It
    returns [null] in no other case. *)
Theorem authenticateUser_failures_are_null (db : Database) (now : Z)
    (username password : string) :
  (login_fails db username password ->
   RBACService.authenticateUser config db now username password = Return None)
  /\ (RBACService.authenticateUser config db now username password = Return None ->
      login_fails db username password).
Proof.
  unfold login_fails, RBACService.authenticateUser. split.
  - intros [Hnone | [[user [Hsome Hinactive]] | [user [Hsome Hwrong]]]].
    + now rewrite Hnone.
    + rewrite Hsome, Hinactive. reflexivity.
    + rewrite Hsome, Hwrong. simpl. now destruct (User.isActive user).
  - destruct (UserRepository.findByUsername db username) as [user|]; [|auto].
    destruct (User.isActive user) eqn:Hactive; simpl.
    + destruct (bcrypt_compare password (User.password user)) eqn:Hpw; simpl.
      * destruct (RBACService.generateToken config now _); simpl; discriminate.
      * intros _. right. right. eauto.
    + intros _. right. left. eauto.
Qed.

End Credentials.

(** On the sample data: an unknown username, the inactive account of bob,
    and a wrong password for alice. *)
Lemma authenticateUser_failures_are_null_witness :
  RBACService.authenticateUser (RT := Reference.runtime) Reference.config
    Sample.db 1000 "carol" "password" = Return None
  /\ RBACService.authenticateUser (RT := Reference.runtime) Reference.config
       Sample.db 1000 "bob" "password" = Return None
  /\ RBACService.authenticateUser (RT := Reference.runtime) Reference.config
       Sample.db 1000 "alice" "wrongpassword" = Return None.
Proof.
  split; [|split].
  - apply (authenticateUser_failures_are_null (RT := Reference.runtime)).
    left. reflexivity.
  - apply (authenticateUser_failures_are_null (RT := Reference.runtime)).
    right. left. exists (UserRepository.mapUser Sample.bob). split; reflexivity.
  - apply (authenticateUser_failures_are_null (RT := Reference.runtime)).
    right. right. exists (UserRepository.mapUser Sample.alice). split; reflexivity.
Defined.

(** ** Strings and segments *)

Lemma append_assoc (a b c : string) : ((a ++ b) ++ c = a ++ (b ++ c))%string.
Proof.
  induction a as [|x a IH]; simpl; [reflexivity|now rewrite IH].
Qed.

Lemma split_no_dot (s : string) : no_dot s = true -> split jwt.dot s = [s].
Proof.
  induction s as [|c s IH]; simpl; [reflexivity|].
  intros H. apply andb_true_iff in H. destruct H as [Hc Hs].
  apply negb_true_iff in Hc. rewrite Hc, (IH Hs). reflexivity.
Qed.

Lemma split_segment (a b : string) :
  no_dot a = true ->
  split jwt.dot (a ++ String jwt.dot b) = a :: split jwt.dot b.
Proof.
  induction a as [|c a IH]; simpl; intros H.
  - reflexivity.
  - apply andb_true_iff in H. destruct H as [Hc Ha].
    apply negb_true_iff in Hc. rewrite Hc, (IH Ha). reflexivity.
Qed.

Lemma split_compact (header body signature : string) :
  no_dot header = true -> no_dot body = true -> no_dot signature = true ->
  split jwt.dot ((header ++ "." ++ body) ++ "." ++ signature)
  = [header; body; signature].
Proof.
  intros Hh Hb Hs. rewrite append_assoc. simpl.
  rewrite (split_segment header _ Hh), (split_segment body _ Hb).
  now rewrite (split_no_dot signature Hs).
Qed.

(** ** C5 and C6: tokens *)

Section Tokens.
Context {RT : Runtime}.
Variable config : JwtConfig.t.

(** Whatever [jwt.verify] throws, [verifyToken] returns [null]; it returns
    a payload only when [jwt.verify] returns it. *)
Lemma verifyToken_catches (now : Z) (token : string) :
  match jwt.verify token (JwtConfig.secret config) now with
  | Return payload => RBACService.verifyToken config now token = Return (Some payload)
  | Throw _ => RBACService.verifyToken config now token = Return None
  end.
Proof.
  unfold RBACService.verifyToken.
  destruct (jwt.verify token (JwtConfig.secret config) now); reflexivity.
Qed.

Lemma verifyToken_of_throw (now : Z) (token : string) (e : exn) :
  jwt.verify token (JwtConfig.secret config) now = Throw e ->
  RBACService.verifyToken config now token = Return None.
Proof.
  intros H. pose proof (verifyToken_catches now token) as Hc. now rewrite H in Hc.
Qed.

(** C5. With a readable [expiresIn] and a payload segment that decodes to
    what was encoded (segments having no dot, as base64url has none),
    [generateToken] returns a token; [verifyToken] with the same secret
    returns its claims, stamped with [iat] and [exp = iat + ttl], at every
    time before [exp], and returns [null] from [exp] on. *)
Theorem generateToken_verifyToken_roundtrip (payload : TokenClaims.t) (now ttl : Z) :
  let stamped := jwt.stamp payload now (now + ttl) in
  timespan (JwtConfig.expiresIn config) = Some ttl ->
  decode_claims (encode_claims stamped) = Some stamped ->
  no_dot (encode_claims stamped) = true ->
  no_dot (hmac (JwtConfig.secret config)
            (jwt.header_segment ++ "." ++ encode_claims stamped)%string) = true ->
  exists token,
    RBACService.generateToken config now payload = Return token
    /\ claims_of stamped = payload
    /\ (forall later, later < now + ttl ->
          RBACService.verifyToken config later token = Return (Some stamped))
    /\ (forall later, now + ttl <= later ->
          RBACService.verifyToken config later token = Return None).
Proof.
  intros stamped Httl Hcodec Hbody Hsig.
  unfold RBACService.generateToken, jwt.sign. rewrite Httl.
  fold stamped. eexists. split; [reflexivity|].
  split; [now destruct payload|].
  assert (Hverify : forall later,
    jwt.verify
      ((jwt.header_segment ++ "." ++ encode_claims stamped) ++ "."
       ++ hmac (JwtConfig.secret config)
            (jwt.header_segment ++ "." ++ encode_claims stamped))%string
      (JwtConfig.secret config) later
    = if now + ttl <=? later then Throw TokenExpiredError else Return stamped).
  { intros later. unfold jwt.verify.
    rewrite split_compact by (assumption || reflexivity).
    rewrite String.eqb_refl. simpl negb. cbv iota.
    rewrite Hcodec, String.eqb_refl. reflexivity. }
  split; intros later Hlater.
  - pose proof (verifyToken_catches later
      ((jwt.header_segment ++ "." ++ encode_claims stamped) ++ "."
       ++ hmac (JwtConfig.secret config)
            (jwt.header_segment ++ "." ++ encode_claims stamped))%string) as Hc.
    rewrite Hverify in Hc.
    destruct (now + ttl <=? later) eqn:E; [apply Z.leb_le in E; lia|exact Hc].
  - pose proof (verifyToken_catches later
      ((jwt.header_segment ++ "." ++ encode_claims stamped) ++ "."
       ++ hmac (JwtConfig.secret config)
            (jwt.header_segment ++ "." ++ encode_claims stamped))%string) as Hc.
    rewrite Hverify in Hc.
    destruct (now + ttl <=? later) eqn:E; [exact Hc|apply Z.leb_gt in E; lia].
Qed.

(** C6. [verifyToken] throws for no input. It returns [null] whenever
    [jwt.verify] throws, and so for a token that is not three segments, for
    one whose signature is not the keyed hash of its first two segments, and
    for one whose [exp] is not after the clock. *)
Theorem verifyToken_fails_closed (now : Z) (token : string) :
  (exists result, RBACService.verifyToken config now token = Return result)
  /\ (forall e, jwt.verify token (JwtConfig.secret config) now = Throw e ->
        RBACService.verifyToken config now token = Return None)
  /\ (length (split jwt.dot token) <> 3%nat ->
        RBACService.verifyToken config now token = Return None)
  /\ (forall header body signature,
        split jwt.dot token = [header; body; signature] ->
        signature <> hmac (JwtConfig.secret config) (header ++ "." ++ body)%string ->
        RBACService.verifyToken config now token = Return None)
  /\ (forall header body signature payload exp,
        split jwt.dot token = [header; body; signature] ->
        decode_claims body = Some payload ->
        JWTPayload.exp payload = Some exp ->
        exp <= now ->
        RBACService.verifyToken config now token = Return None).
Proof.
  split.
  { pose proof (verifyToken_catches now token) as Hc.
    destruct (jwt.verify token (JwtConfig.secret config) now); eauto. }
  split; [intros e; apply verifyToken_of_throw|].
  split.
  { intros Hlen.
    assert (exists e, jwt.verify token (JwtConfig.secret config) now = Throw e) as [e He].
    { unfold jwt.verify.
      destruct (split jwt.dot token) as [|a [|b [|c [|d l]]]]; simpl in Hlen;
        try (eexists; reflexivity).
      congruence. }
    exact (verifyToken_of_throw now token e He). }
  split.
  { intros header body signature Hsplit Hsig.
    assert (exists e, jwt.verify token (JwtConfig.secret config) now = Throw e) as [e He].
    { unfold jwt.verify. rewrite Hsplit.
      destruct (negb (String.eqb header jwt.header_segment)); [eexists; reflexivity|].
      destruct (decode_claims body); [|eexists; reflexivity].
      apply String.eqb_neq in Hsig. rewrite Hsig. eexists. reflexivity. }
    exact (verifyToken_of_throw now token e He). }
  intros header body signature payload exp Hsplit Hdecode Hexp Hle.
  assert (exists e, jwt.verify token (JwtConfig.secret config) now = Throw e) as [e He].
  { unfold jwt.verify. rewrite Hsplit.
    destruct (negb (String.eqb header jwt.header_segment)); [eexists; reflexivity|].
    rewrite Hdecode.
    destruct (negb (String.eqb signature _)); [eexists; reflexivity|].
    rewrite Hexp. apply Z.leb_le in Hle. rewrite Hle. eexists. reflexivity. }
  exact (verifyToken_of_throw now token e He).
Qed.

End Tokens.

(** A token issued at 1000 with a TTL of one hour verifies at 2000 and is
    invalid at 4600. *)
Lemma generateToken_verifyToken_roundtrip_witness :
  exists token,
    RBACService.generateToken (RT := Reference.runtime) Reference.config 1000
      Sample.claims = Return token
    /\ RBACService.verifyToken (RT := Reference.runtime) Reference.config 2000 token
       = Return (Some (jwt.stamp Sample.claims 1000 4600))
    /\ RBACService.verifyToken (RT := Reference.runtime) Reference.config 4600 token
       = Return None.
Proof.
  destruct (generateToken_verifyToken_roundtrip (RT := Reference.runtime)
              Reference.config Sample.claims 1000 3600)
    as [token [Hgen [_ [Hvalid Hexpired]]]]; try (vm_compute; reflexivity).
  exists token. split; [exact Hgen|]. split.
  - apply Hvalid. lia.
  - apply Hexpired. lia.
Defined.

(** The token of the test suite, a string without dots, a token with a
    wrong signature, and a token past its expiry. *)
Lemma verifyToken_fails_closed_witness :
  RBACService.verifyToken (RT := Reference.runtime) Reference.config 2000
    "invalid.token.here" = Return None
  /\ RBACService.verifyToken (RT := Reference.runtime) Reference.config 2000
       "garbage" = Return None
  /\ RBACService.verifyToken (RT := Reference.runtime) Reference.config 2000
       Sample.tampered = Return None
  /\ RBACService.verifyToken (RT := Reference.runtime) Reference.config 5000
       Sample.token = Return None.
Proof.
  split; [|split; [|split]].
  - destruct (verifyToken_fails_closed (RT := Reference.runtime) Reference.config 2000
                "invalid.token.here") as [_ [Hthrow _]].
    apply (Hthrow (JsonWebTokenError "invalid token")). reflexivity.
  - destruct (verifyToken_fails_closed (RT := Reference.runtime) Reference.config 2000
                "garbage") as [_ [_ [Hmalformed _]]].
    apply Hmalformed. simpl. lia.
  - destruct (verifyToken_fails_closed (RT := Reference.runtime) Reference.config 2000
                Sample.tampered) as [_ [_ [_ [Hsignature _]]]].
    apply (Hsignature jwt.header_segment Sample.token_body
             (Sample.token_signature ++ "0")%string).
    + vm_compute. reflexivity.
    + intros H. vm_compute in H. discriminate H.
  - destruct (verifyToken_fails_closed (RT := Reference.runtime) Reference.config 5000
                Sample.token) as [_ [_ [_ [_ Hexpiry]]]].
    apply (Hexpiry jwt.header_segment Sample.token_body Sample.token_signature
             (jwt.stamp Sample.claims 1000 4600) 4600).
    + vm_compute. reflexivity.
    + vm_compute. reflexivity.
    + reflexivity.
    + lia.
Defined.

(** ** C7 to C10: the gates *)

Lemma promise_all_answers {A B : Type} (f : A -> Exc B) (l : list A) :
  (forall a, exists b, f a = Return b) ->
  exists bs, promise_all (map f l) = Return bs.
Proof.
  intros Hf. induction l as [|a l [bs IH]]; simpl; [eauto|].
  destruct (Hf a) as [b Hb]. rewrite Hb, IH. simpl. eauto.
Qed.

(** The snapshot test of one permission check, as the three gates that use
    it write it. *)
Lemma snapshot_some_iff (check : PermissionCheck.t) (permissions : list string) :
  some (fun permission =>
          String.eqb permission (colon_name check)
          || String.eqb permission (dot_name check)) permissions = true
  <-> In (colon_name check) permissions \/ In (dot_name check) permissions.
Proof.
  unfold some. rewrite existsb_exists. split.
  - intros [p [Hin Hp]]. apply orb_true_iff in Hp.
    destruct Hp as [Hp|Hp]; apply String.eqb_eq in Hp; subst; auto.
  - intros [H|H]; eexists; (split; [exact H|]);
      rewrite String.eqb_refl; auto using orb_true_r.
Qed.

Lemma includes_In (l : list string) (x : string) : includes l x = true <-> In x l.
Proof.
  unfold includes. rewrite existsb_exists. split.
  - intros [y [Hin Hy]]. apply String.eqb_eq in Hy. now subst.
  - intros H. exists x. split; [assumption|apply String.eqb_refl].
Qed.

Lemma snapshot_requirePermission_passes (check : PermissionCheck.t) (user : JWTPayload.t) :
  passes (RBACMiddleware.requirePermission check (Some user)) <->
  In (colon_name check) (JWTPayload.permissions user)
  \/ In (dot_name check) (JWTPayload.permissions user).
Proof.
  rewrite <- snapshot_some_iff.
  unfold passes, RBACMiddleware.requirePermission.
  destruct (some _ (JWTPayload.permissions user)); simpl; split;
    intros H; (reflexivity || discriminate H).
Qed.

Lemma requireAdminOrPermission_decision (check : PermissionCheck.t) (user : JWTPayload.t) :
  (passes (RBACMiddleware.requireAdminOrPermission check (Some user)) <->
   In "admin" (JWTPayload.roles user)
   \/ In (colon_name check) (JWTPayload.permissions user)
   \/ In (dot_name check) (JWTPayload.permissions user))
  /\ (~ passes (RBACMiddleware.requireAdminOrPermission check (Some user)) ->
      forbidden (RBACMiddleware.requireAdminOrPermission check (Some user))).
Proof.
  rewrite <- snapshot_some_iff, <- includes_In.
  unfold passes, forbidden, RBACMiddleware.requireAdminOrPermission.
  destruct (includes (JWTPayload.roles user) "admin");
    destruct (some _ (JWTPayload.permissions user)); simpl; split;
    try (split; intros H; (reflexivity || tauto || discriminate H
                           || (destruct H as [H|H]; discriminate H)));
    intros H; (eexists; reflexivity) || (exfalso; apply H; reflexivity).
Qed.

(** C7. For an authenticated identity [requireAdminOrPermission] passes
    exactly when the role name admin is among the identity's roles or
    [requirePermission] passes for the same check. It passes for an admin
    whatever the permissions, for a non-admin whose one permission is the
    checked one, and answers 403 for a non-admin who holds it in neither
    spelling. *)
Theorem requireAdminOrPermission_iff (check : PermissionCheck.t) (user : JWTPayload.t) :
  (passes (RBACMiddleware.requireAdminOrPermission check (Some user)) <->
   includes (JWTPayload.roles user) "admin" = true
   \/ passes (RBACMiddleware.requirePermission check (Some user)))
  /\ (includes (JWTPayload.roles user) "admin" = true ->
      passes (RBACMiddleware.requireAdminOrPermission check (Some user)))
  /\ (includes (JWTPayload.roles user) "admin" = false ->
      JWTPayload.permissions user = [colon_name check] ->
      passes (RBACMiddleware.requireAdminOrPermission check (Some user)))
  /\ (includes (JWTPayload.roles user) "admin" = false ->
      ~ In (colon_name check) (JWTPayload.permissions user) ->
      ~ In (dot_name check) (JWTPayload.permissions user) ->
      forbidden (RBACMiddleware.requireAdminOrPermission check (Some user))).
Proof.
  destruct (requireAdminOrPermission_decision check user) as [Hiff Hdeny].
  rewrite snapshot_requirePermission_passes, includes_In.
  split; [exact Hiff|]. split; [|split].
  - intros Hadmin. apply Hiff. now left.
  - intros _ Hperm. apply Hiff. right. left. rewrite Hperm. now left.
  - intros Hadmin Hcolon Hdot. apply Hdeny. intros Hpass.
    apply Hiff in Hpass. destruct Hpass as [H|[H|H]]; auto.
    apply includes_In in H. congruence.
Qed.

(** The three cases of the specification for the check sensitive:read. *)
Lemma requireAdminOrPermission_iff_witness :
  passes (RBACMiddleware.requireAdminOrPermission Sample.sensitive_read
            (Some (Sample.identity ["admin"] [])))
  /\ passes (RBACMiddleware.requireAdminOrPermission Sample.sensitive_read
               (Some (Sample.identity ["user"] ["sensitive:read"])))
  /\ forbidden (RBACMiddleware.requireAdminOrPermission Sample.sensitive_read
                  (Some (Sample.identity ["user"] ["content:read"]))).
Proof.
  split; [|split].
  - destruct (requireAdminOrPermission_iff Sample.sensitive_read
                (Sample.identity ["admin"] [])) as [_ [Hadmin _]].
    apply Hadmin. reflexivity.
  - destruct (requireAdminOrPermission_iff Sample.sensitive_read
                (Sample.identity ["user"] ["sensitive:read"])) as [_ [_ [Hperm _]]].
    apply Hperm; reflexivity.
  - destruct (requireAdminOrPermission_iff Sample.sensitive_read
                (Sample.identity ["user"] ["content:read"])) as [_ [_ [_ Hdeny]]].
    apply Hdeny; [reflexivity| |]; simpl; intros [H|[]]; discriminate H.
Defined.

Lemma snapshot_requireRole_passes (roleName : string) (user : JWTPayload.t) :
  passes (RBACMiddleware.requireRole roleName (Some user)) <->
  In roleName (JWTPayload.roles user).
Proof.
  rewrite <- includes_In. unfold passes, RBACMiddleware.requireRole.
  destruct (includes (JWTPayload.roles user) roleName); simpl; split;
    intros H; (reflexivity || discriminate H).
Qed.

Lemma promise_all_return {A B : Type} (f : A -> Exc B) (l : list A) (bs : list B) :
  promise_all (map f l) = Return bs -> Forall2 (fun a b => f a = Return b) l bs.
Proof.
  revert bs. induction l as [|a l IH]; simpl; intros bs H.
  - inversion H. constructor.
  - destruct (f a) as [b|e] eqn:Ha; simpl in H; [|discriminate H].
    destruct (promise_all (map f l)) as [bs'|e]; simpl in H; [|discriminate H].
    inversion H; subst. constructor; [assumption|now apply IH].
Qed.

Lemma promise_all_throw {A B : Type} (f : A -> Exc B) (l : list A) (a : A) (e : exn) :
  In a l -> f a = Throw e -> exists e', promise_all (map f l) = Throw e'.
Proof.
  induction l as [|x l IH]; simpl; [tauto|].
  intros [Hx|Hin] Ha.
  - subst x. rewrite Ha. simpl. eauto.
  - destruct (f x); simpl; [|eauto].
    destruct (IH Hin Ha) as [e' He']. rewrite He'. simpl. eauto.
Qed.

Lemma promise_all_some {A : Type} (f : A -> Exc bool) (l : list A) (bs : list bool) :
  promise_all (map f l) = Return bs ->
  (some (fun b => b) bs = true <-> exists a, In a l /\ f a = Return true).
Proof.
  unfold some. revert bs. induction l as [|a l IH]; simpl; intros bs H.
  - inversion H. simpl. split; [discriminate|intros [a [[] _]]].
  - destruct (f a) as [b|e] eqn:Ha; simpl in H; [|discriminate H].
    destruct (promise_all (map f l)) as [bs'|e]; simpl in H; [|discriminate H].
    inversion H; subst. simpl. specialize (IH bs' eq_refl). split.
    + intros Hor. apply orb_true_iff in Hor. destruct Hor as [Hb|Hrest].
      * subst b. exists a. split; [now left|assumption].
      * destruct (proj1 IH Hrest) as [a' [Hin Ha']]. exists a'. split; [now right|assumption].
    + intros [a' [[Heq|Hin] Ha']].
      * subst a'. rewrite Ha in Ha'. inversion Ha'. reflexivity.
      * apply orb_true_iff. right. apply IH. eauto.
Qed.

Lemma live_requireRole_passes (svc : AuthMiddleware.Service) (roleName : string)
    (user : JWTPayload.t) :
  passes (AuthMiddleware.requireRole svc roleName (Some user)) <->
  AuthMiddleware.hasRole svc (JWTPayload.userId user) roleName = Return true.
Proof.
  unfold passes, AuthMiddleware.requireRole.
  destruct (AuthMiddleware.hasRole svc _ roleName) as [[|]|e]; simpl; split;
    intros H; (reflexivity || discriminate H).
Qed.

Lemma live_requirePermission_passes (svc : AuthMiddleware.Service)
    (check : PermissionCheck.t) (user : JWTPayload.t) :
  passes (AuthMiddleware.requirePermission svc check (Some user)) <->
  AuthMiddleware.hasPermission svc (JWTPayload.userId user) check = Return true.
Proof.
  unfold passes, AuthMiddleware.requirePermission.
  destruct (AuthMiddleware.hasPermission svc _ check) as [[|]|e]; simpl; split;
    intros H; (reflexivity || discriminate H).
Qed.

(** Every gate has the shape: no identity, 401; otherwise a body that ends
    in [next()] or in a 403, and a handler that turns a throw into a 500. *)
Ltac gate_cases :=
  repeat match goal with
         | |- context [if ?b then _ else _] => destruct b; simpl
         | |- context [bind ?m _] => destruct m; simpl
         end.

Lemma gate_total (g : Gate) (user : option JWTPayload.t) :
  exists o, run_gate g user = Return o.
Proof.
  destruct g, user as [identity|]; simpl;
    unfold AuthMiddleware.requireRole, AuthMiddleware.requirePermission,
      AuthMiddleware.requireAnyRole, AuthMiddleware.requireAnyPermission,
      RBACMiddleware.requireRole, RBACMiddleware.requirePermission,
      RBACMiddleware.requireAnyRole, RBACMiddleware.requireAnyPermission,
      RBACMiddleware.requireAdminOrPermission;
    gate_cases; eexists; reflexivity.
Qed.

Lemma gate_without_identity (g : Gate) :
  run_gate g None = Return (Respond 401 "Usuário não autenticado").
Proof. destruct g; reflexivity. Qed.

Lemma gate_with_identity (g : Gate) (identity : JWTPayload.t) :
  passes (run_gate g (Some identity))
  \/ forbidden (run_gate g (Some identity))
  \/ (internal_error (run_gate g (Some identity)) /\ ~ gate_service_answers g).
Proof.
  unfold passes, forbidden, internal_error.
  destruct g; simpl;
    unfold AuthMiddleware.requireRole, AuthMiddleware.requirePermission,
      AuthMiddleware.requireAnyRole, AuthMiddleware.requireAnyPermission,
      RBACMiddleware.requireRole, RBACMiddleware.requirePermission,
      RBACMiddleware.requireAnyRole, RBACMiddleware.requireAnyPermission,
      RBACMiddleware.requireAdminOrPermission.
  - destruct (AuthMiddleware.hasRole rbacService _ roleName) as [[|]|e] eqn:E; simpl; eauto.
    right. right. split; [eauto|]. intros [Hrole _].
    destruct (Hrole (JWTPayload.userId identity) roleName) as [b Hb]. congruence.
  - destruct (AuthMiddleware.hasPermission rbacService _ permissionCheck)
      as [[|]|e] eqn:E; simpl; eauto.
    right. right. split; [eauto|]. intros [_ Hperm].
    destruct (Hperm (JWTPayload.userId identity) permissionCheck) as [b Hb]. congruence.
  - destruct (promise_all _) as [bs|e] eqn:E; simpl.
    + destruct (some _ bs); simpl; eauto.
    + right. right. split; [eauto|]. intros [Hrole _].
      destruct (promise_all_answers
                  (fun roleName =>
                     AuthMiddleware.hasRole rbacService (JWTPayload.userId identity) roleName)
                  roleNames (Hrole (JWTPayload.userId identity))) as [bs Hbs].
      congruence.
  - destruct (promise_all _) as [bs|e] eqn:E; simpl.
    + destruct (some _ bs); simpl; eauto.
    + right. right. split; [eauto|]. intros [_ Hperm].
      destruct (promise_all_answers
                  (fun check =>
                     AuthMiddleware.hasPermission rbacService (JWTPayload.userId identity)
                       check)
                  permissionChecks (Hperm (JWTPayload.userId identity))) as [bs Hbs].
      congruence.
  - destruct (includes _ roleName); simpl; eauto.
  - destruct (some _ (JWTPayload.permissions identity)); simpl; eauto.
  - destruct (some _ roleNames); simpl; eauto.
  - destruct (some _ permissionChecks); simpl; eauto.
  - destruct (includes _ "admin"); destruct (some _ (JWTPayload.permissions identity));
      simpl; eauto.
Qed.

Lemma promise_all_resolves {A B : Type} (f : A -> Exc B) (l : list A) :
  (forall a, In a l -> exists b, f a = Return b) ->
  exists bs, promise_all (map f l) = Return bs.
Proof.
  induction l as [|a l IH]; simpl; intros Hf; [eauto|].
  destruct (Hf a (or_introl eq_refl)) as [b Hb].
  destruct IH as [bs Hbs]; [intros a' Ha'; apply Hf; now right|].
  rewrite Hb, Hbs. simpl. eauto.
Qed.

Lemma promise_all_resolved {A B : Type} (f : A -> Exc B) (l : list A) (bs : list B) :
  promise_all (map f l) = Return bs ->
  forall a, In a l -> exists b, f a = Return b.
Proof.
  revert bs. induction l as [|x l IH]; simpl; intros bs H a Ha; [contradiction|].
  destruct (f x) as [b|e] eqn:Hx; simpl in H; [|discriminate H].
  destruct (promise_all (map f l)) as [bs'|e] eqn:Hl; simpl in H; [|discriminate H].
  destruct Ha as [Ha|Ha]; [subst a; eauto|exact (IH bs' eq_refl a Ha)].
Qed.

(** A snapshot gate: a boolean test, [next()] when it holds and a 403 when
    it does not. *)
Lemma snapshot_decision (test : bool) (held : Prop) (error error500 : string) :
  (test = true <-> held) ->
  let outcome :=
    try_catch (if negb test then Return (Respond 403 error) else Return Next)
      (fun _ => Return (Respond 500 error500)) in
  (passes outcome <-> True /\ held)
  /\ (forbidden outcome <-> True /\ ~ held)
  /\ (internal_error outcome <-> ~ True).
Proof.
  intros Htest. unfold passes, forbidden, internal_error.
  destruct test; simpl.
  - assert (Hheld : held) by now apply Htest.
    split; [split; [auto|reflexivity]|]. split.
    + split; [intros [e He]; discriminate He|intros [_ Hno]; contradiction].
    + split; [intros [e He]; discriminate He|intros Hno; now contradiction Hno].
  - assert (Hno : ~ held) by (intros Hheld; apply Htest in Hheld; discriminate Hheld).
    split; [split; [discriminate|intros [_ Hheld]; contradiction]|]. split.
    + split; [auto|intros _; eexists; reflexivity].
    + split; [intros [e He]; discriminate He|intros Hf; now contradiction Hf].
Qed.

(** A live gate on one query: [next()] on the answer [true], a 403 on the
    answer [false], a 500 when the query rejects. *)
Lemma live_decision (answer : Exc bool) (error error500 : string) :
  let outcome :=
    try_catch
      (granted <- answer ;;
       if negb granted then Return (Respond 403 error) else Return Next)
      (fun _ => Return (Respond 500 error500)) in
  (passes outcome <-> (exists b, answer = Return b) /\ answer = Return true)
  /\ (forbidden outcome <-> (exists b, answer = Return b) /\ answer <> Return true)
  /\ (internal_error outcome <-> ~ exists b, answer = Return b).
Proof.
  unfold passes, forbidden, internal_error.
  destruct answer as [[|]|e]; simpl.
  - split; [split; [eauto|reflexivity]|]. split.
    + split; [intros [x Hx]; discriminate Hx|intros [_ Hne]; now contradiction Hne].
    + split; [intros [x Hx]; discriminate Hx|intros Hno; exfalso; apply Hno; eauto].
  - split; [split; [discriminate|intros [_ H]; discriminate H]|]. split.
    + split; [intros _; split; [eauto|discriminate]|intros _; eexists; reflexivity].
    + split; [intros [x Hx]; discriminate Hx|intros Hno; exfalso; apply Hno; eauto].
  - split; [split; [discriminate|intros [_ H]; discriminate H]|]. split.
    + split; [intros [x Hx]; discriminate Hx|intros [[b Hb] _]; discriminate Hb].
    + split; [intros _ [b Hb]; discriminate Hb|intros _; eexists; reflexivity].
Qed.

(** A live any-of gate: the queries are awaited together; [next()] when all
    resolve and one answers [true], a 403 when all resolve and none does, a
    500 when one rejects. *)
Lemma live_any_decision {A : Type} (query : A -> Exc bool) (items : list A)
    (error error500 : string) :
  let outcome :=
    try_catch
      (answers <- promise_all (map query items) ;;
       if negb (some (fun granted => granted) answers)
       then Return (Respond 403 error) else Return Next)
      (fun _ => Return (Respond 500 error500)) in
  let resolve := forall a, In a items -> exists b, query a = Return b in
  let held := exists a, In a items /\ query a = Return true in
  (passes outcome <-> resolve /\ held)
  /\ (forbidden outcome <-> resolve /\ ~ held)
  /\ (internal_error outcome <-> ~ resolve).
Proof.
  unfold passes, forbidden, internal_error.
  destruct (promise_all (map query items)) as [bs|e] eqn:Hall; simpl.
  - pose proof (promise_all_resolved query items bs Hall) as Hresolve.
    pose proof (promise_all_some query items bs Hall) as Hsome.
    destruct (some (fun granted => granted) bs); simpl.
    + assert (Hheld : exists a, In a items /\ query a = Return true)
        by now apply Hsome.
      split; [split; [auto|reflexivity]|]. split.
      * split; [intros [x Hx]; discriminate Hx|intros [_ Hno]; contradiction].
      * split; [intros [x Hx]; discriminate Hx|intros Hno; contradiction].
    + assert (Hno : ~ exists a, In a items /\ query a = Return true)
        by (intros Hheld; apply Hsome in Hheld; discriminate Hheld).
      split; [split; [discriminate|intros [_ Hheld]; contradiction]|]. split.
      * split; [auto|intros _; eexists; reflexivity].
      * split; [intros [x Hx]; discriminate Hx|intros Hf; contradiction].
  - assert (Hno : ~ forall a, In a items -> exists b, query a = Return b).
    { intros Hresolve. destruct (promise_all_resolves query items Hresolve) as [bs Hbs].
      rewrite Hbs in Hall. discriminate Hall. }
    split; [split; [discriminate|intros [Hr _]; contradiction]|]. split.
    + split; [intros [x Hx]; discriminate Hx|intros [Hr _]; contradiction].
    + split; [auto|intros _; eexists; reflexivity].
Qed.

(** What each gate decides for an identity, in terms of the grant it
    requires. *)
Lemma gate_decision (g : Gate) (identity : JWTPayload.t) :
  (passes (run_gate g (Some identity)) <->
   lookups_resolve g identity /\ grant_held g identity)
  /\ (forbidden (run_gate g (Some identity)) <->
      lookups_resolve g identity /\ ~ grant_held g identity)
  /\ (internal_error (run_gate g (Some identity)) <-> ~ lookups_resolve g identity).
Proof.
  destruct g; simpl run_gate; unfold lookups_resolve, grant_held.
  - apply live_decision.
  - apply live_decision.
  - apply (live_any_decision
             (fun roleName =>
                AuthMiddleware.hasRole rbacService (JWTPayload.userId identity) roleName)).
  - apply (live_any_decision
             (fun check =>
                AuthMiddleware.hasPermission rbacService (JWTPayload.userId identity)
                  check)).
  - apply snapshot_decision. apply includes_In.
  - apply snapshot_decision. apply snapshot_some_iff.
  - apply snapshot_decision. unfold some. rewrite existsb_exists.
    split; intros [roleName [Hin H]]; exists roleName; (split; [exact Hin|]);
      now apply includes_In.
  - apply snapshot_decision. unfold holds_permission. unfold some at 1.
    rewrite existsb_exists.
    split; intros [check [Hin H]]; exists check; (split; [exact Hin|]);
      now apply snapshot_some_iff.
  - unfold RBACMiddleware.requireAdminOrPermission. cbv zeta.
    rewrite <- negb_orb. apply snapshot_decision.
    unfold holds_permission.
    rewrite orb_true_iff, includes_In, snapshot_some_iff. reflexivity.
Qed.

(** C8. Each gate resolves to an outcome and throws nothing. A 401 is the
    outcome exactly when no identity is present, and a 403 only when one
    is; no outcome is both. With an identity present, the outcome is a 403
    exactly when the gate's lookups resolve and the required grant is
    missing: the service answers [false] to the query of a live gate (to
    every query of a live any-of gate), the name is not in the token's
    arrays for a snapshot gate. It is [next()] exactly when the lookups
    resolve and the grant is held, and a 500 exactly when a lookup of a live
    gate rejects. *)
Theorem gate_failure_kinds (g : Gate) (user : option JWTPayload.t) :
  (exists o, run_gate g user = Return o)
  /\ (unauthenticated (run_gate g user) <-> user = None)
  /\ (forbidden (run_gate g user) -> user <> None)
  /\ ~ (unauthenticated (run_gate g user) /\ forbidden (run_gate g user))
  /\ (user <> None ->
      passes (run_gate g user) \/ forbidden (run_gate g user)
      \/ internal_error (run_gate g user))
  /\ (forall identity, user = Some identity ->
        (forbidden (run_gate g user) <->
         lookups_resolve g identity /\ ~ grant_held g identity)
        /\ (passes (run_gate g user) <->
            lookups_resolve g identity /\ grant_held g identity)
        /\ (internal_error (run_gate g user) <-> ~ lookups_resolve g identity)).
Proof.
  assert (H401 : unauthenticated (run_gate g user) <-> user = None).
  { destruct user as [identity|].
    - split; [|discriminate]. intros [error Herr].
      destruct (gate_with_identity g identity) as [H|[[e H]|[[e H] _]]];
        unfold passes in *; congruence.
    - split; [reflexivity|]. intros _. rewrite gate_without_identity.
      eexists. reflexivity. }
  assert (H403 : forbidden (run_gate g user) -> user <> None).
  { intros [error Herr] ->. rewrite gate_without_identity in Herr. discriminate Herr. }
  split; [apply gate_total|].
  split; [exact H401|].
  split; [exact H403|].
  split.
  { intros [Hu Hf]. apply H403 in Hf. apply H401 in Hu. contradiction. }
  split.
  - intros Hsome. destruct user as [identity|]; [|contradiction].
    destruct (gate_with_identity g identity) as [H|[H|[H _]]]; auto.
  - intros identity ->.
    destruct (gate_decision g identity) as [Hpass [Hforbid Herror]].
    split; [exact Hforbid|]. split; [exact Hpass|exact Herror].
Qed.

(** Without an identity a gate answers 401. With one, the live gate over
    the sample database answers 403 for the role auditor, which is inactive
    there although the token lists it, and passes for admin; the snapshot
    gate answers 403 to a token that lists neither admin nor the
    permission; the live gate over a service whose lookup rejects answers
    500. *)
Lemma gate_failure_kinds_witness :
  unauthenticated (run_gate (SnapshotRequireRole "admin") None)
  /\ forbidden (run_gate (LiveRequireRole (AuthMiddleware.live Sample.db) "auditor")
                  (Some (Sample.identity ["auditor"] [])))
  /\ passes (run_gate (LiveRequireRole (AuthMiddleware.live Sample.db) "admin")
               (Some (Sample.identity [] [])))
  /\ forbidden (run_gate (SnapshotRequireAdminOrPermission Sample.sensitive_read)
                  (Some (Sample.identity ["user"] [])))
  /\ internal_error (run_gate (LiveRequireAnyRole Sample2.flaky ["admin"; "audit"])
                       (Some (Sample.identity [] []))).
Proof.
  split; [|split; [|split; [|split]]].
  - apply (gate_failure_kinds (SnapshotRequireRole "admin") None). reflexivity.
  - destruct (gate_failure_kinds
                (LiveRequireRole (AuthMiddleware.live Sample.db) "auditor")
                (Some (Sample.identity ["auditor"] []))) as [_ [_ [_ [_ [_ Hdecide]]]]].
    apply (Hdecide (Sample.identity ["auditor"] []) eq_refl).
    split; [exists false; reflexivity|discriminate].
  - destruct (gate_failure_kinds
                (LiveRequireRole (AuthMiddleware.live Sample.db) "admin")
                (Some (Sample.identity [] []))) as [_ [_ [_ [_ [_ Hdecide]]]]].
    apply (Hdecide (Sample.identity [] []) eq_refl).
    split; [exists true; reflexivity|reflexivity].
  - destruct (gate_failure_kinds
                (SnapshotRequireAdminOrPermission Sample.sensitive_read)
                (Some (Sample.identity ["user"] []))) as [_ [_ [_ [_ [_ Hdecide]]]]].
    apply (Hdecide (Sample.identity ["user"] []) eq_refl).
    split; [exact I|]. simpl. unfold holds_permission. simpl.
    intros [[H|[]]|[[]|[]]]. discriminate H.
  - destruct (gate_failure_kinds
                (LiveRequireAnyRole Sample2.flaky ["admin"; "audit"])
                (Some (Sample.identity [] []))) as [_ [_ [_ [_ [_ Hdecide]]]]].
    apply (Hdecide (Sample.identity [] []) eq_refl).
    simpl. intros Hresolve.
    destruct (Hresolve "audit" (or_intror (or_introl eq_refl))) as [b Hb].
    discriminate Hb.
Defined.

(** C9. The live gates read the identity's [userId] and nothing else of the
    token: two identities with one [userId] get the same outcome from
    [requireRole] and from [requirePermission], over any service and so
    over any database state, and that outcome is [next()] exactly when the
    service's [hasRole] (or [hasPermission]) holds for the [userId] in that
    state. *)
Theorem live_gates_depend_on_userId_only (db : Database) (roleName : string)
    (check : PermissionCheck.t) (u1 u2 : JWTPayload.t) :
  JWTPayload.userId u1 = JWTPayload.userId u2 ->
  AuthMiddleware.requireRole (AuthMiddleware.live db) roleName (Some u1)
  = AuthMiddleware.requireRole (AuthMiddleware.live db) roleName (Some u2)
  /\ AuthMiddleware.requirePermission (AuthMiddleware.live db) check (Some u1)
     = AuthMiddleware.requirePermission (AuthMiddleware.live db) check (Some u2)
  /\ (forall svc,
        AuthMiddleware.requireRole svc roleName (Some u1)
        = AuthMiddleware.requireRole svc roleName (Some u2)
        /\ AuthMiddleware.requirePermission svc check (Some u1)
           = AuthMiddleware.requirePermission svc check (Some u2))
  /\ (passes (AuthMiddleware.requireRole (AuthMiddleware.live db) roleName (Some u1)) <->
      RBACService.hasRole db (JWTPayload.userId u1) roleName = true)
  /\ (passes (AuthMiddleware.requirePermission (AuthMiddleware.live db) check (Some u1)) <->
      RBACService.hasPermission db (JWTPayload.userId u1) check = true).
Proof.
  intros Hid.
  assert (Hany : forall svc,
            AuthMiddleware.requireRole svc roleName (Some u1)
            = AuthMiddleware.requireRole svc roleName (Some u2)
            /\ AuthMiddleware.requirePermission svc check (Some u1)
               = AuthMiddleware.requirePermission svc check (Some u2)).
  { intros svc. unfold AuthMiddleware.requireRole, AuthMiddleware.requirePermission.
    rewrite Hid. split; reflexivity. }
  split; [apply Hany|]. split; [apply Hany|]. split; [exact Hany|].
  unfold passes, AuthMiddleware.requireRole, AuthMiddleware.requirePermission. simpl.
  split.
  - destruct (RBACService.hasRole db (JWTPayload.userId u1) roleName); simpl;
      split; intros H; (reflexivity || discriminate H).
  - destruct (RBACService.hasPermission db (JWTPayload.userId u1) check); simpl;
      split; intros H; (reflexivity || discriminate H).
Qed.

(** Two tokens of alice, one listing the role admin and one listing
    nothing, get the same answers over the sample database. *)
Lemma live_gates_depend_on_userId_only_witness :
  AuthMiddleware.requireRole (AuthMiddleware.live Sample.db) "auditor"
    (Some (Sample.identity ["auditor"] ["audit:read"]))
  = AuthMiddleware.requireRole (AuthMiddleware.live Sample.db) "auditor"
      (Some (Sample.identity [] []))
  /\ AuthMiddleware.requirePermission (AuthMiddleware.live Sample.db)
       (PermissionCheck.mk "content" "delete")
       (Some (Sample.identity ["auditor"] ["audit:read"]))
     = AuthMiddleware.requirePermission (AuthMiddleware.live Sample.db)
         (PermissionCheck.mk "content" "delete")
         (Some (Sample.identity [] [])).
Proof.
  destruct (live_gates_depend_on_userId_only Sample.db "auditor"
              (PermissionCheck.mk "content" "delete")
              (Sample.identity ["auditor"] ["audit:read"]) (Sample.identity [] [])
              eq_refl) as [Hrole [Hperm _]].
  split; [exact Hrole|exact Hperm].
Defined.

(** C10. On the empty list of names or of checks, [requireAnyRole] and
    [requireAnyPermission] answer 403 to every identity, in both families
    and over every service; they pass for no request at all. *)
Theorem require_any_of_nothing_is_forbidden (svc : AuthMiddleware.Service)
    (identity : JWTPayload.t) (user : option JWTPayload.t) :
  forbidden (AuthMiddleware.requireAnyRole svc [] (Some identity))
  /\ forbidden (AuthMiddleware.requireAnyPermission svc [] (Some identity))
  /\ forbidden (RBACMiddleware.requireAnyRole [] (Some identity))
  /\ forbidden (RBACMiddleware.requireAnyPermission [] (Some identity))
  /\ ~ passes (AuthMiddleware.requireAnyRole svc [] user)
  /\ ~ passes (AuthMiddleware.requireAnyPermission svc [] user)
  /\ ~ passes (RBACMiddleware.requireAnyRole [] user)
  /\ ~ passes (RBACMiddleware.requireAnyPermission [] user).
Proof.
  unfold forbidden, passes.
  repeat split; try (eexists; reflexivity);
    destruct user; simpl; discriminate.
Qed.

(** * Further properties of the service and its callers *)

(** ** Resolution: [hasPermission], [hasRole] and the symmetric reads *)

Lemma grants_row (db : Database) (userId : string) (active : bool) (p : Permission.t) :
  grants db userId active p ->
  exists row, In row (permissions db) /\ RolePermissionRepository.mapPermission row = p.
Proof.
  intros [ur [r [rp [row H]]]]. exists row. tauto.
Qed.

(** X1. With permission ids unique, [RBACService.hasPermission] holds
    exactly when an active role of the user grants a permission with that
    resource and that action; the deduplication loses no grant. *)
Theorem hasPermission_iff_granted (db : Database) (userId : string)
    (check : PermissionCheck.t) :
  permission_ids_unique db ->
  (RBACService.hasPermission db userId check = true <->
   exists p, grants db userId true p
             /\ Permission.resource p = PermissionCheck.resource check
             /\ Permission.action p = PermissionCheck.action check).
Proof.
  intros Hpk. unfold RBACService.hasPermission, some.
  rewrite existsb_exists, getUserPermissions_spec. split.
  - intros [p [Hin Hmatch]]. apply andb_true_iff in Hmatch.
    destruct Hmatch as [Hres Hact]. apply String.eqb_eq in Hres, Hact.
    exists p. split; [|tauto].
    apply union_grants. now apply dedupe_first_seen_In.
  - intros [p [Hgrant [Hres Hact]]].
    pose proof (proj2 (union_grants db userId p) Hgrant) as Hin.
    destruct (dedupe_first_seen_covers _ p Hin) as [q [Hq Hid]].
    assert (Hqp : q = p).
    { pose proof (dedupe_first_seen_In _ q Hq) as Hqin.
      apply union_grants in Hqin.
      destruct (grants_row _ _ _ _ Hqin) as [rowq [Hrq Hmq]].
      destruct (grants_row _ _ _ _ Hgrant) as [rowp [Hrp Hmp]].
      subst q p. simpl in Hid. now rewrite (Hpk rowq rowp Hrq Hrp Hid). }
    subst q. exists p. split; [assumption|].
    rewrite Hres, Hact, !String.eqb_refl. reflexivity.
Qed.

Lemma sample_permission_ids_unique : permission_ids_unique Sample.db.
Proof.
  intros r1 r2 H1 H2 Hid. simpl in H1, H2.
  destruct H1 as [H1|[H1|[H1|[]]]]; destruct H2 as [H2|[H2|[H2|[]]]];
    subst r1 r2; (reflexivity || discriminate Hid).
Qed.

Lemma hasPermission_iff_granted_witness :
  exists p, grants Sample.db "u1" true p
            /\ Permission.resource p = "content"
            /\ Permission.action p = "delete".
Proof.
  apply (hasPermission_iff_granted Sample.db "u1" (PermissionCheck.mk "content" "delete")
           sample_permission_ids_unique).
  reflexivity.
Defined.

Lemma hasRole_in_names (db : Database) (userId roleName : string) :
  UserRoleRepository.hasRole db userId roleName = true <->
  In roleName (map Role.name (UserRoleRepository.getUserRoles db userId)).
Proof.
  rewrite hasRole_true, in_map_iff. split.
  - intros [ur [r [Hur [Huser [Hr [Hid [Hname Hactive]]]]]]].
    exists (UserRoleRepository.mapRole r). split; [exact Hname|].
    apply getUserRoles_In. exists ur, r. repeat split; auto.
  - intros [role [Hname Hin]]. apply getUserRoles_In in Hin.
    destruct Hin as [ur [r [Hur [Huser [Hr [Hid [Hactive Heq]]]]]]].
    subst role. simpl in Hname. exists ur, r. repeat split; auto.
Qed.

(** X2. [hasRole] and [getUserRoles] agree: the user has the role name
    exactly when one of the roles [getUserRoles] returns has that name. *)
Theorem hasRole_iff_getUserRoles (db : Database) (userId roleName : string) :
  RBACService.hasRole db userId roleName = true <->
  In roleName (map Role.name (RBACService.getUserRoles db userId)).
Proof.
  unfold RBACService.hasRole, RBACService.getUserRoles. apply hasRole_in_names.
Qed.

(** X3. The symmetric reads filter on the active flag of what they join:
    [getPermissionRoles] returns the active roles with an edge to the
    permission, [getRoleUsers] the active users with an edge to the role,
    and nothing else. *)
Theorem symmetric_reads_active_only (db : Database) :
  (forall permissionId role,
     In role (RolePermissionRepository_getPermissionRoles db permissionId) <->
     exists rp r,
       In rp (role_permissions db)
       /\ role_permissions_row.permission_id rp = permissionId
       /\ In r (roles db) /\ roles_row.id r = role_permissions_row.role_id rp
       /\ roles_row.is_active r = true
       /\ role = UserRoleRepository.mapRole r)
  /\ (forall roleId user,
        In user (UserRoleRepository_getRoleUsers db roleId) <->
        exists ur u,
          In ur (user_roles db) /\ user_roles_row.role_id ur = roleId
          /\ In u (users db) /\ users_row.id u = user_roles_row.user_id ur
          /\ users_row.is_active u = true
          /\ user = UserRepository.mapUser u).
Proof.
  split.
  - intros permissionId role.
    unfold RolePermissionRepository_getPermissionRoles, where_.
    rewrite in_map_iff. split.
    + intros [r [Hrole Hin]]. apply in_map_iff in Hin.
      destruct Hin as [[rp r'] [Hsnd Hin]]. simpl in Hsnd. subst r'.
      apply filter_In in Hin. destruct Hin as [Hin Hactive].
      apply filter_In in Hin. destruct Hin as [Hin Hperm].
      apply in_join in Hin. destruct Hin as [Hrp [Hr Hon]]. simpl in *.
      apply String.eqb_eq in Hperm, Hon. apply Bool.eqb_prop in Hactive.
      exists rp, r. repeat split; auto.
    + intros [rp [r [Hrp [Hperm [Hr [Hid [Hactive Hrole]]]]]]].
      exists r. split; [now symmetry|].
      apply in_map_iff. exists (rp, r). split; [reflexivity|].
      apply filter_In. split; [|simpl; now rewrite Hactive].
      apply filter_In. split; [|simpl; now apply String.eqb_eq].
      apply in_join. repeat split; auto. apply String.eqb_eq. now symmetry.
  - intros roleId user.
    unfold UserRoleRepository_getRoleUsers, where_.
    rewrite in_map_iff. split.
    + intros [u [Huser Hin]]. apply in_map_iff in Hin.
      destruct Hin as [[ur u'] [Hsnd Hin]]. simpl in Hsnd. subst u'.
      apply filter_In in Hin. destruct Hin as [Hin Hactive].
      apply filter_In in Hin. destruct Hin as [Hin Hrole].
      apply in_join in Hin. destruct Hin as [Hur [Hu Hon]]. simpl in *.
      apply String.eqb_eq in Hrole, Hon. apply Bool.eqb_prop in Hactive.
      exists ur, u. repeat split; auto.
    + intros [ur [u [Hur [Hrole [Hu [Hid [Hactive Huser]]]]]]].
      exists u. split; [now symmetry|].
      apply in_map_iff. exists (ur, u). split; [reflexivity|].
      apply filter_In. split; [|simpl; now rewrite Hactive].
      apply filter_In. split; [|simpl; now apply String.eqb_eq].
      apply in_join. repeat split; auto. apply String.eqb_eq. now symmetry.
Qed.

(** ** Assigning and removing edges *)

Lemma join_filter_left {A B : Type} (f : A -> bool) (l : list A) (r : list B)
    (on : A -> B -> bool) :
  join (filter f l) r on = filter (fun row => f (fst row)) (join l r on).
Proof.
  unfold join. induction l as [|a l IH]; simpl; [reflexivity|].
  rewrite filter_app, <- IH.
  destruct (f a) eqn:Hf; simpl.
  - f_equal. induction (filter (on a) r) as [|b bs IHb]; simpl; [reflexivity|].
    now rewrite Hf, <- IHb.
  - replace (filter (fun row : A * B => f (fst row))
               (map (fun b : B => (a, b)) (filter (on a) r))) with (@nil (A * B)).
    + reflexivity.
    + induction (filter (on a) r) as [|b bs IHb]; simpl; [reflexivity|].
      now rewrite Hf.
Qed.

Lemma join_app_left {A B : Type} (l1 l2 : list A) (r : list B) (on : A -> B -> bool) :
  join (l1 ++ l2) r on = join l1 r on ++ join l2 r on.
Proof. unfold join. apply flat_map_app. Qed.

Lemma deleted_positive {A : Type} (cond : A -> bool) (rows : list A) :
  (0 <? Z.of_nat (length (filter cond rows))) = existsb cond rows.
Proof.
  induction rows as [|x rows IH]; simpl; [reflexivity|].
  destruct (cond x); simpl; [|exact IH].
  apply Z.ltb_lt. lia.
Qed.

Lemma filter_none {A : Type} (f : A -> bool) (l : list A) :
  existsb f l = false -> filter (fun x => negb (f x)) l = l.
Proof.
  induction l as [|x l IH]; simpl; [reflexivity|].
  intros H. apply orb_false_iff in H. destruct H as [Hx Hl].
  rewrite Hx. simpl. now rewrite IH.
Qed.

Lemma existsb_filter_neg {A : Type} (f : A -> bool) (l : list A) :
  existsb f (filter (fun x => negb (f x)) l) = false.
Proof.
  induction l as [|x l IH]; simpl; [reflexivity|].
  destruct (f x) eqn:Hx; simpl; [exact IH|]. now rewrite Hx.
Qed.

Lemma existsb_filter_other {A : Type} (f g : A -> bool) (l : list A) :
  (forall x, g x = true -> f x = false) ->
  existsb g (filter (fun x => negb (f x)) l) = existsb g l.
Proof.
  intros H. induction l as [|x l IH]; simpl; [reflexivity|].
  destruct (f x) eqn:Hx; simpl.
  - rewrite IH. destruct (g x) eqn:Hg; [|reflexivity].
    rewrite (H x Hg) in Hx. discriminate Hx.
  - now rewrite IH.
Qed.

(** X4. [removePermission] answers whether the edge was there. After it
    the edge is gone, every other edge and every other table is as before,
    the role no longer shows a permission with that id, and what the other
    roles show is unchanged. *)
Theorem removePermission_removes_one_edge (db : Database) (roleId permissionId : string) :
  let result := RolePermissionRepository.removePermission db roleId permissionId in
  let db' := snd result in
  fst result = has_edge db roleId permissionId
  /\ has_edge db' roleId permissionId = false
  /\ (forall r p, r <> roleId \/ p <> permissionId ->
        has_edge db' r p = has_edge db r p)
  /\ users db' = users db /\ roles db' = roles db
  /\ permissions db' = permissions db /\ user_roles db' = user_roles db
  /\ (forall p, In p (RolePermissionRepository.getRolePermissions db' roleId) ->
        Permission.id p <> permissionId
        /\ In p (RolePermissionRepository.getRolePermissions db roleId))
  /\ (forall r, r <> roleId ->
        RolePermissionRepository.getRolePermissions db' r
        = RolePermissionRepository.getRolePermissions db r).
Proof.
  unfold RolePermissionRepository.removePermission, del. simpl.
  split; [apply deleted_positive|].
  split; [unfold has_edge; simpl; apply existsb_filter_neg|].
  split.
  { intros r p Hother. unfold has_edge. simpl. apply existsb_filter_other.
    intros e He. apply andb_true_iff in He. destruct He as [Hr Hp].
    apply String.eqb_eq in Hr, Hp. apply andb_false_iff.
    destruct Hother as [Hne|Hne]; [left|right]; apply String.eqb_neq; congruence. }
  repeat (split; [reflexivity|]).
  split.
  - intros p Hin. apply getRolePermissions_In in Hin. simpl in Hin.
    destruct Hin as [rp [row [Hrp [Hrole [Hrow [Hid Hp]]]]]].
    apply filter_In in Hrp. destruct Hrp as [Hrp Hkeep].
    split.
    + subst p. simpl. rewrite Hid. intros Heq.
      rewrite Hrole, Heq, !String.eqb_refl in Hkeep. discriminate Hkeep.
    + apply getRolePermissions_In. exists rp, row. repeat split; auto.
  - intros r Hr.
    unfold RolePermissionRepository.getRolePermissions,
      RolePermissionRepository.rp_join_p, where_. simpl.
    rewrite join_filter_left, filter_twice. do 2 f_equal.
    apply filter_ext. intros [rp row]. simpl.
    destruct (String.eqb (role_permissions_row.role_id rp) r) eqn:E.
    + apply String.eqb_eq in E.
      assert (Hne : String.eqb (role_permissions_row.role_id rp) roleId = false)
        by (apply String.eqb_neq; congruence).
      now rewrite Hne.
    + apply andb_false_r.
Qed.

(** X5. Assigning a new edge and removing it again gives back the
    database as it was; both calls answer [true]. *)
Theorem assign_then_remove_restores (db : Database) (newId : string) (now : Z)
    (roleId permissionId assignedBy : string) :
  has_edge db roleId permissionId = false ->
  existsb (fun e => String.eqb (role_permissions_row.id e) newId) (role_permissions db)
  = false ->
  exists db1,
    RolePermissionRepository.assignPermission db newId now roleId permissionId assignedBy
    = Return (true, db1)
    /\ has_edge db1 roleId permissionId = true
    /\ RolePermissionRepository.removePermission db1 roleId permissionId = (true, db).
Proof.
  intros Hedge Hpk.
  destruct (assign_new_edge db newId now roleId permissionId assignedBy Hedge Hpk)
    as [Hassign [_ Hhas]].
  eexists. split; [exact Hassign|]. split; [exact Hhas|].
  unfold RolePermissionRepository.removePermission, del. simpl.
  rewrite deleted_positive, filter_app, existsb_app. simpl.
  rewrite !String.eqb_refl. simpl.
  unfold has_edge in Hedge. rewrite (filter_none _ _ Hedge), app_nil_r, orb_true_r.
  destruct db; reflexivity.
Qed.

Lemma assign_then_remove_restores_witness :
  exists db1,
    RolePermissionRepository.assignPermission Sample.db "rp5" 1 "r3" "p2" "u1"
    = Return (true, db1)
    /\ has_edge db1 "r3" "p2" = true
    /\ RolePermissionRepository.removePermission db1 "r3" "p2" = (true, Sample.db).
Proof.
  apply (assign_then_remove_restores Sample.db "rp5" 1 "r3" "p2" "u1"); reflexivity.
Defined.

(** X6. After a first assignment of a permission that exists, the role
    shows it: [getRolePermissions] has the permission and [hasPermission]
    holds for its name. What the role showed before is still shown, and
    the other roles show what they did. *)
Theorem assign_then_lookup (db : Database) (newId : string) (now : Z)
    (roleId permissionId assignedBy : string) (row : permissions_row.t) :
  has_edge db roleId permissionId = false ->
  existsb (fun e => String.eqb (role_permissions_row.id e) newId) (role_permissions db)
  = false ->
  In row (permissions db) -> permissions_row.id row = permissionId ->
  exists db',
    RolePermissionRepository.assignPermission db newId now roleId permissionId assignedBy
    = Return (true, db')
    /\ In (RolePermissionRepository.mapPermission row)
          (RolePermissionRepository.getRolePermissions db' roleId)
    /\ RolePermissionRepository.hasPermission db' roleId (permissions_row.name row) = true
    /\ (forall p, In p (RolePermissionRepository.getRolePermissions db roleId) ->
          In p (RolePermissionRepository.getRolePermissions db' roleId))
    /\ (forall r, r <> roleId ->
          RolePermissionRepository.getRolePermissions db' r
          = RolePermissionRepository.getRolePermissions db r).
Proof.
  intros Hedge Hpk Hrow Hid.
  destruct (assign_new_edge db newId now roleId permissionId assignedBy Hedge Hpk)
    as [Hassign _].
  eexists. split; [exact Hassign|].
  set (edge := role_permissions_row.mk newId roleId permissionId assignedBy now).
  split; [|split; [|split]].
  - apply getRolePermissions_In. exists edge, row. simpl.
    repeat split; auto. apply in_or_app. right. now left.
  - apply hasPermission_true. exists edge, row. simpl.
    repeat split; auto. apply in_or_app. right. now left.
  - intros p Hp. apply getRolePermissions_In in Hp.
    destruct Hp as [rp [row' [Hrp [Hrole [Hrow' [Hid' Hp]]]]]].
    apply getRolePermissions_In. exists rp, row'. simpl.
    repeat split; auto. apply in_or_app. now left.
  - intros r Hr.
    unfold RolePermissionRepository.getRolePermissions,
      RolePermissionRepository.rp_join_p, where_. simpl.
    rewrite join_app_left, filter_app, map_app, map_app.
    replace (filter _ (join [edge] (permissions db) _)) with
      (@nil (role_permissions_row.t * permissions_row.t)).
    + simpl. now rewrite app_nil_r.
    + symmetry. unfold join. simpl. rewrite app_nil_r.
      induction (filter _ (permissions db)) as [|x xs IH]; simpl; [reflexivity|].
      assert (Hne : String.eqb roleId r = false) by (apply String.eqb_neq; congruence).
      now rewrite Hne.
Qed.

Lemma assign_then_lookup_witness :
  exists db',
    RolePermissionRepository.assignPermission Sample.db "rp5" 1 "r3" "p2" "u1"
    = Return (true, db')
    /\ RolePermissionRepository.hasPermission db' "r3" "content:delete" = true.
Proof.
  destruct (assign_then_lookup Sample.db "rp5" 1 "r3" "p2" "u1" Sample.content_delete)
    as [db' [Hassign [_ [Hhas _]]]]; try reflexivity.
  - simpl. auto.
  - exists db'. split; [exact Hassign|exact Hhas].
Defined.

Lemma assignPermission_cases (db : Database) (newId : string) (now : Z)
    (roleId permissionId assignedBy : string) :
  RolePermissionRepository.assignPermission db newId now roleId permissionId assignedBy
  = Return (false, db)
  \/ (has_edge db roleId permissionId = false
      /\ RolePermissionRepository.assignPermission db newId now roleId permissionId
           assignedBy
         = Return (true, with_edge db
                           (role_permissions_row.mk newId roleId permissionId
                              assignedBy now))).
Proof.
  destruct (has_edge db roleId permissionId) eqn:Hedge.
  - left. now apply assign_existing_edge.
  - destruct (existsb (fun e => String.eqb (role_permissions_row.id e) newId)
                (role_permissions db)) eqn:Hpk.
    + left. unfold RolePermissionRepository.assignPermission, insert_role_permissions.
      simpl. rewrite Hpk. reflexivity.
    + right. split; [reflexivity|].
      now apply assign_new_edge.
Qed.

Lemma assignRole_cases (db : Database) (newId : string) (now : Z)
    (userId roleId assignedBy : string) :
  UserRoleRepository.assignRole db newId now userId roleId assignedBy = Return (false, db)
  \/ (has_user_role db userId roleId = false
      /\ UserRoleRepository.assignRole db newId now userId roleId assignedBy
         = Return (true,
                   mkDatabase (users db) (roles db) (permissions db)
                     (user_roles db ++ [user_roles_row.mk newId userId roleId assignedBy now])
                     (role_permissions db))).
Proof.
  unfold UserRoleRepository.assignRole, insert_user_roles, has_user_role. simpl.
  destruct (existsb (fun e => String.eqb (user_roles_row.id e) newId) (user_roles db)).
  - now left.
  - destruct (existsb (fun e => String.eqb (user_roles_row.user_id e) userId
                                && String.eqb (user_roles_row.role_id e) roleId)
                (user_roles db)).
    + now left.
    + right. split; reflexivity.
Qed.

(** X7. No duplicate edge is ever stored: when the (role, permission)
    pairs of the table are pairwise distinct, they still are after
    [assignPermission], whatever it answers, and after [removePermission]. *)
Theorem edges_stay_unique (db : Database) (newId : string) (now : Z)
    (roleId permissionId assignedBy : string) :
  NoDup (map edge_key (role_permissions db)) ->
  (forall answer db',
     RolePermissionRepository.assignPermission db newId now roleId permissionId assignedBy
     = Return (answer, db') ->
     NoDup (map edge_key (role_permissions db')))
  /\ NoDup (map edge_key
              (role_permissions
                 (snd (RolePermissionRepository.removePermission db roleId permissionId)))).
Proof.
  intros Hnodup. split.
  - intros answer db' Hassign.
    destruct (assignPermission_cases db newId now roleId permissionId assignedBy)
      as [Hsame | [Hedge Hnew]].
    { rewrite Hsame in Hassign. inversion Hassign; subst. exact Hnodup. }
    rewrite Hnew in Hassign. inversion Hassign; subst. simpl.
    rewrite map_app. simpl.
    apply NoDup_rev in Hnodup. rewrite <- rev_involutive.
    apply NoDup_rev. rewrite rev_app_distr. simpl.
    constructor; [|exact Hnodup].
    rewrite <- in_rev. intros Hin. apply in_map_iff in Hin.
    destruct Hin as [e [Hkey Hin]]. unfold edge_key in Hkey. simpl in Hkey.
    inversion Hkey as [[Hr Hp]].
    assert (Hex : has_edge db roleId permissionId = true).
    { apply existsb_exists. exists e. split; [assumption|].
      now rewrite Hr, Hp, !String.eqb_refl. }
    rewrite Hex in Hedge. discriminate Hedge.
  - unfold RolePermissionRepository.removePermission, del. simpl.
    now apply NoDup_map_filter.
Qed.

Lemma edges_stay_unique_witness :
  NoDup (map edge_key
           (role_permissions
              (snd (RolePermissionRepository.removePermission Sample.db "r1" "p1")))).
Proof.
  apply (edges_stay_unique Sample.db "rp5" 1 "r1" "p1" "u1").
  simpl. repeat constructor; simpl; intuition discriminate.
Defined.

(** X8. [assignPermissionToRole] and [assignRoleToUser] answer [true] for
    every input and every database state and throw nothing; the database
    is then either unchanged or extended by the one new edge. *)
Theorem service_assignments_always_true (db : Database) (newId : string) (now : Z)
    (a b assignedBy : string) :
  (exists db',
     RBACService.assignPermissionToRole db newId now a b assignedBy = Return (true, db')
     /\ (db' = db
         \/ (has_edge db a b = false
             /\ db' = with_edge db (role_permissions_row.mk newId a b assignedBy now))))
  /\ (exists db',
        RBACService.assignRoleToUser db newId now a b assignedBy = Return (true, db')
        /\ (db' = db
            \/ (has_user_role db a b = false
                /\ db' = mkDatabase (users db) (roles db) (permissions db)
                           (user_roles db ++ [user_roles_row.mk newId a b assignedBy now])
                           (role_permissions db)))).
Proof.
  split.
  - unfold RBACService.assignPermissionToRole.
    destruct (assignPermission_cases db newId now a b assignedBy)
      as [Hsame | [Hedge Hnew]].
    + rewrite Hsame. simpl. eauto.
    + rewrite Hnew. simpl. eauto.
  - unfold RBACService.assignRoleToUser.
    destruct (assignRole_cases db newId now a b assignedBy) as [Hsame | [Hedge Hnew]].
    + rewrite Hsame. simpl. eauto.
    + rewrite Hnew. simpl. eauto.
Qed.

Lemma filter_absorb {A : Type} (f g : A -> bool) (l : list A) :
  (forall x, f x = true -> g x = true) ->
  filter f (filter g l) = filter f l.
Proof.
  intros H. rewrite filter_twice. apply filter_ext. intros x.
  destruct (f x) eqn:Hf; [now rewrite (H x Hf)|apply andb_false_r].
Qed.

Lemma filter_filter_nil {A : Type} (f g : A -> bool) (l : list A) :
  filter f l = [] -> filter f (filter g l) = [].
Proof.
  induction l as [|x l IH]; simpl; [reflexivity|].
  destruct (f x) eqn:Hf; [discriminate|]. intros H.
  destruct (g x); simpl; [rewrite Hf|]; now apply IH.
Qed.

Lemma getRolePermissions_ext (db db' : Database) (roleId : string) :
  role_permissions db' = role_permissions db -> permissions db' = permissions db ->
  RolePermissionRepository.getRolePermissions db' roleId
  = RolePermissionRepository.getRolePermissions db roleId.
Proof.
  intros Hrp Hp.
  unfold RolePermissionRepository.getRolePermissions, RolePermissionRepository.rp_join_p.
  now rewrite Hrp, Hp.
Qed.

Lemma getUserPermissions_ext (db db' : Database) (userId : string) :
  UserRoleRepository.getUserRoles db' userId = UserRoleRepository.getUserRoles db userId ->
  role_permissions db' = role_permissions db -> permissions db' = permissions db ->
  RBACService.getUserPermissions db' userId = RBACService.getUserPermissions db userId.
Proof.
  intros Hroles Hrp Hp. rewrite !getUserPermissions_spec, Hroles. f_equal.
  apply flat_map_ext. intros role. now apply getRolePermissions_ext.
Qed.

(** X9. [removeRole] answers whether the edge was there. After it the
    user no longer holds a role with that id and keeps every other role;
    the roles and the permissions of every other user are unchanged. *)
Theorem removeRole_removes_one_edge (db : Database) (userId roleId : string) :
  let result := UserRoleRepository.removeRole db userId roleId in
  let db' := snd result in
  fst result = has_user_role db userId roleId
  /\ has_user_role db' userId roleId = false
  /\ (forall role, In role (UserRoleRepository.getUserRoles db' userId) ->
        Role.id role <> roleId /\ In role (UserRoleRepository.getUserRoles db userId))
  /\ (forall role, In role (UserRoleRepository.getUserRoles db userId) ->
        Role.id role <> roleId -> In role (UserRoleRepository.getUserRoles db' userId))
  /\ (forall u, u <> userId ->
        UserRoleRepository.getUserRoles db' u = UserRoleRepository.getUserRoles db u
        /\ RBACService.getUserPermissions db' u = RBACService.getUserPermissions db u).
Proof.
  unfold UserRoleRepository.removeRole, del. simpl.
  split; [apply deleted_positive|].
  split; [unfold has_user_role; simpl; apply existsb_filter_neg|].
  split; [|split].
  - intros role Hin. apply getUserRoles_In in Hin. simpl in Hin.
    destruct Hin as [ur [r [Hur [Huser [Hr [Hid [Hactive Hrole]]]]]]].
    apply filter_In in Hur. destruct Hur as [Hur Hkeep]. split.
    + subst role. simpl. rewrite Hid. intros Heq.
      rewrite Huser, Heq, !String.eqb_refl in Hkeep. discriminate Hkeep.
    + apply getUserRoles_In. exists ur, r. repeat split; auto.
  - intros role Hin Hne. apply getUserRoles_In in Hin.
    destruct Hin as [ur [r [Hur [Huser [Hr [Hid [Hactive Hrole]]]]]]].
    apply getUserRoles_In. exists ur, r. simpl. repeat split; auto.
    apply filter_In. split; [assumption|].
    apply negb_true_iff, andb_false_iff. right. apply String.eqb_neq.
    subst role. simpl in Hne. congruence.
  - intros u Hu.
    assert (Hroles :
      UserRoleRepository.getUserRoles
        (mkDatabase (users db) (roles db) (permissions db)
           (filter (fun row => negb (String.eqb (user_roles_row.user_id row) userId
                                     && String.eqb (user_roles_row.role_id row) roleId))
                   (user_roles db))
           (role_permissions db)) u
      = UserRoleRepository.getUserRoles db u).
    { unfold UserRoleRepository.getUserRoles, UserRoleRepository.ur_join_r, where_. simpl.
      rewrite join_filter_left.
      rewrite (filter_absorb
                 (fun row : user_roles_row.t * roles_row.t =>
                    String.eqb (user_roles_row.user_id (fst row)) u));
        [reflexivity|].
      intros [ur r] E. simpl in *. apply String.eqb_eq in E.
      assert (Hne : String.eqb (user_roles_row.user_id ur) userId = false)
        by (apply String.eqb_neq; congruence).
      now rewrite Hne. }
    split; [exact Hroles|]. now apply getUserPermissions_ext.
Qed.

(** X10. Assigning a role that is inactive grants nothing: whatever
    [assignRole] answers, the roles, the role checks and the permissions of
    every user are what they were. *)
Theorem assign_inactive_role_grants_nothing (db : Database) (newId : string) (now : Z)
    (userId roleId assignedBy : string) :
  (forall r, In r (roles db) -> roles_row.id r = roleId -> roles_row.is_active r = false) ->
  exists answer db',
    UserRoleRepository.assignRole db newId now userId roleId assignedBy
    = Return (answer, db')
    /\ forall u,
         UserRoleRepository.getUserRoles db' u = UserRoleRepository.getUserRoles db u
         /\ RBACService.getUserPermissions db' u = RBACService.getUserPermissions db u
         /\ (forall roleName,
               RBACService.hasRole db' u roleName = RBACService.hasRole db u roleName).
Proof.
  intros Hinactive.
  assert (Hnone :
    filter (fun row : user_roles_row.t * roles_row.t =>
              Bool.eqb (roles_row.is_active (snd row)) true)
      (join [user_roles_row.mk newId userId roleId assignedBy now] (roles db)
         (fun ur r => String.eqb (user_roles_row.role_id ur) (roles_row.id r))) = []).
  { unfold join. simpl. rewrite app_nil_r.
    assert (H : forall l, (forall r, In r l -> In r (roles db)) ->
      filter (fun row : user_roles_row.t * roles_row.t =>
                Bool.eqb (roles_row.is_active (snd row)) true)
        (map (fun b => (user_roles_row.mk newId userId roleId assignedBy now, b))
           (filter (fun r => String.eqb roleId (roles_row.id r)) l)) = []).
    { induction l as [|r l IH]; intros Hsub; simpl; [reflexivity|].
      destruct (String.eqb roleId (roles_row.id r)) eqn:E; simpl.
      - apply String.eqb_eq in E.
        rewrite (Hinactive r (Hsub r (or_introl eq_refl)) (eq_sym E)). simpl.
        apply IH. intros r' Hr'. apply Hsub. now right.
      - apply IH. intros r' Hr'. apply Hsub. now right. }
    apply H. auto. }
  destruct (assignRole_cases db newId now userId roleId assignedBy)
    as [Hsame | [_ Hnew]].
  - exists false, db. split; [exact Hsame|]. intros u. repeat split; reflexivity.
  - eexists true, _. split; [exact Hnew|]. intros u.
    assert (Hroles :
      UserRoleRepository.getUserRoles
        (mkDatabase (users db) (roles db) (permissions db)
           (user_roles db ++ [user_roles_row.mk newId userId roleId assignedBy now])
           (role_permissions db)) u
      = UserRoleRepository.getUserRoles db u).
    { unfold UserRoleRepository.getUserRoles, UserRoleRepository.ur_join_r, where_. simpl.
      rewrite join_app_left, !filter_app.
      rewrite (filter_filter_nil _ _ _ Hnone). now rewrite app_nil_r. }
    split; [exact Hroles|]. split; [now apply getUserPermissions_ext|].
    intros roleName.
    apply eq_true_iff_eq. unfold RBACService.hasRole.
    rewrite !hasRole_in_names. now rewrite Hroles.
Qed.

Lemma assign_inactive_role_grants_nothing_witness :
  exists answer db',
    UserRoleRepository.assignRole Sample.db "ur4" 1 "u2" "r2" "u1" = Return (answer, db')
    /\ RBACService.getUserPermissions db' "u2" = RBACService.getUserPermissions Sample.db "u2".
Proof.
  destruct (assign_inactive_role_grants_nothing Sample.db "ur4" 1 "u2" "r2" "u1")
    as [answer [db' [Hassign Hsame]]].
  - intros r Hr Hid. simpl in Hr.
    destruct Hr as [Hr|[Hr|[Hr|[]]]]; subst r; (reflexivity || discriminate Hid).
  - exists answer, db'. split; [exact Hassign|]. apply Hsame.
Defined.

(** ** Gates: any-of, the token middleware and the snapshot *)

(** X11. The snapshot any-of gates are the disjunction of the single
    gates: [requireAnyRole] passes exactly when [requireRole] passes for one
    of the names, [requireAnyPermission] exactly when [requirePermission]
    passes for one of the checks; otherwise each answers 403. *)
Theorem snapshot_any_of_is_disjunction (user : JWTPayload.t) (roleNames : list string)
    (checks : list PermissionCheck.t) :
  (passes (RBACMiddleware.requireAnyRole roleNames (Some user)) <->
   exists roleName, In roleName roleNames
                    /\ passes (RBACMiddleware.requireRole roleName (Some user)))
  /\ (passes (RBACMiddleware.requireAnyPermission checks (Some user)) <->
      exists check, In check checks
                    /\ passes (RBACMiddleware.requirePermission check (Some user)))
  /\ (~ passes (RBACMiddleware.requireAnyRole roleNames (Some user)) ->
      forbidden (RBACMiddleware.requireAnyRole roleNames (Some user)))
  /\ (~ passes (RBACMiddleware.requireAnyPermission checks (Some user)) ->
      forbidden (RBACMiddleware.requireAnyPermission checks (Some user))).
Proof.
  split; [|split; [|split]].
  - unfold passes at 1. unfold RBACMiddleware.requireAnyRole, some.
    destruct (existsb _ roleNames) eqn:E; simpl.
    + split; [intros _|reflexivity]. apply existsb_exists in E.
      destruct E as [roleName [Hin Hinc]]. exists roleName. split; [assumption|].
      apply snapshot_requireRole_passes. now apply includes_In.
    + split; [discriminate|]. intros [roleName [Hin Hpass]].
      apply snapshot_requireRole_passes, includes_In in Hpass.
      assert (Hex : existsb (fun roleName => includes (JWTPayload.roles user) roleName)
                      roleNames = true)
        by (apply existsb_exists; eauto).
      congruence.
  - unfold passes at 1. unfold RBACMiddleware.requireAnyPermission.
    unfold some at 1.
    destruct (existsb _ checks) eqn:E; simpl.
    + split; [intros _|reflexivity]. apply existsb_exists in E.
      destruct E as [check [Hin Hsome]]. exists check. split; [assumption|].
      apply snapshot_requirePermission_passes. now apply snapshot_some_iff.
    + split; [discriminate|]. intros [check [Hin Hpass]].
      apply snapshot_requirePermission_passes, snapshot_some_iff in Hpass.
      assert (Hex : existsb
                (fun check =>
                   some (fun permission =>
                           String.eqb permission (colon_name check)
                           || String.eqb permission (dot_name check))
                        (JWTPayload.permissions user)) checks = true)
        by (apply existsb_exists; eauto).
      congruence.
  - unfold passes, forbidden, RBACMiddleware.requireAnyRole.
    destruct (some _ roleNames); simpl; intros H;
      [exfalso; now apply H|eexists; reflexivity].
  - unfold passes, forbidden, RBACMiddleware.requireAnyPermission.
    destruct (some _ checks); simpl; intros H;
      [exfalso; now apply H|eexists; reflexivity].
Qed.

(** X12. The live any-of gates. If [requireAnyRole] passes then
    [requireRole] passes for one of the names, and with a service that
    answers every lookup the converse holds. But the lookups are awaited
    together: if the lookup of one listed name rejects, the gate answers 500
    even when another listed name matches. The same holds for
    [requireAnyPermission]. *)
Theorem live_any_of_awaits_all (svc : AuthMiddleware.Service) (user : JWTPayload.t)
    (roleNames : list string) (checks : list PermissionCheck.t) :
  (passes (AuthMiddleware.requireAnyRole svc roleNames (Some user)) ->
   exists roleName, In roleName roleNames
                    /\ passes (AuthMiddleware.requireRole svc roleName (Some user)))
  /\ (answers svc ->
      forall roleName, In roleName roleNames ->
        passes (AuthMiddleware.requireRole svc roleName (Some user)) ->
        passes (AuthMiddleware.requireAnyRole svc roleNames (Some user)))
  /\ (forall roleName e, In roleName roleNames ->
        AuthMiddleware.hasRole svc (JWTPayload.userId user) roleName = Throw e ->
        internal_error (AuthMiddleware.requireAnyRole svc roleNames (Some user)))
  /\ (passes (AuthMiddleware.requireAnyPermission svc checks (Some user)) ->
      exists check, In check checks
                    /\ passes (AuthMiddleware.requirePermission svc check (Some user)))
  /\ (answers svc ->
      forall check, In check checks ->
        passes (AuthMiddleware.requirePermission svc check (Some user)) ->
        passes (AuthMiddleware.requireAnyPermission svc checks (Some user)))
  /\ (forall check e, In check checks ->
        AuthMiddleware.hasPermission svc (JWTPayload.userId user) check = Throw e ->
        internal_error (AuthMiddleware.requireAnyPermission svc checks (Some user))).
Proof.
  split; [|split; [|split; [|split; [|split]]]].
  - unfold passes at 1. unfold AuthMiddleware.requireAnyRole.
    destruct (promise_all _) as [bs|e] eqn:E; simpl; [|discriminate].
    destruct (some (fun hasRole => hasRole) bs) eqn:Hsome; simpl; [|discriminate].
    intros _. apply (promise_all_some _ _ _ E) in Hsome.
    destruct Hsome as [roleName [Hin Htrue]]. exists roleName. split; [assumption|].
    now apply live_requireRole_passes.
  - intros [Hrole _] roleName Hin Hpass. apply live_requireRole_passes in Hpass.
    unfold passes, AuthMiddleware.requireAnyRole.
    destruct (promise_all_answers
                (fun roleName =>
                   AuthMiddleware.hasRole svc (JWTPayload.userId user) roleName)
                roleNames (Hrole (JWTPayload.userId user))) as [bs Hbs].
    rewrite Hbs. simpl.
    assert (Hsome : some (fun hasRole => hasRole) bs = true)
      by (apply (promise_all_some _ _ _ Hbs); eauto).
    rewrite Hsome. reflexivity.
  - intros roleName e Hin Hthrow. unfold internal_error, AuthMiddleware.requireAnyRole.
    destruct (promise_all_throw
                (fun roleName =>
                   AuthMiddleware.hasRole svc (JWTPayload.userId user) roleName)
                roleNames roleName e Hin Hthrow) as [e' He'].
    rewrite He'. simpl. eexists. reflexivity.
  - unfold passes at 1. unfold AuthMiddleware.requireAnyPermission.
    destruct (promise_all _) as [bs|e] eqn:E; simpl; [|discriminate].
    destruct (some (fun hasPermission => hasPermission) bs) eqn:Hsome; simpl;
      [|discriminate].
    intros _. apply (promise_all_some _ _ _ E) in Hsome.
    destruct Hsome as [check [Hin Htrue]]. exists check. split; [assumption|].
    now apply live_requirePermission_passes.
  - intros [_ Hperm] check Hin Hpass. apply live_requirePermission_passes in Hpass.
    unfold passes, AuthMiddleware.requireAnyPermission.
    destruct (promise_all_answers
                (fun check =>
                   AuthMiddleware.hasPermission svc (JWTPayload.userId user) check)
                checks (Hperm (JWTPayload.userId user))) as [bs Hbs].
    rewrite Hbs. simpl.
    assert (Hsome : some (fun hasPermission => hasPermission) bs = true)
      by (apply (promise_all_some _ _ _ Hbs); eauto).
    rewrite Hsome. reflexivity.
  - intros check e Hin Hthrow. unfold internal_error, AuthMiddleware.requireAnyPermission.
    destruct (promise_all_throw
                (fun check =>
                   AuthMiddleware.hasPermission svc (JWTPayload.userId user) check)
                checks check e Hin Hthrow) as [e' He'].
    rewrite He'. simpl. eexists. reflexivity.
Qed.

(** The role admin matches, the lookup of audit rejects: the gate for
    either of them answers 500, the gate for admin alone passes. *)
Lemma live_any_of_awaits_all_witness :
  passes (AuthMiddleware.requireRole Sample2.flaky "admin" (Some (Sample.identity [] [])))
  /\ internal_error
       (AuthMiddleware.requireAnyRole Sample2.flaky ["admin"; "audit"]
          (Some (Sample.identity [] []))).
Proof.
  split; [reflexivity|].
  destruct (live_any_of_awaits_all Sample2.flaky (Sample.identity [] [])
              ["admin"; "audit"] []) as [_ [_ [Hthrow _]]].
  apply (Hthrow "audit" (SqlError "connection lost")); [simpl; auto|reflexivity].
Defined.

Lemma AuthMiddleware_verifyToken_cases
    (verify : string -> Exc (option JWTPayload.t)) (req : Request.t) :
  exists outcome req',
    AuthMiddleware_verifyToken verify req = Return (outcome, req')
    /\ (outcome = Next ->
        exists authHeader payload,
          Request.authorization req = Some authHeader
          /\ String.prefix "Bearer " authHeader = true
          /\ verify (String.substring 7 (String.length authHeader - 7) authHeader)
             = Return (Some payload)
          /\ req' = Request.mk (Request.authorization req) (Some payload))
    /\ (outcome <> Next -> (exists error, outcome = Respond 401 error) /\ req' = req).
Proof.
  unfold AuthMiddleware_verifyToken.
  destruct (Request.authorization req) as [authHeader|] eqn:Hauth; simpl.
  2: { eexists _, _. split; [reflexivity|]. split; [discriminate|]. eauto. }
  destruct (String.eqb authHeader EmptyString) eqn:Hempty; simpl.
  { eexists _, _. split; [reflexivity|]. split; [discriminate|]. eauto. }
  destruct (String.prefix "Bearer " authHeader) eqn:Hprefix; simpl.
  2: { eexists _, _. split; [reflexivity|]. split; [discriminate|]. eauto. }
  destruct (verify _) as [[payload|]|e] eqn:Hverify; simpl.
  - eexists _, _. split; [reflexivity|]. split.
    + intros _. exists authHeader, payload. repeat split; auto.
    + intros H. now contradiction H.
  - eexists _, _. split; [reflexivity|]. split; [discriminate|]. eauto.
  - eexists _, _. split; [reflexivity|]. split; [discriminate|]. eauto.
Qed.

(** X13. [AuthMiddleware.verifyToken] fails closed and throws nothing. It
    calls [next()] only for a header that starts with [Bearer ] and whose
    remainder [rbacService.verifyToken] accepts, and then [req.user] is the
    payload that call returned; in every other case, a throw of the service
    included, it answers 401 and leaves the request as it was. *)
Theorem AuthMiddleware_verifyToken_fails_closed
    (verify : string -> Exc (option JWTPayload.t)) (req : Request.t) :
  exists outcome req',
    AuthMiddleware_verifyToken verify req = Return (outcome, req')
    /\ (outcome = Next ->
        exists authHeader payload,
          Request.authorization req = Some authHeader
          /\ String.prefix "Bearer " authHeader = true
          /\ verify (String.substring 7 (String.length authHeader - 7) authHeader)
             = Return (Some payload)
          /\ req' = Request.mk (Request.authorization req) (Some payload))
    /\ (outcome <> Next -> (exists error, outcome = Respond 401 error) /\ req' = req).
Proof. apply AuthMiddleware_verifyToken_cases. Qed.

Lemma substring_all (s : string) : String.substring 0 (String.length s) s = s.
Proof.
  induction s as [|c s IH]; simpl; [reflexivity|now rewrite IH].
Qed.

Lemma bearer_token (token : string) :
  String.prefix "Bearer " ("Bearer " ++ token) = true
  /\ String.substring 7 (String.length ("Bearer " ++ token) - 7) ("Bearer " ++ token)
     = token.
Proof.
  split.
  - simpl. now destruct token.
  - simpl. rewrite Nat.sub_0_r. apply substring_all.
Qed.

Section TokenPipeline.
Context {RT : Runtime}.
Variable config : JwtConfig.t.

(** What [jwt.verify] makes of a token [jwt.sign] returned. *)
Lemma sign_then_verify (payload : TokenClaims.t) (now ttl later : Z) (token : string) :
  let stamped := jwt.stamp payload now (now + ttl) in
  timespan (JwtConfig.expiresIn config) = Some ttl ->
  decode_claims (encode_claims stamped) = Some stamped ->
  no_dot (encode_claims stamped) = true ->
  no_dot (hmac (JwtConfig.secret config)
            (jwt.header_segment ++ "." ++ encode_claims stamped)%string) = true ->
  RBACService.generateToken config now payload = Return token ->
  RBACService.verifyToken config later token
  = Return (if now + ttl <=? later then None else Some stamped).
Proof.
  intros stamped Httl Hcodec Hbody Hsig Hgen.
  unfold RBACService.generateToken, jwt.sign in Hgen. rewrite Httl in Hgen.
  fold stamped in Hgen.
  assert (Htoken :
    token = ((jwt.header_segment ++ "." ++ encode_claims stamped) ++ "."
             ++ hmac (JwtConfig.secret config)
                  (jwt.header_segment ++ "." ++ encode_claims stamped))%string)
    by congruence.
  subst token. clear Hgen.
  unfold RBACService.verifyToken, jwt.verify.
  rewrite split_compact by (assumption || reflexivity).
  rewrite String.eqb_refl. simpl negb. cbv iota.
  rewrite Hcodec, String.eqb_refl. simpl.
  destruct (now + ttl <=? later); reflexivity.
Qed.

(** X14. From login to the gate. A token [generateToken] returned, sent
    as [Bearer <token>] before its expiry, passes
    [AuthMiddleware.verifyToken], which sets [req.user] to the claims that
    were signed, stamped with [iat] and [exp]; from its expiry on the same
    header gets a 401. *)
Theorem bearer_token_roundtrip (payload : TokenClaims.t) (now ttl later : Z)
    (token : string) (user : option JWTPayload.t) :
  let stamped := jwt.stamp payload now (now + ttl) in
  let req := Request.mk (Some ("Bearer " ++ token)%string) user in
  timespan (JwtConfig.expiresIn config) = Some ttl ->
  decode_claims (encode_claims stamped) = Some stamped ->
  no_dot (encode_claims stamped) = true ->
  no_dot (hmac (JwtConfig.secret config)
            (jwt.header_segment ++ "." ++ encode_claims stamped)%string) = true ->
  RBACService.generateToken config now payload = Return token ->
  (later < now + ttl ->
   AuthMiddleware_verifyToken (RBACService.verifyToken config later) req
   = Return (Next, Request.mk (Some ("Bearer " ++ token)%string) (Some stamped)))
  /\ (now + ttl <= later ->
      AuthMiddleware_verifyToken (RBACService.verifyToken config later) req
      = Return (Respond 401 "Token inválido ou expirado", req)).
Proof.
  intros stamped req Httl Hcodec Hbody Hsig Hgen.
  pose proof (sign_then_verify payload now ttl later token Httl Hcodec Hbody Hsig Hgen)
    as Hverify.
  destruct (bearer_token token) as [Hprefix Hsub].
  unfold AuthMiddleware_verifyToken, req.
  cbn [Request.authorization].
  replace (String.eqb ("Bearer " ++ token) EmptyString) with false by reflexivity.
  rewrite Hprefix, Hsub, Hverify. simpl.
  split; intros Hlater.
  - destruct (now + ttl <=? later) eqn:E; [apply Z.leb_le in E; lia|reflexivity].
  - destruct (now + ttl <=? later) eqn:E; [reflexivity|apply Z.leb_gt in E; lia].
Qed.

End TokenPipeline.

Lemma bearer_token_roundtrip_witness :
  AuthMiddleware_verifyToken
    (RBACService.verifyToken (RT := Reference.runtime) Reference.config 2000)
    (Request.mk (Some ("Bearer " ++ Sample.token)%string) None)
  = Return (Next, Request.mk (Some ("Bearer " ++ Sample.token)%string)
                    (Some (jwt.stamp Sample.claims 1000 4600))).
Proof.
  apply (bearer_token_roundtrip (RT := Reference.runtime) Reference.config
           Sample.claims 1000 3600 2000 Sample.token None);
    vm_compute; reflexivity.
Defined.

(** X15. At the state in which a token is issued the snapshot gates agree
    with the live ones on roles: for the identity [authenticateUser]
    embeds, the snapshot [requireRole] passes exactly when the live one
    does. On permissions, when every permission is named
    [resource:action], whatever the live [requirePermission] lets through
    the snapshot one lets through too. *)
Theorem snapshot_agrees_with_live_at_login (db : Database) (user : User.t)
    (iat exp : option Z) (roleName : string) (check : PermissionCheck.t) :
  let identity := login_identity db user iat exp in
  (passes (RBACMiddleware.requireRole roleName (Some identity)) <->
   passes (AuthMiddleware.requireRole (AuthMiddleware.live db) roleName (Some identity)))
  /\ (canonical_names db ->
      passes (AuthMiddleware.requirePermission (AuthMiddleware.live db) check
                (Some identity)) ->
      passes (RBACMiddleware.requirePermission check (Some identity))).
Proof.
  intros identity. split.
  - rewrite snapshot_requireRole_passes, live_requireRole_passes. simpl.
    unfold RBACService.hasRole. rewrite <- hasRole_in_names.
    split; intros H; [now rewrite H|now inversion H].
  - intros Hcanon Hlive.
    apply live_requirePermission_passes in Hlive. simpl in Hlive.
    assert (Hhas : RBACService.hasPermission db (User.id user) check = true)
      by now inversion Hlive.
    unfold RBACService.hasPermission, some in Hhas.
    apply existsb_exists in Hhas. destruct Hhas as [p [Hin Hmatch]].
    apply andb_true_iff in Hmatch. destruct Hmatch as [Hres Hact].
    apply String.eqb_eq in Hres, Hact.
    apply snapshot_requirePermission_passes. left. simpl.
    apply in_map_iff. exists p. split; [|exact Hin].
    rewrite getUserPermissions_spec in Hin. apply dedupe_first_seen_In in Hin.
    apply union_grants in Hin. destruct (grants_row _ _ _ _ Hin) as [row [Hrow Hmap]].
    subst p. simpl in *. rewrite (Hcanon row Hrow). unfold colon_name.
    now rewrite Hres, Hact.
Qed.

Lemma sample_canonical_names : canonical_names Sample.db.
Proof.
  intros row Hrow. simpl in Hrow.
  destruct Hrow as [H|[H|[H|[]]]]; subst row; reflexivity.
Qed.

Lemma snapshot_agrees_with_live_at_login_witness :
  passes (RBACMiddleware.requirePermission (PermissionCheck.mk "content" "delete")
            (Some (login_identity Sample.db (UserRepository.mapUser Sample.alice)
                     None None))).
Proof.
  apply (snapshot_agrees_with_live_at_login Sample.db (UserRepository.mapUser Sample.alice)
           None None "admin" (PermissionCheck.mk "content" "delete")).
  - exact sample_canonical_names.
  - reflexivity.
Defined.

(** Without that naming the two modes part: the live gate passes and the
    snapshot gate answers 403 for the same user at the same state. *)
Example legacy_name_splits_the_modes :
  let identity :=
    login_identity Sample2.legacy (UserRepository.mapUser Sample.alice) None None in
  passes (AuthMiddleware.requirePermission (AuthMiddleware.live Sample2.legacy)
            (PermissionCheck.mk "content" "read") (Some identity))
  /\ forbidden (RBACMiddleware.requirePermission (PermissionCheck.mk "content" "read")
                  (Some identity)).
Proof. split; [reflexivity|eexists; reflexivity]. Qed.

(** X16. A successful login. For a known, active user whose password
    matches, with a readable [expiresIn], [authenticateUser] returns the
    user without the password field, the roles [getUserRoles] returns, the
    permissions [getUserPermissions] returns and a token; with a payload
    segment that decodes to what was encoded, that token verifies before
    its expiry to the names of exactly those roles and permissions. *)
Theorem authenticateUser_success {RT : Runtime} (config : JwtConfig.t) (db : Database)
    (now ttl : Z) (username password : string) (user : User.t) :
  let identity := login_identity db user (Some now) (Some (now + ttl)) in
  UserRepository.findByUsername db username = Some user ->
  User.isActive user = true ->
  bcrypt_compare password (User.password user) = true ->
  timespan (JwtConfig.expiresIn config) = Some ttl ->
  exists token,
    RBACService.authenticateUser config db now username password
    = Return (Some (AuthResult.mk
                      (PublicUser.mk (User.id user) (User.username user) (User.email user)
                         (User.isActive user) (User.createdAt user) (User.updatedAt user))
                      token
                      (UserRoleRepository.getUserRoles db (User.id user))
                      (RBACService.getUserPermissions db (User.id user))))
    /\ (decode_claims (encode_claims identity) = Some identity ->
        no_dot (encode_claims identity) = true ->
        no_dot (hmac (JwtConfig.secret config)
                  (jwt.header_segment ++ "." ++ encode_claims identity)%string) = true ->
        forall later, later < now + ttl ->
          RBACService.verifyToken config later token = Return (Some identity)).
Proof.
  intros identity Hfound Hactive Hpw Httl.
  unfold RBACService.authenticateUser. rewrite Hfound, Hactive, Hpw.
  cbv beta iota zeta delta [negb].
  destruct (RBACService.generateToken config now
              (TokenClaims.mk (User.id user) (User.username user) (User.email user)
                 (map Role.name (UserRoleRepository.getUserRoles db (User.id user)))
                 (map Permission.name (RBACService.getUserPermissions db (User.id user)))))
    as [token|e] eqn:Hgen.
  - exists token. split; [reflexivity|].
    intros Hcodec Hbody Hsig later Hlater.
    pose proof (sign_then_verify config
                  (TokenClaims.mk (User.id user) (User.username user) (User.email user)
                     (map Role.name (UserRoleRepository.getUserRoles db (User.id user)))
                     (map Permission.name
                        (RBACService.getUserPermissions db (User.id user))))
                  now ttl later token Httl Hcodec Hbody Hsig Hgen) as Hverify.
    rewrite Hverify.
    destruct (now + ttl <=? later) eqn:E; [apply Z.leb_le in E; lia|reflexivity].
  - unfold RBACService.generateToken, jwt.sign in Hgen. rewrite Httl in Hgen.
    discriminate Hgen.
Qed.

Lemma authenticateUser_success_witness :
  exists token,
    RBACService.authenticateUser (RT := Reference.runtime) Reference.config Sample.db
      1000 "alice" "password"
    = Return (Some (AuthResult.mk
                      (PublicUser.mk "u1" "alice" "alice@example.com" true 0 0)
                      token
                      (UserRoleRepository.getUserRoles Sample.db "u1")
                      (RBACService.getUserPermissions Sample.db "u1")))
    /\ RBACService.verifyToken (RT := Reference.runtime) Reference.config 2000 token
       = Return (Some (login_identity Sample.db (UserRepository.mapUser Sample.alice)
                         (Some 1000) (Some 4600))).
Proof.
  destruct (authenticateUser_success (RT := Reference.runtime) Reference.config Sample.db
              1000 3600 "alice" "password" (UserRepository.mapUser Sample.alice))
    as [token [Hlogin Hverify]]; try reflexivity.
  exists token. split; [exact Hlogin|].
  apply Hverify; try (vm_compute; reflexivity).
Defined.

(** ** Roles and users: updates, creation and login *)

Lemma filter_map_commute {A : Type} (f : A -> A) (c : A -> bool) (l : list A) :
  (forall x, c (f x) = c x) -> filter c (map f l) = map f (filter c l).
Proof.
  intros H. induction l as [|x l IH]; simpl; [reflexivity|].
  rewrite H. destruct (c x); simpl; now rewrite IH.
Qed.

Lemma first_map {A B : Type} (f : A -> B) (l : list A) :
  first (map f l) = option_map f (first l).
Proof. destruct l; reflexivity. Qed.

Lemma filter_nil_of_existsb {A : Type} (c : A -> bool) (l : list A) :
  existsb c l = false -> filter c l = [].
Proof.
  induction l as [|x l IH]; simpl; [reflexivity|].
  intros H. apply orb_false_iff in H. destruct H as [Hx Hl]. rewrite Hx. now apply IH.
Qed.

Lemma first_where_none {A : Type} (c : A -> bool) (l : list A) :
  first (where_ c l) = None <-> existsb c l = false.
Proof.
  unfold where_. induction l as [|x l IH]; simpl; [tauto|].
  destruct (c x); simpl; [split; discriminate|exact IH].
Qed.

Lemma deactivate_hit_id (now : Z) (id : string) (r : roles_row.t) :
  String.eqb
    (roles_row.id (if String.eqb (roles_row.id r) id
                   then RoleRepository.apply_update now
                          (RoleUpdate.mk None None (Some false)) r
                   else r)) id
  = String.eqb (roles_row.id r) id.
Proof. destruct (String.eqb (roles_row.id r) id) eqn:E; simpl; [|exact E]. exact E. Qed.

(** X17. Deactivating a role through [updateRole] revokes it from every
    user at once: no user's [getUserRoles] has a role with that id
    afterwards, every other role stays, and no assignment row is touched.
    The call returns [null] exactly when no role has the id. *)
Theorem deactivating_role_revokes (db : Database) (now : Z) (id : string) :
  exists result db',
    RBACService_updateRole db now id (RoleUpdate.mk None None (Some false))
    = Return (result, db')
    /\ users db' = users db /\ permissions db' = permissions db
    /\ user_roles db' = user_roles db /\ role_permissions db' = role_permissions db
    /\ (forall u role, In role (UserRoleRepository.getUserRoles db' u) ->
          Role.id role <> id /\ In role (UserRoleRepository.getUserRoles db u))
    /\ (forall u role, In role (UserRoleRepository.getUserRoles db u) ->
          Role.id role <> id -> In role (UserRoleRepository.getUserRoles db' u))
    /\ (forall u, UserRoleRepository.getUserRoleAssignments db' u
                  = UserRoleRepository.getUserRoleAssignments db u)
    /\ (result = None <-> RoleRepository.findById db id = None).
Proof.
  unfold RBACService_updateRole, RoleRepository.update. simpl.
  eexists _, _. split; [reflexivity|]. simpl.
  repeat (split; [reflexivity|]).
  split; [|split; [|split]].
  - intros u role Hin. apply getUserRoles_In in Hin. simpl in Hin.
    destruct Hin as [ur [r' [Hur [Huser [Hr' [Hid [Hactive Hrole]]]]]]].
    apply in_map_iff in Hr'. destruct Hr' as [r0 [Hf Hr0]].
    destruct (String.eqb (roles_row.id r0) id) eqn:E.
    + subst r'. simpl in Hactive. discriminate Hactive.
    + subst r'. apply String.eqb_neq in E. split.
      * subst role. simpl. exact E.
      * apply getUserRoles_In. exists ur, r0. repeat split; auto.
  - intros u role Hin Hne. apply getUserRoles_In in Hin.
    destruct Hin as [ur [r [Hur [Huser [Hr [Hid [Hactive Hrole]]]]]]].
    apply getUserRoles_In. exists ur, r. simpl. repeat split; auto.
    apply in_map_iff. exists r. split; [|assumption].
    subst role. simpl in Hne. apply String.eqb_neq in Hne. now rewrite Hne.
  - intros u. reflexivity.
  - unfold RoleRepository.findById, where_.
    rewrite (filter_map_commute _ _ _ (deactivate_hit_id now id)), first_map.
    destruct (first (filter _ (roles db))); simpl; split; intros H;
      (reflexivity || discriminate H).
Qed.

Lemma mapped_first_none {A B : Type} (f : A -> B) (c : A -> bool) (l : list A) :
  match first (where_ c l) with
  | Some x => Some (f x)
  | None => None
  end = None <-> existsb c l = false.
Proof.
  rewrite <- first_where_none.
  destruct (first (where_ c l)); split; intros H; (reflexivity || discriminate H).
Qed.

(** X18. [createRole] and the lookups. When neither the id nor the name is
    taken, the call returns the role, [findById] and [findByName] then
    return that same role, and the lookup of every other id is unchanged.
    When the name is taken the call throws. *)
Theorem createRole_then_find (db : Database) (newId : string) (now : Z)
    (roleData : RoleData.t) :
  (RoleRepository.findById db newId = None ->
   RoleRepository.findByName db (RoleData.name roleData) = None ->
   exists role db',
     RBACService_createRole db newId now roleData = Return (role, db')
     /\ role = Role.mk newId (RoleData.name roleData) (RoleData.description roleData)
                 (RoleData.isActive roleData) now now
     /\ RoleRepository.findById db' newId = Some role
     /\ RoleRepository.findByName db' (RoleData.name roleData) = Some role
     /\ (forall id, id <> newId ->
           RoleRepository.findById db' id = RoleRepository.findById db id))
  /\ (RoleRepository.findByName db (RoleData.name roleData) <> None ->
      exists e, RBACService_createRole db newId now roleData = Throw e).
Proof.
  unfold RBACService_createRole, RoleRepository.create, RoleRepository.insert_roles,
    RoleRepository.findById, RoleRepository.findByName. simpl.
  split.
  - intros Hid Hname.
    assert (Hid' : existsb (fun r => String.eqb (roles_row.id r) newId) (roles db) = false)
      by (apply (mapped_first_none RoleRepository.mapRole); exact Hid).
    assert (Hname' : existsb (fun r => String.eqb (roles_row.name r)
                                         (RoleData.name roleData)) (roles db) = false)
      by (apply (mapped_first_none RoleRepository.mapRole); exact Hname).
    rewrite Hid', Hname'. simpl.
    eexists _, _. split; [reflexivity|]. split; [reflexivity|]. simpl.
    unfold where_. rewrite !filter_app.
    rewrite (filter_nil_of_existsb _ _ Hid'), (filter_nil_of_existsb _ _ Hname'). simpl.
    rewrite !String.eqb_refl. simpl.
    split; [reflexivity|]. split; [reflexivity|].
    intros id Hne. rewrite filter_app. simpl.
    assert (E : String.eqb newId id = false) by (apply String.eqb_neq; congruence).
    rewrite E, app_nil_r. reflexivity.
  - intros Hname.
    assert (Hname' : existsb (fun r => String.eqb (roles_row.name r)
                                         (RoleData.name roleData)) (roles db) = true).
    { destruct (existsb _ (roles db)) eqn:E; [reflexivity|].
      apply (mapped_first_none RoleRepository.mapRole) in E. now contradiction Hname. }
    destruct (existsb (fun r => String.eqb (roles_row.id r) newId) (roles db));
      [eexists; reflexivity|].
    rewrite Hname'. eexists. reflexivity.
Qed.

Lemma createRole_then_find_witness :
  exists role db',
    RBACService_createRole Sample.db "r4" 5 (RoleData.mk "editor" None true)
    = Return (role, db')
    /\ RoleRepository.findByName db' "editor" = Some role.
Proof.
  destruct (createRole_then_find Sample.db "r4" 5 (RoleData.mk "editor" None true))
    as [Hok _].
  destruct (Hok eq_refl eq_refl) as [role [db' [Hcreate [_ [_ [Hname _]]]]]].
  exists role, db'. split; [exact Hcreate|exact Hname].
Defined.

Section Users.
Context {RT : Runtime}.
Variable bcrypt_hash : string -> Z -> string.
Variable config : JwtConfig.t.

(** X19. Register, then log in. When [createUser] succeeds for an active
    user, the stored password is the hash and not the text given, and with
    a hash that [bcrypt.compare] accepts for that text and a readable
    [expiresIn], [authenticateUser] with the same username and password
    then returns that user. When the username is taken, [createUser]
    throws. *)
Theorem createUser_then_login (db : Database) (newId : string) (now later ttl : Z)
    (userData : UserData.t) :
  (UserData.isActive userData = true ->
   bcrypt_compare (UserData.password userData)
     (bcrypt_hash (UserData.password userData) 10) = true ->
   timespan (JwtConfig.expiresIn config) = Some ttl ->
   forall user db',
     RBACService_createUser bcrypt_hash db newId now userData = Return (user, db') ->
     User.password user = bcrypt_hash (UserData.password userData) 10
     /\ exists result,
          RBACService.authenticateUser config db' later (UserData.username userData)
            (UserData.password userData) = Return (Some result)
          /\ PublicUser.id (AuthResult.user result) = newId
          /\ PublicUser.username (AuthResult.user result) = UserData.username userData
          /\ PublicUser.email (AuthResult.user result) = UserData.email userData)
  /\ (UserRepository.findByUsername db (UserData.username userData) <> None ->
      exists e, RBACService_createUser bcrypt_hash db newId now userData = Throw e).
Proof.
  unfold RBACService_createUser, UserRepository_create, insert_users. simpl.
  split.
  - intros Hactive Hcompare Httl user db' Hcreate.
    destruct (existsb (fun u => String.eqb (users_row.id u) newId) (users db));
      [discriminate Hcreate|].
    destruct (existsb (fun u => String.eqb (users_row.username u)
                                  (UserData.username userData)) (users db)) eqn:Hname;
      [discriminate Hcreate|].
    destruct (existsb (fun u => String.eqb (users_row.email u)
                                  (UserData.email userData)) (users db));
      [discriminate Hcreate|].
    simpl in Hcreate. inversion Hcreate; subst. clear Hcreate.
    split; [reflexivity|].
    unfold RBACService.authenticateUser, UserRepository.findByUsername, where_. simpl.
    rewrite filter_app, (filter_nil_of_existsb _ _ Hname). simpl.
    rewrite String.eqb_refl. simpl. rewrite Hactive, Hcompare. simpl.
    unfold RBACService.generateToken, jwt.sign. rewrite Httl. simpl.
    eexists. split; [reflexivity|]. simpl. auto.
  - intros Hfound.
    assert (Hname : existsb (fun u => String.eqb (users_row.username u)
                                        (UserData.username userData)) (users db) = true).
    { destruct (existsb _ (users db)) eqn:E; [reflexivity|].
      apply (mapped_first_none UserRepository.mapUser) in E. now contradiction Hfound. }
    destruct (existsb (fun u => String.eqb (users_row.id u) newId) (users db));
      [eexists; reflexivity|].
    rewrite Hname. eexists. reflexivity.
Qed.



End Users.

Lemma createUser_then_login_witness :
  exists result,
    (r <- RBACService_createUser (fun plain _ => "$2a$" ++ Reference.hex_of_string plain)%string
            Sample.db "u3" 5 (UserData.mk "carol" "carol@example.com" "secret" true) ;;
     RBACService.authenticateUser (RT := Reference.runtime) Reference.config (snd r) 10
       "carol" "secret")
    = Return (Some result)
    /\ PublicUser.id (AuthResult.user result) = "u3".
Proof.
  destruct (createUser_then_login (RT := Reference.runtime)
              (fun plain _ => "$2a$" ++ Reference.hex_of_string plain)%string
              Reference.config Sample.db "u3" 5 10 3600
              (UserData.mk "carol" "carol@example.com" "secret" true)) as [Hok _].
  destruct (Hok eq_refl eq_refl eq_refl _ _ eq_refl) as [_ [result [Hlogin [Hid _]]]].
  exists result. split; [exact Hlogin|exact Hid].
Defined.


(** ** The controller and the route of an assignment *)

(** X21. [RoleController.assignPermission] answers 401 when the request
    has no user or a user whose id is the empty string, and leaves the
    database alone. For every other request it answers 200 with the
    success message, also when the edge exists already and nothing is
    inserted: it answers 400 and 500 to no request. *)
Theorem RoleController_assignPermission_answers (db : Database) (newId : string) (now : Z)
    (roleId permissionId : string) (user : option JWTPayload.t) :
  exists response db',
    RoleController.assignPermission db newId now roleId permissionId user
    = Return (response, db')
    /\ (assignedBy_of user = None ->
        response = Json 401 (ErrorBody "Usuário não autenticado") /\ db' = db)
    /\ (forall assignedBy, assignedBy_of user = Some assignedBy ->
          response = Json 200 (MessageBody "Permissão atribuída com sucesso")
          /\ (db' = db
              \/ (has_edge db roleId permissionId = false
                  /\ db' = with_edge db
                             (role_permissions_row.mk newId roleId permissionId
                                assignedBy now))))
    /\ (has_edge db roleId permissionId = true -> db' = db).
Proof.
  unfold RoleController.assignPermission.
  destruct (assignedBy_of user) as [assignedBy|].
  - unfold RBACService.assignPermissionToRole.
    destruct (assignPermission_cases db newId now roleId permissionId assignedBy)
      as [Hsame | [Hedge Hnew]].
    + rewrite Hsame. simpl. eexists _, _. split; [reflexivity|].
      split; [discriminate|]. split; [|reflexivity].
      intros a Ha. inversion Ha; subst. auto.
    + rewrite Hnew. simpl. eexists _, _. split; [reflexivity|].
      split; [discriminate|]. split.
      * intros a Ha. inversion Ha; subst. auto.
      * intros H. rewrite H in Hedge. discriminate Hedge.
  - simpl. eexists _, _. split; [reflexivity|]. split; [auto|].
    split; [discriminate|reflexivity].
Qed.

Lemma RoleController_assignPermission_answers_witness :
  exists response db',
    RoleController.assignPermission Sample.db "rp5" 1 "r1" "p1"
      (Some (Sample.identity [] [])) = Return (response, db')
    /\ response = Json 200 (MessageBody "Permissão atribuída com sucesso")
    /\ db' = Sample.db.
Proof.
  destruct (RoleController_assignPermission_answers Sample.db "rp5" 1 "r1" "p1"
              (Some (Sample.identity [] [])))
    as [response [db' [Hrun [_ [Hok Hsame]]]]].
  exists response, db'. split; [exact Hrun|]. split.
  - apply (Hok "u1"). reflexivity.
  - apply Hsame. reflexivity.
Defined.

Lemma RoleController_assignPermission_answers_aux (db : Database) (newId : string)
    (now : Z) (roleId permissionId : string) (payload : JWTPayload.t) :
  exists response db',
    RoleController.assignPermission db newId now roleId permissionId (Some payload)
    = Return (response, db')
    /\ (db' <> db ->
        has_edge db roleId permissionId = false
        /\ db' = with_edge db
                   (role_permissions_row.mk newId roleId permissionId
                      (JWTPayload.userId payload) now)).
Proof.
  unfold RoleController.assignPermission, assignedBy_of.
  destruct (String.eqb (JWTPayload.userId payload) EmptyString).
  - simpl. eexists _, _. split; [reflexivity|]. intros H. now contradiction H.
  - unfold RBACService.assignPermissionToRole.
    destruct (assignPermission_cases db newId now roleId permissionId
                (JWTPayload.userId payload)) as [Hsame | [Hedge Hnew]].
    + rewrite Hsame. simpl. eexists _, _. split; [reflexivity|].
      intros H. now contradiction H.
    + rewrite Hnew. simpl. eexists _, _. split; [reflexivity|]. auto.
Qed.

(** X22. The route that assigns a permission to a role changes the
    database only for an authorised caller: if the database after the
    request differs from the one before, then the request carried a
    [Bearer] token that [verifyToken] accepted, the user of that token
    holds permissions:manage in the database as it was, and the change is
    the one new edge, recorded as assigned by that user. The route throws
    nothing, and a request without an [Authorization] header gets a 401. *)
Theorem route_assign_permission_authorized {RT : Runtime} (config : JwtConfig.t)
    (db : Database) (newId : string) (now : Z) (roleId permissionId : string)
    (req : Request.t) :
  exists response db',
    route_assign_permission config db newId now roleId permissionId req
    = Return (response, db')
    /\ (db' <> db ->
        exists authHeader payload,
          Request.authorization req = Some authHeader
          /\ String.prefix "Bearer " authHeader = true
          /\ RBACService.verifyToken config now
               (String.substring 7 (String.length authHeader - 7) authHeader)
             = Return (Some payload)
          /\ RBACService.hasPermission db (JWTPayload.userId payload)
               (PermissionCheck.mk "permissions" "manage") = true
          /\ has_edge db roleId permissionId = false
          /\ db' = with_edge db
                     (role_permissions_row.mk newId roleId permissionId
                        (JWTPayload.userId payload) now))
    /\ (Request.authorization req = None ->
        response = Json 401 (ErrorBody "Token de acesso não fornecido")).
Proof.
  unfold route_assign_permission.
  destruct (AuthMiddleware_verifyToken_cases (RBACService.verifyToken config now) req)
    as [outcome [req' [Hrun [Hnext Hdeny]]]].
  rewrite Hrun. simpl.
  destruct outcome as [|status error].
  - destruct (Hnext eq_refl) as [authHeader [payload [Hauth [Hprefix [Hverify Hreq']]]]].
    subst req'. simpl.
    unfold AuthMiddleware_requirePermissionManagement.
    pose proof (live_requirePermission_passes (AuthMiddleware.live db)
                  (PermissionCheck.mk "permissions" "manage") payload) as Hgate.
    unfold passes in Hgate.
    destruct (AuthMiddleware.requirePermission (AuthMiddleware.live db)
                (PermissionCheck.mk "permissions" "manage") (Some payload))
      as [[|status error]|e] eqn:Hg; simpl.
    + destruct (RoleController_assignPermission_answers_aux db newId now roleId
                  permissionId payload) as [response [db' [Hctl Hchange]]].
      rewrite Hctl. exists response, db'. split; [reflexivity|]. split.
      * intros Hne. destruct (Hchange Hne) as [Hedge Hdb'].
        exists authHeader, payload. repeat split; auto.
        assert (Hlive : AuthMiddleware.hasPermission (AuthMiddleware.live db)
                          (JWTPayload.userId payload)
                          (PermissionCheck.mk "permissions" "manage") = Return true)
          by (apply Hgate; reflexivity).
        unfold AuthMiddleware.live in Hlive. cbn [AuthMiddleware.hasPermission] in Hlive.
        injection Hlive as Hlive. exact Hlive.
      * intros Hnone. rewrite Hnone in Hauth. discriminate Hauth.
    + eexists _, _. split; [reflexivity|]. split.
      * intros Hne. now contradiction Hne.
      * intros Hnone. rewrite Hnone in Hauth. discriminate Hauth.
    + exfalso.
      destruct (gate_total
                  (LiveRequirePermission (AuthMiddleware.live db)
                     (PermissionCheck.mk "permissions" "manage")) (Some payload))
        as [o Ho].
      unfold run_gate in Ho. congruence.
  - eexists _, _. split; [reflexivity|]. split.
    + intros Hne. now contradiction Hne.
    + intros Hnone. unfold AuthMiddleware_verifyToken in Hrun.
      rewrite Hnone in Hrun. simpl in Hrun. now inversion Hrun.
Qed.

Lemma route_assign_permission_authorized_witness :
  exists response db',
    route_assign_permission (RT := Reference.runtime) Reference.config Sample.db
      "rp5" 2000 "r3" "p2" (Request.mk None None) = Return (response, db')
    /\ response = Json 401 (ErrorBody "Token de acesso não fornecido").
Proof.
  destruct (route_assign_permission_authorized (RT := Reference.runtime) Reference.config
              Sample.db "rp5" 2000 "r3" "p2" (Request.mk None None))
    as [response [db' [Hrun [_ Hnone]]]].
  exists response, db'. split; [exact Hrun|]. apply Hnone. reflexivity.
Defined.

(** The route at work: alice's token over a database in which her role
    admin holds permissions:manage inserts the edge; over the sample
    database, where no role holds it, the same request gets a 403. *)
Example route_assign_permission_runs :
  route_assign_permission (RT := Reference.runtime) Reference.config Sample2.managed
    "rp5" 2000 "r3" "p2" (Request.mk (Some ("Bearer " ++ Sample.token)%string) None)
  = Return (Json 200 (MessageBody "Permissão atribuída com sucesso"),
            with_edge Sample2.managed (role_permissions_row.mk "rp5" "r3" "p2" "u1" 2000))
  /\ route_assign_permission (RT := Reference.runtime) Reference.config Sample.db
       "rp5" 2000 "r3" "p2" (Request.mk (Some ("Bearer " ++ Sample.token)%string) None)
     = Return (Json 403
                 (ErrorBody "Acesso negado. Permissão 'manage' em 'permissions' é necessária"),
               Sample.db).
Proof. split; vm_compute; reflexivity. Qed.

(** ** The properties above on the sample data *)

Lemma removePermission_removes_one_edge_witness :
  RolePermissionRepository.getRolePermissions
    (snd (RolePermissionRepository.removePermission Sample.db "r1" "p1")) "r3"
  = RolePermissionRepository.getRolePermissions Sample.db "r3".
Proof.
  apply (removePermission_removes_one_edge Sample.db "r1" "p1"). discriminate.
Defined.

Lemma removeRole_removes_one_edge_witness :
  fst (UserRoleRepository.removeRole Sample.db "u1" "r1") = true
  /\ has_user_role (snd (UserRoleRepository.removeRole Sample.db "u1" "r1")) "u1" "r1"
     = false
  /\ In (UserRoleRepository.mapRole Sample.member)
        (UserRoleRepository.getUserRoles
           (snd (UserRoleRepository.removeRole Sample.db "u1" "r1")) "u1").
Proof.
  destruct (removeRole_removes_one_edge Sample.db "u1" "r1")
    as [Hanswer [Hgone [_ [Hkept _]]]].
  split; [rewrite Hanswer; reflexivity|]. split; [exact Hgone|].
  apply Hkept; [simpl; auto|discriminate].
Defined.

Lemma snapshot_any_of_is_disjunction_witness :
  passes (RBACMiddleware.requireAnyRole ["auditor"; "user"]
            (Some (Sample.identity ["user"] []))).
Proof.
  apply (snapshot_any_of_is_disjunction (Sample.identity ["user"] []) ["auditor"; "user"] []).
  exists "user". split; [simpl; auto|reflexivity].
Defined.

Lemma AuthMiddleware_verifyToken_fails_closed_witness :
  exists outcome req',
    AuthMiddleware_verifyToken
      (RBACService.verifyToken (RT := Reference.runtime) Reference.config 2000)
      (Request.mk (Some "Bearer invalid.token.here") None) = Return (outcome, req')
    /\ (exists error, outcome = Respond 401 error)
    /\ req' = Request.mk (Some "Bearer invalid.token.here") None.
Proof.
  destruct (AuthMiddleware_verifyToken_fails_closed
              (RBACService.verifyToken (RT := Reference.runtime) Reference.config 2000)
              (Request.mk (Some "Bearer invalid.token.here") None))
    as [outcome [req' [Hrun [_ Hdeny]]]].
  exists outcome, req'. split; [exact Hrun|]. apply Hdeny.
  intros Hnext. subst outcome. vm_compute in Hrun. discriminate Hrun.
Defined.

Lemma deactivating_role_revokes_witness :
  exists result db',
    RBACService_updateRole Sample.db 5 "r1" (RoleUpdate.mk None None (Some false))
    = Return (result, db')
    /\ In (UserRoleRepository.mapRole Sample.member)
          (UserRoleRepository.getUserRoles db' "u1").
Proof.
  destruct (deactivating_role_revokes Sample.db 5 "r1")
    as [result [db' [Hrun [_ [_ [_ [_ [_ [Hkept _]]]]]]]]].
  exists result, db'. split; [exact Hrun|].
  apply Hkept; [simpl; auto|discriminate].
Defined.
